(** * opkssh: login pipeline, client configuration and the verify entry point

    A shallow embedding of

    - [commands/login.go]            (LoginCmd: Run, determineProvider, login,
                                      LoginWithRefresh, writeKeysToSSHDir,
                                      writeKeys, fileExists),
    - [commands/config/client_config.go] (CreateDefaultClientConfig and the
                                      client configuration loader),
    - the command dispatcher [run] of the main package (verify / login / add),

    together with the properties the specification states about them.

    Go code is effectful: it reads and writes an [afero.Fs], prints to
    stdout, logs, and calls the OpenPubkey and ssh libraries.  The embedding
    threads an explicit [World] through a small state-and-error monad; calls
    to libraries that live outside the repository are fields of the record
    [Lib]. *)

From Stdlib Require Import ZArith NArith Ascii String List Lia Bool.
From stdpp Require Import base option strings gmap.

Open Scope Z_scope.

(* ===================================================================== *)
(** * Go errors                                                           *)
(* ===================================================================== *)

(** A Go [error] value.  [ErrWrap msg cause] is what
    [fmt.Errorf(msg + ": %w", cause)] builds; the two sentinels are the
    ones the code compares against or returns. *)
Inductive error : Type :=
| ErrNotExist                                (* os.ErrNotExist *)
| ErrCanceled                                (* context.Canceled *)
| ErrNew (msg : string)                      (* errors.New, fmt.Errorf without %w *)
| ErrWrap (msg : string) (cause : error).    (* fmt.Errorf with %w *)

#[global] Instance error_eq_dec : EqDecision error.
Proof. solve_decision. Defined.

(** [err.Error()] *)
Fixpoint Error (e : error) : string :=
  match e with
  | ErrNotExist => "file does not exist"
  | ErrCanceled => "context canceled"
  | ErrNew m => m
  | ErrWrap m c => m +:+ ": " +:+ Error c
  end.

(** [errors.Is(e, target)]: [target] occurs somewhere on the wrap chain. *)
Fixpoint errors_Is (e target : error) : bool :=
  bool_decide (e = target) ||
  match e with
  | ErrWrap _ c => errors_Is c target
  | _ => false
  end.

(** Results of pure fallible library calls. *)
Inductive result (A : Type) : Type :=
| Ok (a : A)
| Err (e : error).
Arguments Ok {A} a.
Arguments Err {A} e.

(* ===================================================================== *)
(** * The filesystem behind [afero.Fs]                                    *)
(* ===================================================================== *)

(** Permission bits, written the way Go writes them: [perm 6 4 0] is [0640]. *)
Definition perm (u g o : N) : N := (u * 64 + g * 8 + o)%N.

Inductive Node : Type :=
| NFile (data : string) (mode : N)
| NDir (mode : N).

#[global] Instance Node_eq_dec : EqDecision Node.
Proof. solve_decision. Defined.

(** A mutating request made through the [afero.Fs] interface, with the
    arguments the caller passed. *)
Inductive FsOp : Type :=
| OpWriteFile (name data : string) (mode : N)
| OpMkdirAll (name : string) (mode : N)
| OpOpenFile (name : string) (mode : N).

#[global] Instance FsOp_eq_dec : EqDecision FsOp.
Proof. solve_decision. Defined.

(** [filepath.Join] on two clean elements (an empty element is dropped). *)
Definition filepath_Join (a b : string) : string :=
  match a with
  | EmptyString => b
  | _ => a +:+ "/" +:+ b
  end.

Module Fs.

(** [Fs.Stat] / [Fs.Open]: succeed on every existing node. *)
Definition Stat (fs : gmap string Node) (name : string) : result Node :=
  match fs !! name with
  | Some n => Ok n
  | None => Err (ErrWrap ("stat " +:+ name) ErrNotExist)
  end.

Definition Open (fs : gmap string Node) (name : string) : result Node :=
  match fs !! name with
  | Some n => Ok n
  | None => Err (ErrWrap ("open " +:+ name) ErrNotExist)
  end.

(** [afero.ReadFile]: the bytes of a regular file. *)
Definition ReadFile (fs : gmap string Node) (name : string) : result string :=
  match fs !! name with
  | Some (NFile d _) => Ok d
  | Some (NDir _) => Err (ErrNew ("read " +:+ name +:+ ": is a directory"))
  | None => Err (ErrWrap ("open " +:+ name) ErrNotExist)
  end.

(** [afero.WriteFile name data mode] opens with [O_WRONLY|O_CREATE|O_TRUNC]:
    a missing file is created with [mode], an existing file is truncated
    and keeps the mode it has, a directory cannot be written. *)
Definition WriteFile (fs : gmap string Node) (name data : string) (mode : N)
  : result (gmap string Node) :=
  match fs !! name with
  | None => Ok (<[name := NFile data mode]> fs)
  | Some (NFile _ m) => Ok (<[name := NFile data m]> fs)
  | Some (NDir _) => Err (ErrNew ("open " +:+ name +:+ ": is a directory"))
  end.

(** [Fs.MkdirAll]: nothing to do for a directory, an error when a regular
    file is in the way. *)
Definition MkdirAll (fs : gmap string Node) (name : string) (mode : N)
  : result (gmap string Node) :=
  match fs !! name with
  | None => Ok (<[name := NDir mode]> fs)
  | Some (NDir _) => Ok fs
  | Some (NFile _ _) => Err (ErrNew ("mkdir " +:+ name +:+ ": not a directory"))
  end.

(** [Fs.OpenFile name (O_APPEND|O_WRONLY|O_CREATE) mode], as used for the
    log file. *)
Definition OpenFile (fs : gmap string Node) (name : string) (mode : N)
  : result (gmap string Node) :=
  match fs !! name with
  | None => Ok (<[name := NFile "" mode]> fs)
  | Some (NFile _ _) => Ok fs
  | Some (NDir _) => Err (ErrNew ("open " +:+ name +:+ ": is a directory"))
  end.

End Fs.

(* ===================================================================== *)
(** * Library data the login pipeline handles                             *)
(* ===================================================================== *)

(** [providers.OpenIdProvider]: the interface value together with the two
    optional capabilities the code asks for by type assertion. *)
Record Provider : Type := mkProvider {
  Issuer : string;
  refreshable : bool;        (* implements providers.RefreshableOpenIdProvider *)
  browser : bool             (* implements providers.BrowserOpenIdProvider *)
}.

#[global] Instance Provider_eq_dec : EqDecision Provider.
Proof. solve_decision. Defined.

(** [pktoken.PKToken]: the two members the code reads. *)
Record PKToken : Type := mkPKToken {
  Payload : string;
  OpToken : string
}.

#[global] Instance PKToken_eq_dec : EqDecision PKToken.
Proof. solve_decision. Defined.

(** The claims [oidc.NewJwt(..).GetClaims()] exposes. *)
Record IdClaims : Type := mkIdClaims {
  Email : string;
  Subject : string;
  ClaimIssuer : string;
  Audience : string
}.

(** [config.ProviderConfig] is declared outside the files at hand; the
    code only passes it around. *)
Record ProviderConfig : Type := mkProviderConfig {
  pc_alias : string;
  pc_issuer : string;
  pc_client_id : string
}.

(** [config.ClientConfig] *)
Record ClientConfig : Type := mkClientConfig {
  DefaultProvider : string;
  Providers : list ProviderConfig
}.

(** [client.OpkClient] as built by [client.New(provider, WithSigner(..))]. *)
Record OpkClient : Type := mkOpkClient {
  cl_provider : Provider;
  cl_signer : string
}.

(** [LoginCmd]: inputs, state and outputs ([Fs] lives in the [World]). *)
Record LoginCmd : Type := mkLoginCmd {
  autoRefreshArg : bool;
  configPathArg : string;
  createConfigArg : bool;
  logDirArg : string;
  disableBrowserOpenArg : bool;
  printIdTokenArg : bool;
  keyPathArg : string;
  providerArg : string;
  providerAliasArg : string;
  verbosity : Z;
  overrideProvider : option Provider;
  config : option ClientConfig;
  pkt : option PKToken;
  signer : option string;
  client : option OpkClient;
  principals : list string
}.

(** [NewLogin] *)
Definition NewLogin (autoRefresh : bool) (configPath : string) (createConfig : bool)
    (logDir : string) (disableBrowserOpen printIdToken : bool)
    (provider keyPath providerAlias : string) : LoginCmd :=
  {| autoRefreshArg := autoRefresh; configPathArg := configPath;
     createConfigArg := createConfig; logDirArg := logDir;
     disableBrowserOpenArg := disableBrowserOpen; printIdTokenArg := printIdToken;
     keyPathArg := keyPath; providerArg := provider; providerAliasArg := providerAlias;
     verbosity := 0; overrideProvider := None; config := None;
     pkt := None; signer := None; client := None; principals := [] |}.

(* ===================================================================== *)
(** * The world and the monad                                             *)
(* ===================================================================== *)

(** Where the standard logger writes ([log.SetOutput]). *)
Inductive LogSink : Type :=
| SinkStderr | SinkStdout | SinkStdoutAndFile | SinkFile.

(** Calls that leave the process: the identity provider, the chooser, the
    signer, and the one place the refresh loop blocks. *)
Inductive Call : Type :=
| CallChooseOp
| CallAuth (p : Provider)
| CallWait (d : Z)                 (* select { time.After(d) | ctx.Done() } *)
| CallRefresh
| CallSignCert (pkt : PKToken).

#[global] Instance Call_eq_dec : EqDecision Call.
Proof. solve_decision. Defined.

Record World : Type := mkWorld {
  w_fs : gmap string Node;
  w_ops : list FsOp;               (* requests made through afero.Fs, oldest first *)
  w_stdout : list string;          (* what was written to os.Stdout, oldest first *)
  w_stderr : list string;
  w_logfile : list string;         (* lines appended to the open log file *)
  w_sink : LogSink;
  w_calls : list Call              (* oldest first *)
}.

Definition set_fs (f : gmap string Node -> gmap string Node) (w : World) : World :=
  mkWorld (f (w_fs w)) (w_ops w) (w_stdout w) (w_stderr w) (w_logfile w) (w_sink w) (w_calls w).
Definition add_op (o : FsOp) (w : World) : World :=
  mkWorld (w_fs w) (w_ops w ++ [o]) (w_stdout w) (w_stderr w) (w_logfile w) (w_sink w) (w_calls w).
Definition add_stdout (s : string) (w : World) : World :=
  mkWorld (w_fs w) (w_ops w) (w_stdout w ++ [s]) (w_stderr w) (w_logfile w) (w_sink w) (w_calls w).
Definition add_stderr (s : string) (w : World) : World :=
  mkWorld (w_fs w) (w_ops w) (w_stdout w) (w_stderr w ++ [s]) (w_logfile w) (w_sink w) (w_calls w).
Definition add_logfile (s : string) (w : World) : World :=
  mkWorld (w_fs w) (w_ops w) (w_stdout w) (w_stderr w) (w_logfile w ++ [s]) (w_sink w) (w_calls w).
Definition set_sink (k : LogSink) (w : World) : World :=
  mkWorld (w_fs w) (w_ops w) (w_stdout w) (w_stderr w) (w_logfile w) k (w_calls w).
Definition add_call (c : Call) (w : World) : World :=
  mkWorld (w_fs w) (w_ops w) (w_stdout w) (w_stderr w) (w_logfile w) (w_sink w) (w_calls w ++ [c]).

(** How a Go function ends: it returns a value, returns an error, or the
    goroutine panics. *)
Inductive outcome (A : Type) : Type :=
| Done (a : A)
| Fail (e : error)
| Panic (msg : string).
Arguments Done {A} a.
Arguments Fail {A} e.
Arguments Panic {A} msg.

Definition M (A : Type) : Type := World -> outcome A * World.

Definition ret {A} (a : A) : M A := fun w => (Done a, w).
Definition fail {A} (e : error) : M A := fun w => (Fail e, w).
Definition panic {A} (msg : string) : M A := fun w => (Panic msg, w).
Definition bind {A B} (c : M A) (k : A -> M B) : M B :=
  fun w => match c w with
           | (Done a, w') => k a w'
           | (Fail e, w') => (Fail e, w')
           | (Panic m, w') => (Panic m, w')
           end.

Notation "x <- c ;; k" := (bind c (fun x => k))
  (at level 100, c at next level, right associativity).
Notation "c ;;; k" := (bind c (fun _ => k))
  (at level 100, right associativity).

(** [if err != nil { return fmt.Errorf(msg + ": %w", err) }] *)
Definition wrapErr {A} (msg : string) (c : M A) : M A :=
  fun w => match c w with
           | (Fail e, w') => (Fail (ErrWrap msg e), w')
           | r => r
           end.

(** A pure library call whose error is returned as it is. *)
Definition lift {A} (r : result A) : M A :=
  match r with
  | Ok a => ret a
  | Err e => fail e
  end.

(** Run a computation and hand its error to the caller as a value
    ([x, err := f()]); a panic still unwinds. *)
Definition try {A} (c : M A) : M (result A) :=
  fun w => match c w with
           | (Done a, w') => (Done (Ok a), w')
           | (Fail e, w') => (Done (Err e), w')
           | (Panic m, w') => (Panic m, w')
           end.

Definition get_fs : M (gmap string Node) := fun w => (Done (w_fs w), w).
Definition modify (f : World -> World) : M unit := fun w => (Done tt, f w).

(** [fmt.Print*] to stdout. *)
Definition fmt_Print (s : string) : M unit := modify (add_stdout s).

(** [log.Print*]: one line to wherever the logger points. *)
Definition log_Print (s : string) : M unit :=
  fun w => (Done tt,
            match w_sink w with
            | SinkStderr => add_stderr s w
            | SinkStdout => add_stdout s w
            | SinkStdoutAndFile => add_logfile s (add_stdout s w)
            | SinkFile => add_logfile s w
            end).

Definition log_SetOutput (k : LogSink) : M unit := modify (set_sink k).

Definition call (c : Call) : M unit := modify (add_call c).

(** The [afero.Afero] helpers, acting on the world's filesystem. *)
Definition afs_ReadFile (name : string) : M string :=
  fun w => match Fs.ReadFile (w_fs w) name with
           | Ok d => (Done d, w)
           | Err e => (Fail e, w)
           end.

Definition afs_WriteFile (name data : string) (mode : N) : M unit :=
  fun w => let w1 := add_op (OpWriteFile name data mode) w in
           match Fs.WriteFile (w_fs w) name data mode with
           | Ok fs' => (Done tt, set_fs (fun _ => fs') w1)
           | Err e => (Fail e, w1)
           end.

Definition afs_MkdirAll (name : string) (mode : N) : M unit :=
  fun w => let w1 := add_op (OpMkdirAll name mode) w in
           match Fs.MkdirAll (w_fs w) name mode with
           | Ok fs' => (Done tt, set_fs (fun _ => fs') w1)
           | Err e => (Fail e, w1)
           end.

Definition afs_OpenFile (name : string) (mode : N) : M unit :=
  fun w => let w1 := add_op (OpOpenFile name mode) w in
           match Fs.OpenFile (w_fs w) name mode with
           | Ok fs' => (Done tt, set_fs (fun _ => fs') w1)
           | Err e => (Fail e, w1)
           end.

Definition afs_Stat (name : string) : M Node :=
  fun w => match Fs.Stat (w_fs w) name with
           | Ok n => (Done n, w)
           | Err e => (Fail e, w)
           end.

(* ===================================================================== *)
(** * What the code calls outside the repository                          *)
(* ===================================================================== *)

(** One field per library function or host facility the modelled code
    uses.  A field of type [result _] can fail the way the Go call returns
    a non-nil error. *)
Record Lib : Type := mkLib {
  (* the host *)
  UserHomeDir : result string;                       (* os.UserHomeDir *)
  Environ : gmap string string;                      (* os.LookupEnv *)
  (* package config, in files that are not at hand *)
  DefaultClientConfig : string;                      (* embedded default-client-config.yml *)
  yaml_Unmarshal : string -> result ClientConfig;
  GetProvidersConfigFromEnv : gmap string string -> result (option (list ProviderConfig));
  NewProviderConfigFromString : string -> bool -> result ProviderConfig;
  ToProvider : ProviderConfig -> bool -> result Provider;
  CreateProvidersMap : list ProviderConfig -> result (gmap string ProviderConfig);
  ToUpper : string -> string;                        (* strings.ToUpper *)
  ChooseOp : list Provider -> bool -> result Provider;   (* WebChooser.ChooseOp *)
  (* openpubkey *)
  GenKeyPair : result string;                        (* util.GenKeyPair(jwa.ES256) *)
  client_New : Provider -> string -> result OpkClient;
  Auth : OpkClient -> result PKToken;
  Compact : PKToken -> result string;
  NewJwt : string -> result IdClaims;                (* oidc.NewJwt(..).GetClaims() *)
  (* sshcert, x/crypto/ssh, encoding/pem *)
  sshcert_New : PKToken -> list string -> result string;
  NewSignerFromSigner : string -> result string;
  NewSignerWithAlgorithms : string -> result string;
  SignCert : string -> string -> result string;
  MarshalAuthorizedKey : string -> string;
  MarshalPrivateKey : string -> string -> result string;
  EncodeToMemory : string -> string;
  ParseAuthorizedKey : string -> result string;      (* the comment it returns *)
  (* encoding/json, jws, base64 *)
  json_MarshalIndent : IdClaims -> result string;
  json_exp : string -> result (option Z);            (* Unmarshal into struct{exp} *)
  SplitCompactString : string -> result (string * string * string);
  b64url_Decode : string -> result string;
  (* fmt *)
  Duration_String : Z -> string;                     (* %v of a time.Duration *)
  Sprint_LoginCmd : LoginCmd -> string               (* %+v of a LoginCmd *)
}.

Definition OPKSSH_DEFAULT_ENVVAR : string := "OPKSSH_DEFAULT".
Definition WEBCHOOSER_ALIAS : string := "WEBCHOOSER".

Definition nl : string := String (Ascii.ascii_of_nat 10) EmptyString.

(* ===================================================================== *)
(** * commands/login.go: writing the keys                                 *)
(* ===================================================================== *)

Section KeyFiles.

Context (lib : Lib).

(** [fileExists]: everything but "does not exist" counts as existing. *)
Definition fileExists (fPath : string) : M bool :=
  fun w => match Fs.Open (w_fs w) fPath with
           | Ok _ => (Done true, w)
           | Err e => (Done (negb (errors_Is e ErrNotExist)), w)
           end.

(** [writeKeys] *)
Definition writeKeys (seckeyPath pubkeyPath seckeySshPem certBytes : string) : M unit :=
  afs_WriteFile seckeyPath seckeySshPem (perm 6 0 0) ;;;
  fmt_Print ("Writing opk ssh public key to " +:+ pubkeyPath +:+
             " and corresponding secret key to " +:+ seckeyPath +:+ nl) ;;;
  afs_WriteFile pubkeyPath (certBytes +:+ " openpubkey") (perm 6 4 4).

(** The [for _, keyFilename := range ...] loop of [writeKeysToSSHDir];
    falling off the end of the list is the statement after the loop. *)
Fixpoint keyFileLoop (sshPath : string) (names : list string)
    (seckeySshPem certBytes : string) : M unit :=
  match names with
  | [] => fail (ErrNew "no default ssh key file free for openpubkey")
  | keyFilename :: rest =>
      let seckeyPath := filepath_Join sshPath keyFilename in
      let pubkeyPath := seckeyPath +:+ ".pub" in
      secExists <- fileExists seckeyPath ;;
      if negb secExists then
        writeKeys seckeyPath pubkeyPath seckeySshPem certBytes
      else
        pubExists <- fileExists pubkeyPath ;;
        if negb pubExists then
          keyFileLoop sshPath rest seckeySshPem certBytes
        else
          r <- try (afs_ReadFile pubkeyPath) ;;
          match r with
          | Err _ =>
              log_Print ("Failed to read: " +:+ pubkeyPath) ;;;
              keyFileLoop sshPath rest seckeySshPem certBytes
          | Ok sshPubkey =>
              match ParseAuthorizedKey lib sshPubkey with
              | Err _ =>
                  log_Print ("Failed to parse: " +:+ pubkeyPath) ;;;
                  keyFileLoop sshPath rest seckeySshPem certBytes
              | Ok comment =>
                  if String.eqb comment "openpubkey" then
                    writeKeys seckeyPath pubkeyPath seckeySshPem certBytes
                  else
                    keyFileLoop sshPath rest seckeySshPem certBytes
              end
          end
  end.

Definition defaultKeyFilenames : list string := ["id_ecdsa"; "id_ed25519"].

(** [writeKeysToSSHDir] *)
Definition writeKeysToSSHDir (seckeySshPem certBytes : string) : M unit :=
  homePath <- lift (UserHomeDir lib) ;;
  let sshPath := filepath_Join homePath ".ssh" in
  afs_MkdirAll sshPath (perm 7 7 7) ;;;
  keyFileLoop sshPath defaultKeyFilenames seckeySshPem certBytes.

(** The two branches of "Write ssh secret key and public key to
    filesystem" shared by [login] and [LoginWithRefresh]. *)
Definition writeKeyPair (seckeyPath seckeySshPem certBytes : string) : M unit :=
  wrapErr "failed to write SSH keys to filesystem"
    (if negb (String.eqb seckeyPath "") then
       writeKeys seckeyPath (seckeyPath +:+ ".pub") seckeySshPem certBytes
     else
       writeKeysToSSHDir seckeySshPem certBytes).

End KeyFiles.

(* ===================================================================== *)
(** * commands/config/client_config.go                                    *)
(* ===================================================================== *)

(** [filepath.Dir] on a clean path: everything before the last separator. *)
Fixpoint dir_prefix (s : string) : option string :=
  match s with
  | EmptyString => None
  | String c rest =>
      match dir_prefix rest with
      | Some p => Some (String c p)
      | None => if Ascii.eqb c "/"%char then Some EmptyString else None
      end
  end.

Definition filepath_Dir (s : string) : string :=
  match dir_prefix s with
  | None => "."
  | Some EmptyString => "/"
  | Some p => p
  end.

Section ClientConfigFile.

Context (lib : Lib).

(** [NewClientConfig] *)
Definition NewClientConfig (c : string) : M ClientConfig :=
  lift (yaml_Unmarshal lib c).

(** [ClientConfig.GetProvidersMap] *)
Definition GetProvidersMap (c : ClientConfig) : result (gmap string ProviderConfig) :=
  CreateProvidersMap lib (Providers c).

(** [GetDefaultClientConfigPath]; the argument is not looked at. *)
Definition GetDefaultClientConfigPath (configPath : string) : M string :=
  dir <- wrapErr "failed to get user config dir" (lift (UserHomeDir lib)) ;;
  ret (filepath_Join (filepath_Join dir ".opk") "config.yml").

(** [GetClientConfigFromFile] *)
Definition GetClientConfigFromFile (configPath : string) : M ClientConfig :=
  configPath <- (if String.eqb configPath "" then GetDefaultClientConfigPath configPath
                 else ret configPath) ;;
  configBytes <- wrapErr "failed to read config file" (afs_ReadFile configPath) ;;
  wrapErr "failed to parse config file" (NewClientConfig configBytes).

(** [CreateDefaultClientConfig] *)
Definition CreateDefaultClientConfig (configPath : string) : M unit :=
  configPath <- (if String.eqb configPath "" then GetDefaultClientConfigPath configPath
                 else ret configPath) ;;
  st <- try (afs_Stat configPath) ;;
  match st with
  | Ok _ =>
      fail (ErrNew ("attempting to create config file but config file already exists at "
                    +:+ configPath))
  | Err _ =>
      wrapErr "failed to create config directory"
        (afs_MkdirAll (filepath_Dir configPath) (perm 7 5 5)) ;;;
      wrapErr "failed to write default config file"
        (afs_WriteFile configPath (DefaultClientConfig lib) (perm 6 4 4)) ;;;
      log_Print ("created client config file at " +:+ configPath)
  end.

End ClientConfigFile.

(* ===================================================================== *)
(** * commands/login.go: login, refresh and provider resolution           *)
(* ===================================================================== *)

(** Durations are nanoseconds, as in [time.Duration]. *)
Definition Second : Z := 1000000000.
Definition Minute : Z := 60 * Second.

(** The output fields of the [LoginCmd] that [login] returns. *)
Record LoginResult : Type := mkLoginResult {
  lr_pkt : PKToken;
  lr_signer : string;
  lr_client : OpkClient;
  lr_principals : list string
}.

(** [choosers.WebChooser] as [NewWebChooser] builds it. *)
Record WebChooser : Type := NewWebChooser {
  providerList : list Provider;
  wc_openBrowser : bool
}.

(** How the [select] of the refresh loop wakes up. *)
Inductive Wake : Type :=
| WakeTimer                         (* <-time.After(untilExpired) *)
| WakeDone (ctxErr : error).        (* <-ctx.Done(), with what ctx.Err() returns *)

(** What the outside supplies to one iteration of the refresh loop: the
    clock when the iteration starts, which case of the [select] fires, and
    what [client.Refresh] answers if it is called. *)
Record Tick : Type := mkTick {
  t_now : Z;                        (* time.Now(), nanoseconds since the epoch *)
  t_wake : Wake;
  t_refresh : result PKToken
}.

(** A function that has not returned when the scripted input ends is
    still running. *)
Inductive Status : Type := Returned | StillRunning.

(** [s[:len(s)-1]] for a non-empty [s]. *)
Fixpoint drop_last (s : string) : string :=
  match s with
  | EmptyString => EmptyString
  | String c EmptyString => EmptyString
  | String c rest => String c (drop_last rest)
  end.

Section Login.

Context (lib : Lib).

(** [createSSHCert] *)
Definition createSSHCert (pkt : PKToken) (signer : string) (principals : list string)
  : M (string * string) :=
  cert <- lift (sshcert_New lib pkt principals) ;;
  sshSigner <- lift (NewSignerFromSigner lib signer) ;;
  (* sshSigner.(ssh.AlgorithmSigner) holds for every signer the library makes *)
  signerMas <- lift (NewSignerWithAlgorithms lib sshSigner) ;;
  call (CallSignCert pkt) ;;;
  sshCert <- lift (SignCert lib cert signerMas) ;;
  let certBytes := MarshalAuthorizedKey lib sshCert in
  (* Remove newline character that MarshalAuthorizedKey() adds *)
  certBytes <- (if String.eqb certBytes "" then panic "slice bounds out of range [:-1]"
                else ret (drop_last certBytes)) ;;
  seckeySsh <- lift (MarshalPrivateKey lib signer "openpubkey cert") ;;
  ret (certBytes, EncodeToMemory lib seckeySsh).

(** [IdentityString] *)
Definition IdentityString (pkt : PKToken) : M string :=
  claims <- lift (NewJwt lib (OpToken pkt)) ;;
  if String.eqb (Email claims) "" then
    ret ("Sub, issuer, audience: " +:+ nl +:+ Subject claims +:+ " " +:+
         ClaimIssuer claims +:+ " " +:+ Audience claims)
  else
    ret ("Email, sub, issuer, audience: " +:+ nl +:+ Email claims +:+ " " +:+
         Subject claims +:+ " " +:+ ClaimIssuer claims +:+ " " +:+ Audience claims).

(** [PrettyIdToken] *)
Definition PrettyIdToken (pkt : PKToken) : M string :=
  claims <- lift (NewJwt lib (OpToken pkt)) ;;
  lift (json_MarshalIndent lib claims).

(** [login] *)
Definition login (provider : Provider) (printIdToken : bool) (seckeyPath : string)
  : M LoginResult :=
  signer <- wrapErr "failed to generate keypair" (lift (GenKeyPair lib)) ;;
  opkClient <- lift (client_New lib provider signer) ;;
  call (CallAuth provider) ;;;
  pkt <- lift (Auth lib opkClient) ;;
  let principals : list string := [] in
  keys <- wrapErr "failed to generate SSH cert" (createSSHCert pkt signer principals) ;;
  writeKeyPair lib seckeyPath (snd keys) (fst keys) ;;;
  (if printIdToken then
     idTokenStr <- wrapErr "failed to format ID Token" (PrettyIdToken pkt) ;;
     fmt_Print ("id_token:" +:+ nl +:+ idTokenStr +:+ nl)
   else ret tt) ;;;
  idStr <- wrapErr "failed to parse ID Token" (IdentityString pkt) ;;
  fmt_Print ("Keys generated for identity" +:+ nl +:+ idStr +:+ nl) ;;;
  ret {| lr_pkt := pkt; lr_signer := signer; lr_client := opkClient;
         lr_principals := principals |}.

(** [Login] *)
Definition Login (provider : Provider) (printIdToken : bool) (seckeyPath : string)
  : M unit :=
  login provider printIdToken seckeyPath ;;; ret tt.

(** [claims.Expiration] after [json.Unmarshal(payload, &claims)]: a
    payload without [exp] leaves the field as it was. *)
Definition unmarshalExp (payload : string) (old : Z) : M Z :=
  e <- lift (json_exp lib payload) ;;
  ret (match e with Some x => x | None => old end).

(** The duration the loop asks [time.After] for. *)
Definition untilExpired (expiration now : Z) : Z :=
  (expiration * Second - now) - Minute.

(** One pass through the body of the [for] loop of [LoginWithRefresh]:
    returning a value is reaching the end of the body, failing is the
    loop's [return]. *)
Definition refreshIteration (seckeyPath : string) (t : Tick)
    (st : LoginResult * Z) : M (LoginResult * Z) :=
  let loginResult := fst st in
  let d := untilExpired (snd st) (t_now t) in
  log_Print ("Waiting for " +:+ Duration_String lib d +:+
             " before attempting to refresh id_token...") ;;;
  call (CallWait d) ;;;
  match t_wake t with
  | WakeDone ctxErr => fail ctxErr
  | WakeTimer =>
      log_Print "Refreshing id_token..." ;;;
      call CallRefresh ;;;
      refreshedPkt <- lift (t_refresh t) ;;
      let loginResult :=
        {| lr_pkt := refreshedPkt; lr_signer := lr_signer loginResult;
           lr_client := lr_client loginResult;
           lr_principals := lr_principals loginResult |} in
      keys <- wrapErr "failed to generate SSH cert"
                (createSSHCert (lr_pkt loginResult) (lr_signer loginResult)
                               (lr_principals loginResult)) ;;
      writeKeyPair lib seckeyPath (snd keys) (fst keys) ;;;
      comPkt <- lift (Compact lib refreshedPkt) ;;
      parts <- wrapErr "malformed ID token" (lift (SplitCompactString lib comPkt)) ;;
      payload <- wrapErr "refreshed ID token payload is not base64 encoded"
                   (lift (b64url_Decode lib (snd (fst parts)))) ;;
      expiration <- wrapErr "malformed refreshed ID token payload"
                      (unmarshalExp payload (snd st)) ;;
      ret (loginResult, expiration)
  end.

(** The [for] loop, driven by the scripted input. *)
Fixpoint refreshLoop (seckeyPath : string) (script : list Tick)
    (st : LoginResult * Z) : M Status :=
  match script with
  | [] => ret StillRunning
  | t :: rest =>
      st' <- refreshIteration seckeyPath t st ;;
      refreshLoop seckeyPath rest st'
  end.

(** [LoginWithRefresh] *)
Definition LoginWithRefresh (script : list Tick) (provider : Provider)
    (printIdToken : bool) (seckeyPath : string) : M Status :=
  loginResult <- login provider printIdToken seckeyPath ;;
  expiration <- unmarshalExp (Payload (lr_pkt loginResult)) 0 ;;
  refreshLoop seckeyPath script (loginResult, expiration).

(** [l.config], a pointer the code dereferences. *)
Definition theConfig (l : LoginCmd) : M ClientConfig :=
  match config l with
  | Some c => ret c
  | None => panic "nil pointer dereference"
  end.

(** The [for _, providerConfig := range providerConfigs] loop of the
    chooser branch; [op.(providers.BrowserOpenIdProvider)] panics on a
    provider without that capability. *)
Fixpoint browserProviders (providerConfigs : list ProviderConfig) (openBrowser : bool)
    (acc : list Provider) : M (list Provider) :=
  match providerConfigs with
  | [] => ret acc
  | providerConfig :: rest =>
      op <- wrapErr "error creating provider from config"
              (lift (ToProvider lib providerConfig openBrowser)) ;;
      if browser op then browserProviders rest openBrowser (acc ++ [op])
      else panic "interface conversion: not a providers.BrowserOpenIdProvider"
  end.

(** [determineProvider]: a provider, or a chooser, or an error. *)
Definition determineProvider (l : LoginCmd) : M (option Provider * option WebChooser) :=
  let openBrowser := negb (disableBrowserOpenArg l) in
  if negb (String.eqb (providerArg l) "") then
    providerConfig <- wrapErr "error parsing provider argument"
                        (lift (NewProviderConfigFromString lib (providerArg l) false)) ;;
    provider <- wrapErr "error creating provider from config"
                  (lift (ToProvider lib providerConfig openBrowser)) ;;
    ret (Some provider, None)
  else
    let defaultProviderEnv :=
      match Environ lib !! OPKSSH_DEFAULT_ENVVAR with Some v => v | None => "" end in
    providerConfigsEnv <- wrapErr "error getting provider config from env"
                            (lift (GetProvidersConfigFromEnv lib (Environ lib))) ;;
    defaultProviderAlias <-
      (if negb (String.eqb (providerAliasArg l) "") then ret (providerAliasArg l)
       else if negb (String.eqb defaultProviderEnv "") then ret defaultProviderEnv
       else
         cfg <- theConfig l ;;
         if negb (String.eqb (DefaultProvider cfg) "") then ret (DefaultProvider cfg)
         else ret WEBCHOOSER_ALIAS) ;;
    providerConfigs <-
      (match providerConfigsEnv with
       | Some cs => ret cs
       | None =>
           cfg <- theConfig l ;;
           match Providers cfg with
           | _ :: _ => ret (Providers cfg)
           | [] => fail (ErrNew "no providers specified")
           end
       end) ;;
    if negb (String.eqb (ToUpper lib defaultProviderAlias) WEBCHOOSER_ALIAS) then
      providerMap <- wrapErr "error creating provider map"
                       (lift (CreateProvidersMap lib providerConfigs)) ;;
      match providerMap !! defaultProviderAlias with
      | None =>
          fail (ErrNew ("error getting provider config for alias " +:+ defaultProviderAlias))
      | Some providerConfig =>
          provider <- wrapErr "error creating provider from config"
                        (lift (ToProvider lib providerConfig openBrowser)) ;;
          ret (Some provider, None)
      end
    else
      providerList <- browserProviders providerConfigs openBrowser [] ;;
      ret (None, Some (NewWebChooser providerList openBrowser)).

End Login.

Section Run.

Context (lib : Lib).

Definition with_configPath (l : LoginCmd) (p : string) : LoginCmd :=
  mkLoginCmd (autoRefreshArg l) p (createConfigArg l) (logDirArg l)
    (disableBrowserOpenArg l) (printIdTokenArg l) (keyPathArg l) (providerArg l)
    (providerAliasArg l) (verbosity l) (overrideProvider l) (config l)
    (pkt l) (signer l) (client l) (principals l).

Definition with_config (l : LoginCmd) (c : ClientConfig) : LoginCmd :=
  mkLoginCmd (autoRefreshArg l) (configPathArg l) (createConfigArg l) (logDirArg l)
    (disableBrowserOpenArg l) (printIdTokenArg l) (keyPathArg l) (providerArg l)
    (providerAliasArg l) (verbosity l) (overrideProvider l) (Some c)
    (pkt l) (signer l) (client l) (principals l).

(** [Run], lines 93-109: where the log goes.  When the log file cannot
    be opened [logFile] is nil and [defer logFile.Close()] panics. *)
Definition setupLogging (l : LoginCmd) : M unit :=
  (if negb (String.eqb (logDirArg l) "") then
     let logFilePath := filepath_Join (logDirArg l) "opkssh.log" in
     r <- try (afs_OpenFile logFilePath (perm 6 6 0)) ;;
     match r with
     | Err err =>
         log_Print ("Failed to open log for writing: " +:+ Error err +:+ " " +:+ nl) ;;;
         panic "invalid memory address or nil pointer dereference"
     | Ok _ => log_SetOutput SinkStdoutAndFile
     end
   else log_SetOutput SinkStdout) ;;;
  if (2 <=? verbosity l)%Z then
    log_Print ("DEBUG: running login command with args: " +:+ Sprint_LoginCmd lib l)
  else ret tt.

(** [Run], lines 111-140: the client configuration.  [None] is the
    [return] of the [--create-config] branch. *)
Definition loadConfig (l : LoginCmd) : M (option LoginCmd) :=
  path <- (if String.eqb (configPathArg l) "" then
             dir <- wrapErr "failed to get user config dir" (lift (UserHomeDir lib)) ;;
             ret (filepath_Join (filepath_Join dir ".opk") "config.yml")
           else ret (configPathArg l)) ;;
  let l := with_configPath l path in
  st <- try (afs_Stat (configPathArg l)) ;;
  match st with
  | Ok _ =>
      (if createConfigArg l then
         log_Print ("--create-config=true but config file already exists at "
                    +:+ configPathArg l)
       else ret tt) ;;;
      client_config <- GetClientConfigFromFile lib (configPathArg l) ;;
      ret (Some (with_config l client_config))
  | Err _ =>
      if createConfigArg l then
        CreateDefaultClientConfig lib (configPathArg l) ;;; ret None
      else
        log_Print ("failed to find client config file to generate a default config, "
                   +:+ "run `opkssh login --create-config` to create a default config file") ;;;
        c <- wrapErr "failed to parse default config file"
               (NewClientConfig lib (DefaultClientConfig lib)) ;;
        ret (Some (with_config l c))
  end.

(** [Run], lines 142-160: the provider to log in with. *)
Definition resolveProvider (l : LoginCmd) : M Provider :=
  match overrideProvider l with
  | Some p => ret p
  | None =>
      r <- determineProvider lib l ;;
      match r with
      | (_, Some chooser) =>
          call CallChooseOp ;;;
          wrapErr "error choosing provider"
            (lift (ChooseOp lib (providerList chooser) (wc_openBrowser chooser)))
      | (Some op, None) => ret op
      | (None, None) => fail (ErrNew "no provider found")
      end
  end.

(** [Run], lines 162-178: execute the login command. *)
Definition executeLogin (l : LoginCmd) (script : list Tick) (provider : Provider)
  : M Status :=
  if autoRefreshArg l then
    if refreshable provider then
      wrapErr "error logging in"
        (LoginWithRefresh lib script provider (printIdTokenArg l) (keyPathArg l))
    else
      fail (ErrNew ("supplied OpenID Provider (" +:+ Issuer provider +:+
                    ") does not support auto-refresh and auto-refresh argument set to true"))
  else
    wrapErr "error logging in" (Login lib provider (printIdTokenArg l) (keyPathArg l)) ;;;
    ret Returned.

(** [LoginCmd.Run] *)
Definition Run (l : LoginCmd) (script : list Tick) : M Status :=
  setupLogging l ;;;
  r <- loadConfig l ;;
  match r with
  | None => ret Returned
  | Some l =>
      provider <- resolveProvider l ;;
      executeLogin l script provider
  end.

End Run.

(* ===================================================================== *)
(** * The main package: contexts, signals and the command dispatcher      *)
(* ===================================================================== *)

Inductive Signal : Type := SIGHUP | SIGINT | SIGQUIT | SIGTERM | SIGUSR1.

#[global] Instance Signal_eq_dec : EqDecision Signal.
Proof. solve_decision. Defined.







Section Main.

(** The commands package and the provider constructor the dispatcher was
    built against. *)
Context (NewGoogleProvider : result Provider)
        (ParseLoginFlags : list string -> option (bool * string))
        (commands_Login commands_LoginWithRefresh : Provider -> M unit)
        (Verify : Provider -> string -> string -> string -> result string)
        (Add : string -> string -> result string).

Definition join_args (args : list string) : string :=
  String.concat " " args.

Definition arg (args : list string) (i : nat) : string :=
  nth i args "".

(** [case "verify":] of [run] *)
Definition runVerify (provider : Provider) (args : list string) : M Z :=
  (* Setup logger *)
  r <- try (afs_OpenFile "/var/log/openpubkey.log" (perm 7 0 0)) ;;
  match r with
  | Err err => fmt_Print ("ERROR opening log file: " +:+ Error err +:+ nl)
  | Ok _ => log_SetOutput SinkFile
  end ;;;
  log_Print (join_args args) ;;;
  if negb (Nat.eqb (length args) 5) then
    log_Print ("Invalid number of arguments for verify, expected: " +:+
               "`<User (TOKEN u)> <Key type (TOKEN t)> <Cert (TOKEN k)>`") ;;;
    ret 1
  else
    let userArg := arg args 2 in
    let certB64 := arg args 3 in
    let pubkeyType := arg args 4 in
    match Verify provider userArg certB64 pubkeyType with
    | Err err => log_Print ("failed to verify: " +:+ Error err) ;;; ret 1
    | Ok authKey => fmt_Print (authKey +:+ nl) ;;; ret 0
    end.

(** [case "login":] of [run]; [flag.ExitOnError] ends the process with
    status 2 on a bad flag. *)
Definition runLogin (provider : Provider) (args : list string) : M Z :=
  match ParseLoginFlags (skipn 2 args) with
  | None => ret 2
  | Some (autoRefresh, logFilePath) =>
      (if negb (String.eqb logFilePath "") then
         r <- try (afs_OpenFile (filepath_Join logFilePath "openpubkey.log") (perm 7 0 0)) ;;
         match r with
         | Ok _ => log_SetOutput SinkStdoutAndFile
         | Err _ => ret tt
         end
       else ret tt) ;;;
      r <- try (if autoRefresh : bool then commands_LoginWithRefresh provider
                else commands_Login provider) ;;
      match r with
      | Err err => log_Print ("ERROR logging in: " +:+ Error err) ;;; ret 1
      | Ok _ => ret 0
      end
  end.

(** [case "add":] of [run] *)
Definition runAdd (args : list string) : M Z :=
  if negb (Nat.eqb (length args) 4) then
    fmt_Print ("Invalid number of arguments for verify, expected: " +:+
               "`<Email (TOKEN e)> <Principal (TOKEN p)>`" +:+ nl) ;;;
    ret 1
  else
    let inputEmail := arg args 2 in
    let inputPrincipal := arg args 3 in
    match Add inputEmail inputPrincipal with
    | Err err => log_Print ("failed to add to policy: " +:+ Error err) ;;; ret 1
    | Ok policyFilePath =>
        log_Print ("Successfully added new policy to " +:+ policyFilePath) ;;; ret 0
    end.

(** [run]: the exit status of the process for [os.Args = args]. *)
Definition run (args : list string) : M Z :=
  if (length args <? 2)%nat then
    fmt_Print ("Example SSH key generator using OpenPubkey: " +:+
               "command choices are: login, verify, and add" +:+ nl) ;;;
    ret 1
  else
    let command := arg args 1 in
    match NewGoogleProvider with
    | Err err =>
        log_Print ("failed to create new google provider instance: " +:+ Error err) ;;;
        ret 1
    | Ok provider =>
        if String.eqb command "login" then runLogin provider args
        else if String.eqb command "verify" then runVerify provider args
        else if String.eqb command "add" then runAdd args
        else log_Print ("ERROR! Unrecognized command: " +:+ command) ;;; ret 1
    end.

End Main.


(* ===================================================================== *)
(** * Trusted files on the server                                         *)
(* ===================================================================== *)

Module ServerConfig.

(** Modelled from the spec: the error kinds of section 7 that a load of
    a trusted file can end in; the file that declares them is not at
    hand. *)
Inductive ErrorKind : Type := CONFIG_PERMS | CONFIG_PARSE | NOT_FOUND.

Record LoadError : Type := mkLoadError { kind : ErrorKind; message : string }.

(** Modelled from the spec: the owner and group of a path, as the
    permission checker learns them from its [CmdRunner]
    ([TestEnvFromConfig] answers "owner group"). *)
Definition Ownership : Type := string -> string * string.

(** Modelled from the spec: every trusted server-side file is owned by
    [root:opksshuser] and has mode [640] (section 6, on-disk paths). *)
Definition trustedOwner : string := "root".
Definition trustedGroup : string := "opksshuser".
Definition trustedMode : N := perm 6 4 0.

Definition node_mode (n : Node) : N :=
  match n with
  | NFile _ m => m
  | NDir m => m
  end.

Definition octal_digit (n : N) : string :=
  match n with
  | 0%N => "0" | 1%N => "1" | 2%N => "2" | 3%N => "3"
  | 4%N => "4" | 5%N => "5" | 6%N => "6" | _ => "7"
  end.

(** The permission bits as [%o] prints them. *)
Definition octal (m : N) : string :=
  octal_digit ((m / 64) mod 8) +:+ octal_digit ((m / 8) mod 8) +:+ octal_digit (m mod 8).

(** Modelled from the spec: [files.PermsChecker.CheckPerm], which is not
    at hand.  A missing file, a mode outside the required one, a wrong
    owner and a wrong group are errors, with the messages
    [TestEnvFromConfig] expects. *)
Definition CheckPerm (fs : gmap string Node) (own : Ownership) (path : string)
  : option LoadError :=
  match fs !! path with
  | None => Some (mkLoadError NOT_FOUND "file does not exist")
  | Some n =>
      if negb (N.eqb (node_mode n) trustedMode) then
        Some (mkLoadError CONFIG_PERMS
                ("expected one of the following permissions [640], got ("
                 +:+ octal (node_mode n) +:+ ")"))
      else if negb (String.eqb (fst (own path)) trustedOwner) then
        Some (mkLoadError CONFIG_PERMS
                ("expected owner (" +:+ trustedOwner +:+ "), got ("
                 +:+ fst (own path) +:+ ")"))
      else if negb (String.eqb (snd (own path)) trustedGroup) then
        Some (mkLoadError CONFIG_PERMS
                ("expected group (" +:+ trustedGroup +:+ "), got ("
                 +:+ snd (own path) +:+ ")"))
      else None
  end.

(** Modelled from the spec: the load of a trusted file, which is not at
    hand: "any file whose ownership/mode deviates is ignored with an
    error", and only then is the content read and parsed. *)
Definition loadTrusted {A : Type} (parse : string -> option A)
    (fs : gmap string Node) (own : Ownership) (path : string) : LoadError + A :=
  match CheckPerm fs own path with
  | Some e => inl e
  | None =>
      match Fs.ReadFile fs path with
      | Err e => inl (mkLoadError NOT_FOUND (Error e))
      | Ok content =>
          match parse content with
          | None => inl (mkLoadError CONFIG_PARSE "failed to parse config file")
          | Some a => inr a
          end
      end
  end.

(** Modelled from the spec: the server configuration and its [env_vars]. *)
Record ServerConfig : Type := mkServerConfig { env_vars : list (string * string) }.

(** Modelled from the spec: the three loads of trusted files (server
    configuration, system policy, provider registry); none of them is at
    hand, the spec gives all three the same ownership rule. *)
Definition LoadServerConfig (parse : string -> option ServerConfig) :=
  loadTrusted parse.
Definition LoadSystemPolicy {Row : Type} (parse : string -> option (list Row)) :=
  loadTrusted parse.
Definition LoadProviderFile (parse : string -> option ProviderConfig) :=
  loadTrusted parse.

(** [os.Setenv] for every entry. *)
Definition export (vars : list (string * string)) (env : gmap string string)
  : gmap string string :=
  foldl (fun e kv => <[fst kv := snd kv]> e) env vars.

(** Modelled from the spec: [VerifyCmd.SetEnvVarInConfig], which is not
    at hand ("load and enforce permissions; export env_vars").  Returns
    the error, if any, and the process environment afterwards. *)
Definition SetEnvVarInConfig (parse : string -> option ServerConfig)
    (fs : gmap string Node) (own : Ownership) (path : string)
    (env : gmap string string) : option LoadError * gmap string string :=
  match LoadServerConfig parse fs own path with
  | inl e => (Some e, env)
  | inr cfg => (None, export (env_vars cfg) env)
  end.

End ServerConfig.

(* ===================================================================== *)
(** * A small instance of the library, for concrete runs                  *)
(* ===================================================================== *)

Module Sample.

Definition upper_ascii (c : ascii) : ascii :=
  let n := nat_of_ascii c in
  if (97 <=? n)%nat && (n <=? 122)%nat then ascii_of_nat (n - 32) else c.

Fixpoint upper (s : string) : string :=
  match s with
  | EmptyString => EmptyString
  | String c r => String (upper_ascii c) (upper r)
  end.

(** An authorized-key line is "type base64 comment". *)
Definition parseComment (line : string) : result string :=
  match String.words line with
  | [_; _; c] => Ok c
  | _ => Err (ErrNew "ssh: no key found")
  end.

Definition google : ProviderConfig :=
  mkProviderConfig "google" "https://accounts.google.com" "206584157355".
Definition azure : ProviderConfig :=
  mkProviderConfig "azure" "https://login.microsoftonline.com/v2.0" "096ce0a3".
Definition actions : ProviderConfig :=
  mkProviderConfig "actions" "https://token.actions.githubusercontent.com" "gha".

Definition defaultConfig : ClientConfig := mkClientConfig "" [google; azure].

Definition token (exp : string) : PKToken := mkPKToken exp "header.claims.sig".

Definition lib_with (home : result string) (env : gmap string string) : Lib :=
  {| UserHomeDir := home;
     Environ := env;
     DefaultClientConfig := "default_provider: webchooser";
     yaml_Unmarshal := fun s =>
       if String.eqb s "default_provider: webchooser" then Ok defaultConfig
       else if String.eqb s "default_provider: azure"
            then Ok (mkClientConfig "azure" [google; azure])
       else Err (ErrNew "yaml: unmarshal errors");
     GetProvidersConfigFromEnv := fun e =>
       match e !! "OPKSSH_PROVIDERS" with
       | None => Ok None
       | Some _ => Ok (Some [actions; google])
       end;
     NewProviderConfigFromString := fun s _ => Ok (mkProviderConfig "" s "cli");
     ToProvider := fun pc _ =>
       Ok (mkProvider (pc_issuer pc)
             (negb (String.eqb (pc_alias pc) "actions")) true);
     CreateProvidersMap := fun cs =>
       Ok (list_to_map (map (fun c => (pc_alias c, c)) cs));
     ToUpper := upper;
     ChooseOp := fun ps _ =>
       match ps with
       | p :: _ => Ok p
       | [] => Err (ErrNew "no provider chosen")
       end;
     GenKeyPair := Ok "EPHEMERAL-KEY";
     client_New := fun p s => Ok (mkOpkClient p s);
     Auth := fun _ => Ok (token "exp-1");
     Compact := fun t => Ok (Payload t);
     NewJwt := fun _ =>
       Ok (mkIdClaims "alice@example.com" "1234" "https://accounts.google.com" "aud");
     sshcert_New := fun t _ => Ok ("CERT-" +:+ Payload t);
     NewSignerFromSigner := fun s => Ok s;
     NewSignerWithAlgorithms := fun s => Ok s;
     SignCert := fun c _ => Ok c;
     MarshalAuthorizedKey := fun c =>
       "ecdsa-sha2-nistp256-cert-v01@openssh.com " +:+ c +:+ nl;
     MarshalPrivateKey := fun s _ => Ok ("PRIVATE " +:+ s);
     EncodeToMemory := fun b => b;
     ParseAuthorizedKey := parseComment;
     json_MarshalIndent := fun _ => Ok "{}";
     json_exp := fun s =>
       if String.eqb s "exp-1" then Ok (Some 1000)
       else if String.eqb s "exp-2" then Ok (Some 2000)
       else Ok None;
     SplitCompactString := fun s => Ok ("h", s, "s");
     b64url_Decode := fun s => Ok s;
     Duration_String := fun _ => "14m0s";
     Sprint_LoginCmd := fun _ => "{...}" |}.

Definition lib : Lib := lib_with (Ok "/home/alice") ∅.

(** The same host with [OPKSSH_PROVIDERS] set. *)
Definition libEnv : Lib :=
  lib_with (Ok "/home/alice") {[ "OPKSSH_PROVIDERS" := "actions,google" ]}.

Definition world (fs : gmap string Node) : World :=
  mkWorld fs [] [] [] [] SinkStderr [].

Definition sshDir : gmap string Node := {[ "/home/alice/.ssh" := NDir (perm 7 0 0) ]}.

(** A home with somebody else's public key but no secret key next to it. *)
Definition strayPub : gmap string Node :=
  <[ "/home/alice/.ssh/id_ecdsa.pub" :=
       NFile "ssh-ed25519 AAAAC3Nz alice@laptop" (perm 6 4 4) ]> sshDir.

(** A home whose two default key pairs both belong to somebody else. *)
Definition foreignKeys : gmap string Node :=
  <[ "/home/alice/.ssh/id_ecdsa" := NFile "SECRET-1" (perm 6 0 0) ]>
  (<[ "/home/alice/.ssh/id_ecdsa.pub" :=
        NFile "ecdsa-sha2-nistp256 AAAAE2Vj alice@laptop" (perm 6 4 4) ]>
  (<[ "/home/alice/.ssh/id_ed25519" := NFile "SECRET-2" (perm 6 0 0) ]>
  (<[ "/home/alice/.ssh/id_ed25519.pub" :=
        NFile "ssh-ed25519 AAAAC3Nz alice@laptop" (perm 6 4 4) ]> sshDir))).

(** A home whose first default key pair is foreign and whose second was
    written by an earlier login. *)
Definition secondOurs : gmap string Node :=
  <[ "/home/alice/.ssh/id_ed25519.pub" :=
       NFile "ecdsa-sha2-nistp256-cert-v01@openssh.com OLD openpubkey" (perm 6 4 4) ]>
  foreignKeys.

(** A home whose first default key pair is foreign and whose second
    path is unused. *)
Definition foreignKeys' : gmap string Node :=
  <[ "/home/alice/.ssh/id_ecdsa" := NFile "SECRET-1" (perm 6 0 0) ]>
  (<[ "/home/alice/.ssh/id_ecdsa.pub" :=
        NFile "ecdsa-sha2-nistp256 AAAAE2Vj alice@laptop" (perm 6 4 4) ]> sshDir).

Definition cmd : LoginCmd := NewLogin false "" false "" false false "" "" "".

(** [opkssh login --create-config] *)
Definition createCmd : LoginCmd := NewLogin false "" true "" false false "" "" "".

(** [opkssh login --auto-refresh --provider-alias actions] *)
Definition refreshCmd : LoginCmd := NewLogin true "" false "" false false "" "" "actions".

(** The same host with [OPKSSH_DEFAULT=azure]. *)
Definition libDefault : Lib :=
  lib_with (Ok "/home/alice") {[ "OPKSSH_DEFAULT" := "azure" ]}.

(** A home with a client configuration. *)
Definition withConfig : gmap string Node :=
  {[ "/home/alice/.opk/config.yml" := NFile "default_provider: azure" (perm 6 4 4) ]}.

(** [opkssh login --provider-alias google], configuration loaded. *)
Definition aliasCmd : LoginCmd :=
  mkLoginCmd false "/home/alice/.opk/config.yml" false "" false false "" "" "google" 0
    None (Some (mkClientConfig "azure" [google; azure])) None None None [].

Definition googleOp : Provider := mkProvider "https://accounts.google.com" true true.

(** What [login] returns on this host. *)
Definition loginResult : LoginResult :=
  mkLoginResult (token "exp-1") "EPHEMERAL-KEY" (mkOpkClient googleOp "EPHEMERAL-KEY") [].

(** The clock reads 100 s; the timer fires and the refresh answers. *)
Definition goodTick : Tick := mkTick (100 * Second) WakeTimer (Ok (token "exp-2")).

(** The timer fires and the provider cannot be reached. *)
Definition failedTick : Tick :=
  mkTick (100 * Second) WakeTimer (Err (ErrNew "dial tcp: connection refused")).


(** A verifier that does what section 4.2 asks of the parser: "Reject if
    type is not ecdsa-sha2-nistp256-cert-v01@openssh.com".  Its arguments
    are, as in [VerifyCmd.Verify], the user, the base64 certificate and
    the type. *)
Definition strictVerify (_ : Provider) (user certB64 pubkeyType : string) : result string :=
  if String.eqb pubkeyType "ecdsa-sha2-nistp256-cert-v01@openssh.com" then
    Ok ("cert-authority ecdsa-sha2-nistp256 " +:+ certB64)
  else Err (ErrNew "CERT_TYPE").

(** A host on which the verifier's log file cannot be opened. *)
Definition noLog : gmap string Node :=
  {[ "/var/log/openpubkey.log" := NDir (perm 7 5 5) ]}.

(** The server configuration of [TestEnvFromConfig] and a parser that
    knows it. *)
Definition configContent : string := "env_vars: {OPKSSH_TEST_EXAMPLE_VAR1: ABC}".

Definition parseServerConfig (s : string) : option ServerConfig.ServerConfig :=
  if String.eqb s configContent then
    Some (ServerConfig.mkServerConfig [("OPKSSH_TEST_EXAMPLE_VAR1", "ABC")])
  else None.

Definition serverFs (mode : N) : gmap string Node :=
  {[ "/etc/opk/server_config.yml" := NFile configContent mode ]}.

Definition rootOwned : ServerConfig.Ownership := fun _ => ("root", "opksshuser").

End Sample.

(* ===================================================================== *)
(** * The specification's vocabulary                                      *)
(* ===================================================================== *)

(** The comment of the public key stored at [pub], if the file can be
    read and parsed. *)
Definition comment_of (lib : Lib) (fs : gmap string Node) (pub : string) : option string :=
  match Fs.ReadFile fs pub with
  | Ok content =>
      match ParseAuthorizedKey lib content with
      | Ok c => Some c
      | Err _ => None
      end
  | Err _ => None
  end.

(** "carries the marker comment openpubkey" *)
Definition carries_marker (lib : Lib) (fs : gmap string Node) (pub : string) : bool :=
  match comment_of lib fs pub with
  | Some c => String.eqb c "openpubkey"
  | None => false
  end.

(** A candidate path is free when its "secret-key file is absent or [its]
    public-key file carries the comment openpubkey". *)
Definition keyFree (lib : Lib) (fs : gmap string Node) (sec : string) : bool :=
  bool_decide (fs !! sec = None) || carries_marker lib fs (sec +:+ ".pub").

(** "the first of ~/.ssh/id_ecdsa then ~/.ssh/id_ed25519" that is free. *)
Definition firstFree (lib : Lib) (fs : gmap string Node) (sshPath : string) : option string :=
  List.find (keyFree lib fs) (map (filepath_Join sshPath) defaultKeyFilenames).

(** The sentence "a key file whose comment is anything else is never
    overwritten", read for one run of the default-location branch from the
    world [w]: every default public-key file that has a comment other than
    the marker is the same afterwards. *)
Definition never_overwrites_foreign (lib : Lib) (w : World) (seckeySshPem certBytes : string)
  : Prop :=
  forall home name c,
    UserHomeDir lib = Ok home ->
    name ∈ defaultKeyFilenames ->
    let pub := filepath_Join (filepath_Join home ".ssh") name +:+ ".pub" in
    comment_of lib (w_fs w) pub = Some c ->
    c <> "openpubkey" ->
    w_fs (snd (writeKeyPair lib "" seckeySshPem certBytes w)) !! pub = w_fs w !! pub.

(** Two worlds that differ at most in what was printed or logged. *)
Definition quiet (w w' : World) : Prop :=
  w_fs w' = w_fs w /\ w_ops w' = w_ops w /\ w_calls w' = w_calls w.

(** Two worlds with the same files, reached by the same requests. *)
Definition same_files (w w' : World) : Prop :=
  w_fs w' = w_fs w /\ w_ops w' = w_ops w.

Definition preserves {A} (R : World -> World -> Prop) (c : M A) : Prop :=
  forall w r w', c w = (r, w') -> R w w'.

(** Two worlds in which the same calls have left the process. *)
Definition same_calls (w w' : World) : Prop := w_calls w' = w_calls w.

(** "the target path" of the client configuration: the path given, or
    [~/.opk/config.yml] when none is. *)
Definition configTarget (lib : Lib) (configPath : string) : option string :=
  if String.eqb configPath "" then
    match UserHomeDir lib with
    | Ok dir => Some (filepath_Join (filepath_Join dir ".opk") "config.yml")
    | Err _ => None
    end
  else Some configPath.

(** The precedence among the sources that can name a provider: the first
    non-empty one, and the chooser's alias when there is none. *)
Fixpoint firstNamed (sources : list string) : string :=
  match sources with
  | [] => WEBCHOOSER_ALIAS
  | s :: rest => if String.eqb s "" then firstNamed rest else s
  end.

(** The sources of the alias, in the order the specification lists them:
    [--provider-alias], the environment's [OPKSSH_DEFAULT], the client
    configuration's [default_provider]. *)
Definition aliasSources (lib : Lib) (l : LoginCmd) (cfg : ClientConfig) : list string :=
  [ providerAliasArg l;
    match Environ lib !! OPKSSH_DEFAULT_ENVVAR with Some v => v | None => "" end;
    DefaultProvider cfg ].

(** The provider list: [OPKSSH_PROVIDERS] when the environment has it,
    the client configuration's otherwise. *)
Definition providerSources (envConfigs : option (list ProviderConfig)) (cfg : ClientConfig)
  : list ProviderConfig :=
  match envConfigs with
  | Some cs => cs
  | None => Providers cfg
  end.

(** A call other than the refresh loop's wait. *)
Definition no_wait (c : Call) : Prop :=
  match c with
  | CallWait _ => False
  | _ => True
  end.

(** From [w] to [w'] the process made calls, but never waited. *)
Definition busy (w w' : World) : Prop :=
  exists later, w_calls w' = w_calls w ++ later /\ Forall no_wait later.

(** "retried with exponential backoff starting at 5 seconds", read on the
    trace of calls: a refresh is followed by a wait of five seconds and by
    another refresh. *)
Definition retried_with_backoff (calls : list Call) : Prop :=
  exists before after,
    calls = before ++ CallRefresh :: CallWait (5 * Second) :: CallRefresh :: after.

(** "positional arguments in the order: desired user, then certificate
    type string, then base64 certificate": with that order a command line
    [prog verify user type cert] is allowed exactly when the verifier
    accepts the certificate [cert] of type [type] for [user]. *)
Definition verify_order_as_claimed
    (Verify : Provider -> string -> string -> string -> result string) : Prop :=
  forall provider prog user type cert w,
    fst (runVerify Verify provider [prog; "verify"; user; type; cert] w) = Done 0 <->
    exists authKey, Verify provider user cert type = Ok authKey.

(** The path holds a directory. *)
Definition is_dir (fs : gmap string Node) (p : string) : Prop :=
  match fs !! p with
  | Some (NDir _) => True
  | _ => False
  end.

(* ===================================================================== *)
(** * Further vocabulary and sample hosts                                 *)
(* ===================================================================== *)

Definition is_wait (c : Call) : bool :=
  match c with CallWait _ => true | _ => false end.

Definition is_refresh (c : Call) : bool :=
  match c with CallRefresh => true | _ => false end.

(** [lib] with some of the provider-facing calls replaced. *)
Definition with_openpubkey (lib : Lib)
    (genKeyPair : result string) (auth : OpkClient -> result PKToken)
    (newJwt : string -> result IdClaims) : Lib :=
  {| UserHomeDir := UserHomeDir lib; Environ := Environ lib;
     DefaultClientConfig := DefaultClientConfig lib;
     yaml_Unmarshal := yaml_Unmarshal lib;
     GetProvidersConfigFromEnv := GetProvidersConfigFromEnv lib;
     NewProviderConfigFromString := NewProviderConfigFromString lib;
     ToProvider := ToProvider lib; CreateProvidersMap := CreateProvidersMap lib;
     ToUpper := ToUpper lib; ChooseOp := ChooseOp lib;
     GenKeyPair := genKeyPair; client_New := client_New lib; Auth := auth;
     Compact := Compact lib; NewJwt := newJwt;
     sshcert_New := sshcert_New lib; NewSignerFromSigner := NewSignerFromSigner lib;
     NewSignerWithAlgorithms := NewSignerWithAlgorithms lib; SignCert := SignCert lib;
     MarshalAuthorizedKey := MarshalAuthorizedKey lib;
     MarshalPrivateKey := MarshalPrivateKey lib; EncodeToMemory := EncodeToMemory lib;
     ParseAuthorizedKey := ParseAuthorizedKey lib;
     json_MarshalIndent := json_MarshalIndent lib; json_exp := json_exp lib;
     SplitCompactString := SplitCompactString lib; b64url_Decode := b64url_Decode lib;
     Duration_String := Duration_String lib; Sprint_LoginCmd := Sprint_LoginCmd lib |}.

(** [lib] with another provider constructor. *)
Definition with_ToProvider (lib : Lib) (toProvider : ProviderConfig -> bool -> result Provider)
  : Lib :=
  {| UserHomeDir := UserHomeDir lib; Environ := Environ lib;
     DefaultClientConfig := DefaultClientConfig lib;
     yaml_Unmarshal := yaml_Unmarshal lib;
     GetProvidersConfigFromEnv := GetProvidersConfigFromEnv lib;
     NewProviderConfigFromString := NewProviderConfigFromString lib;
     ToProvider := toProvider; CreateProvidersMap := CreateProvidersMap lib;
     ToUpper := ToUpper lib; ChooseOp := ChooseOp lib;
     GenKeyPair := GenKeyPair lib; client_New := client_New lib; Auth := Auth lib;
     Compact := Compact lib; NewJwt := NewJwt lib;
     sshcert_New := sshcert_New lib; NewSignerFromSigner := NewSignerFromSigner lib;
     NewSignerWithAlgorithms := NewSignerWithAlgorithms lib; SignCert := SignCert lib;
     MarshalAuthorizedKey := MarshalAuthorizedKey lib;
     MarshalPrivateKey := MarshalPrivateKey lib; EncodeToMemory := EncodeToMemory lib;
     ParseAuthorizedKey := ParseAuthorizedKey lib;
     json_MarshalIndent := json_MarshalIndent lib; json_exp := json_exp lib;
     SplitCompactString := SplitCompactString lib; b64url_Decode := b64url_Decode lib;
     Duration_String := Duration_String lib; Sprint_LoginCmd := Sprint_LoginCmd lib |}.

Module Sample2.

(** A host whose provider rejects the login. *)
Definition libDenied : Lib :=
  with_openpubkey Sample.lib (GenKeyPair Sample.lib)
    (fun _ => Err (ErrNew "access_denied")) (NewJwt Sample.lib).

(** A host whose provider returns an ID token that does not parse. *)
Definition libBadToken : Lib :=
  with_openpubkey Sample.lib (GenKeyPair Sample.lib) (Auth Sample.lib)
    (fun _ => Err (ErrNew "malformed jwt")).

(** A host on which one configured provider has no browser flow. *)
Definition libHeadless : Lib :=
  with_ToProvider Sample.lib
    (fun pc _ => Ok (mkProvider (pc_issuer pc) true
                       (negb (String.eqb (pc_alias pc) "azure")))).

(** A login command whose configuration is loaded. *)
Definition configured (alias : string) (cfg : ClientConfig) : LoginCmd :=
  mkLoginCmd false "/home/alice/.opk/config.yml" false "" false false "" "" alias 0
    None (Some cfg) None None None [].

End Sample2.

Module Sample3.

(** The two flags of the old [login] command, as [flag.FlagSet.Parse]
    reads them from a short command line. *)
Definition parseLoginFlags (args : list string) : option (bool * string) :=
  match args with
  | [] => Some (false, "")
  | [a] => if String.eqb a "--auto-refresh" then Some (true, "") else None
  | [a; d] => if String.eqb a "--log-dir" then Some (false, d) else None
  | _ => None
  end.

(** A login that is refused by the provider. *)
Definition deniedLogin (_ : Provider) : M unit := fail (ErrNew "access_denied").

(** A policy writer that knows one path. *)
Definition addPolicy (email principal : string) : result string :=
  if String.eqb email "" then Err (ErrNew "empty email") else Ok "/etc/opk/policy".

(** A home in which the log directory is taken by a directory named like
    the log file. *)
Definition logTaken : gmap string Node :=
  {[ "/home/alice/logs/openpubkey.log" := NDir (perm 7 5 5) ]}.

(** The same for the log file of [Run]. *)
Definition opksshLogTaken : gmap string Node :=
  {[ "/home/alice/logs/opkssh.log" := NDir (perm 7 5 5) ]}.

(** [opkssh login --log-dir <dir>] *)
Definition loggingCmd (dir : string) : LoginCmd :=
  NewLogin false "" false dir false false "" "" "".

End Sample3.
(* ===================================================================== *)
(** * Reasoning about the monad                                           *)
(* ===================================================================== *)


Lemma quiet_refl w : quiet w w.
Proof. by unfold quiet. Qed.

Lemma quiet_trans w1 w2 w3 : quiet w1 w2 -> quiet w2 w3 -> quiet w1 w3.
Proof. unfold quiet; intros (?&?&?) (?&?&?); repeat split; congruence. Qed.

Lemma log_Print_quiet s w : exists w', log_Print s w = (Done tt, w') /\ quiet w w'.
Proof.
  unfold log_Print. eexists; split; [reflexivity|].
  unfold quiet; destruct (w_sink w); by cbn.
Qed.

Lemma fmt_Print_quiet s w : exists w', fmt_Print s w = (Done tt, w') /\ quiet w w'.
Proof. eexists; split; [reflexivity|]. by unfold quiet. Qed.

Lemma log_SetOutput_quiet k w : exists w', log_SetOutput k w = (Done tt, w') /\ quiet w w'.
Proof. eexists; split; [reflexivity|]. by unfold quiet. Qed.

Lemma bind_Done {A B} (c : M A) (k : A -> M B) w a w1 :
  c w = (Done a, w1) -> bind c k w = k a w1.
Proof. intros H. unfold bind. by rewrite H. Qed.

Lemma bind_Fail {A B} (c : M A) (k : A -> M B) w e w1 :
  c w = (Fail e, w1) -> bind c k w = (Fail e, w1).
Proof. intros H. unfold bind. by rewrite H. Qed.

Lemma bind_Panic {A B} (c : M A) (k : A -> M B) w m w1 :
  c w = (Panic m, w1) -> bind c k w = (Panic m, w1).
Proof. intros H. unfold bind. by rewrite H. Qed.

(** Inversion of a successful [bind]. *)
Lemma bind_inv_Done {A B} (c : M A) (k : A -> M B) w b w' :
  bind c k w = (Done b, w') ->
  exists a w1, c w = (Done a, w1) /\ k a w1 = (Done b, w').
Proof.
  unfold bind. destruct (c w) as [[a|e|m] w1]; intros H; try discriminate.
  by exists a, w1.
Qed.

Lemma wrapErr_inv_Done {A} msg (c : M A) w a w' :
  wrapErr msg c w = (Done a, w') -> c w = (Done a, w').
Proof.
  unfold wrapErr. destruct (c w) as [[a0|e|m] w1]; intros H; by inversion H.
Qed.

Lemma lift_inv_Done {A} (r : result A) w a w' :
  lift r w = (Done a, w') -> r = Ok a /\ w' = w.
Proof. destruct r; cbn; intros H; inversion H; auto. Qed.

Lemma append_length (a b : string) :
  String.length (a +:+ b) = (String.length a + String.length b)%nat.
Proof.
  induction a as [|c a IH]; [reflexivity|].
  change (S (String.length (a +:+ b)) = S (String.length a + String.length b)).
  by rewrite IH.
Qed.

Lemma append_suffix_ne (s t : string) : t <> "" -> s +:+ t <> s.
Proof.
  intros Ht H. apply (f_equal String.length) in H. rewrite append_length in H.
  destruct t; [done|]. cbn in H. lia.
Qed.

(** ** Computations that leave part of the world alone *)


#[global] Instance quiet_preorder : PreOrder quiet.
Proof. split; [exact quiet_refl | exact quiet_trans]. Qed.

#[global] Instance same_files_preorder : PreOrder same_files.
Proof.
  split; [by intros w | intros w1 w2 w3 [??] [??]; split; congruence].
Qed.

Lemma quiet_same_files w w' : quiet w w' -> same_files w w'.
Proof. intros (?&?&?). by split. Qed.

Section Preserves.

Context (R : World -> World -> Prop) `{!PreOrder R}.

Lemma preserves_ret {A} (a : A) : preserves R (ret a).
Proof. intros w r w' H. inversion H. reflexivity. Qed.

Lemma preserves_fail {A} e : preserves R (@fail A e).
Proof. intros w r w' H. inversion H. reflexivity. Qed.

Lemma preserves_panic {A} m : preserves R (@panic A m).
Proof. intros w r w' H. inversion H. reflexivity. Qed.

Lemma preserves_lift {A} (x : result A) : preserves R (lift x).
Proof. destruct x; [apply preserves_ret | apply preserves_fail]. Qed.

Lemma preserves_bind {A B} (c : M A) (k : A -> M B) :
  preserves R c -> (forall a, preserves R (k a)) -> preserves R (bind c k).
Proof.
  intros Hc Hk w r w' H. unfold bind in H.
  destruct (c w) as [[a|e|m] w1] eqn:E; specialize (Hc _ _ _ E).
  - etrans; [exact Hc | exact (Hk _ _ _ _ H)].
  - by inversion H; subst.
  - by inversion H; subst.
Qed.

Lemma preserves_wrapErr {A} msg (c : M A) : preserves R c -> preserves R (wrapErr msg c).
Proof.
  intros Hc w r w' H. unfold wrapErr in H.
  destruct (c w) as [[a|e|m] w1] eqn:E; specialize (Hc _ _ _ E);
    by inversion H; subst.
Qed.

Lemma preserves_try {A} (c : M A) : preserves R c -> preserves R (try c).
Proof.
  intros Hc w r w' H. unfold try in H.
  destruct (c w) as [[a|e|m] w1] eqn:E; specialize (Hc _ _ _ E);
    by inversion H; subst.
Qed.

Lemma preserves_if {A} (b : bool) (c1 c2 : M A) :
  preserves R c1 -> preserves R c2 -> preserves R (if b then c1 else c2).
Proof. by destruct b. Qed.

End Preserves.

Lemma preserves_weaken {A} (R R' : World -> World -> Prop) (c : M A) :
  (forall w w', R w w' -> R' w w') -> preserves R c -> preserves R' c.
Proof. intros HR Hc w r w' H. eauto. Qed.

Lemma log_Print_preserves s : preserves quiet (log_Print s).
Proof.
  intros w r w' H. destruct (log_Print_quiet s w) as (w1 & E & Q).
  rewrite E in H. by inversion H; subst.
Qed.

Lemma fmt_Print_preserves s : preserves quiet (fmt_Print s).
Proof. intros w r w' H. inversion H; subst. by unfold quiet. Qed.

Lemma log_SetOutput_preserves k : preserves quiet (log_SetOutput k).
Proof. intros w r w' H. inversion H; subst. by unfold quiet. Qed.

Lemma afs_ReadFile_preserves name : preserves quiet (afs_ReadFile name).
Proof.
  intros w r w' H. unfold afs_ReadFile in H.
  destruct (Fs.ReadFile _ _); inversion H; subst; reflexivity.
Qed.

Lemma afs_Stat_preserves name : preserves quiet (afs_Stat name).
Proof.
  intros w r w' H. unfold afs_Stat in H.
  destruct (Fs.Stat _ _); inversion H; subst; reflexivity.
Qed.

Lemma call_preserves c : preserves same_files (call c).
Proof. intros w r w' H. inversion H; subst. by split. Qed.

Create HintDb preserves.
#[global] Hint Resolve preserves_ret preserves_fail preserves_panic preserves_lift
  preserves_wrapErr preserves_try preserves_if
  log_Print_preserves fmt_Print_preserves log_SetOutput_preserves
  afs_ReadFile_preserves afs_Stat_preserves call_preserves : preserves.

(** Splits a sequence of binds and closes the leaves from the hint base. *)
Ltac preserves_tac :=
  repeat first
    [ apply preserves_bind; [typeclasses eauto | | intros ?]
    | apply preserves_wrapErr
    | apply preserves_try
    | apply preserves_if
    | solve [eauto with preserves typeclass_instances]
    | solve [eapply preserves_weaken; [exact quiet_same_files |];
             eauto with preserves typeclass_instances] ].

Lemma append_assoc (a b c : string) : (a +:+ b) +:+ c = a +:+ (b +:+ c).
Proof.
  induction a as [|x a IH]; [reflexivity|].
  change (String x ((a +:+ b) +:+ c) = String x (a +:+ (b +:+ c))). by rewrite IH.
Qed.

Lemma filepath_Join_inj d a b : filepath_Join d a = filepath_Join d b -> a = b.
Proof.
  unfold filepath_Join. destruct d as [|c d]; [done|].
  intros H. apply String.app_inj in H. by apply String.app_inj in H.
Qed.

Lemma filepath_Join_append d a s : filepath_Join d a +:+ s = filepath_Join d (a +:+ s).
Proof.
  unfold filepath_Join. destruct d as [|c d]; [done|]. by rewrite !append_assoc.
Qed.

Lemma wrapErr_world {A} msg (c : M A) w : snd (wrapErr msg c w) = snd (c w).
Proof. unfold wrapErr. by destruct (c w) as [[?|?|?] ?]. Qed.

Lemma wrapErr_lift_Ok {A} msg (r : result A) a w :
  r = Ok a -> wrapErr msg (lift r) w = (Done a, w).
Proof. by intros ->. Qed.

Lemma lift_Ok {A} (r : result A) a w : r = Ok a -> lift r w = (Done a, w).
Proof. by intros ->. Qed.

Lemma pair_eta {A B} (p : A * B) a : fst p = a -> p = (a, snd p).
Proof. destruct p; cbn; congruence. Qed.

(* ===================================================================== *)
(** * Writing the keys                                                    *)
(* ===================================================================== *)

Lemma errors_Is_open_missing name :
  errors_Is (ErrWrap ("open " +:+ name) ErrNotExist) ErrNotExist = true.
Proof. reflexivity. Qed.

Lemma fileExists_eq fPath w :
  fileExists fPath w = (Done (bool_decide (w_fs w !! fPath <> None)), w).
Proof.
  unfold fileExists, Fs.Open. destruct (w_fs w !! fPath) eqn:E.
  - by rewrite bool_decide_true.
  - by rewrite bool_decide_false; [|intros H; apply H].
Qed.

(** What [writeKeys] does to the world, whether or not it succeeds. *)
Lemma writeKeys_frame sec pub pem cert w :
  forall r w', writeKeys sec pub pem cert w = (r, w') ->
    w_calls w' = w_calls w /\
    (forall p, p <> sec -> p <> pub -> w_fs w' !! p = w_fs w !! p).
Proof.
  intros r w'. unfold writeKeys, bind, afs_WriteFile, fmt_Print, modify, Fs.WriteFile.
  destruct (w_fs w !! sec) as [[d m|m]|] eqn:Es; cbn;
    try (intros H; inversion H; subst; cbn; split; [done|]; intros; done).
  - destruct (<[sec:=NFile pem m]> (w_fs w) !! pub) as [[d' m'|m']|] eqn:Ep; cbn;
      intros H; inversion H; subst; cbn; (split; [done|]); intros p H1 H2;
      by rewrite ?lookup_insert_ne.
  - destruct (<[sec:=NFile pem (perm 6 0 0)]> (w_fs w) !! pub) as [[d' m'|m']|] eqn:Ep; cbn;
      intros H; inversion H; subst; cbn; (split; [done|]); intros p H1 H2;
      by rewrite ?lookup_insert_ne.
Qed.

(** What a successful [writeKeys] has done. *)
Lemma writeKeys_Done sec pub pem cert w w' :
  writeKeys sec pub pem cert w = (Done tt, w') ->
  w_ops w' = w_ops w ++ [OpWriteFile sec pem (perm 6 0 0);
                         OpWriteFile pub (cert +:+ " openpubkey") (perm 6 4 4)] /\
  (exists m, w_fs w' !! pub = Some (NFile (cert +:+ " openpubkey") m) /\
             (w_fs w !! pub = None -> pub <> sec -> m = perm 6 4 4)) /\
  (pub <> sec ->
   exists m, w_fs w' !! sec = Some (NFile pem m) /\
             (w_fs w !! sec = None -> m = perm 6 0 0)).
Proof.
  unfold writeKeys, bind, afs_WriteFile, fmt_Print, modify, Fs.WriteFile.
  destruct (w_fs w !! sec) as [[d m|m]|] eqn:Es; cbn; try discriminate.
  - destruct (<[sec:=NFile pem m]> (w_fs w) !! pub) as [[d' m'|m']|] eqn:Ep; cbn;
      intros H; inversion H; subst; cbn; clear H.
    + split; [by rewrite <- app_assoc|]. split.
      * exists m'. rewrite lookup_insert_eq. split; [done|]. intros Hn Hne.
        rewrite lookup_insert_ne in Ep by done. congruence.
      * intros Hne. exists m. rewrite lookup_insert_ne by done.
        rewrite lookup_insert_eq. split; [done|congruence].
    + split; [by rewrite <- app_assoc|]. split.
      * exists (perm 6 4 4). by rewrite lookup_insert_eq.
      * intros Hne. exists m. rewrite lookup_insert_ne by done.
        rewrite lookup_insert_eq. split; [done|congruence].
  - destruct (<[sec:=NFile pem (perm 6 0 0)]> (w_fs w) !! pub) as [[d' m'|m']|] eqn:Ep; cbn;
      intros H; inversion H; subst; cbn; clear H.
    + split; [by rewrite <- app_assoc|]. split.
      * exists m'. rewrite lookup_insert_eq. split; [done|]. intros Hn Hne.
        rewrite lookup_insert_ne in Ep by done. congruence.
      * intros Hne. exists (perm 6 0 0). rewrite lookup_insert_ne by done.
        by rewrite lookup_insert_eq.
    + split; [by rewrite <- app_assoc|]. split.
      * exists (perm 6 4 4). by rewrite lookup_insert_eq.
      * intros Hne. exists (perm 6 0 0). rewrite lookup_insert_ne by done.
        by rewrite lookup_insert_eq.
Qed.

Lemma carries_marker_same_fs lib fs pub : 
  carries_marker lib fs pub =
  match fs !! pub with
  | Some (NFile d _) =>
      match ParseAuthorizedKey lib d with
      | Ok c => String.eqb c "openpubkey"
      | Err _ => false
      end
  | _ => false
  end.
Proof.
  unfold carries_marker, comment_of, Fs.ReadFile.
  destruct (fs !! pub) as [[d m|m]|]; try done.
  by destruct (ParseAuthorizedKey lib d).
Qed.

(** The loop over the default file names picks the first free candidate. *)
Lemma keyFileLoop_spec lib sshPath pem cert names :
  forall w, exists w1,
    quiet w w1 /\
    keyFileLoop lib sshPath names pem cert w =
      match List.find (keyFree lib (w_fs w)) (map (filepath_Join sshPath) names) with
      | Some sec => writeKeys sec (sec +:+ ".pub") pem cert w1
      | None => (Fail (ErrNew "no default ssh key file free for openpubkey"), w1)
      end.
Proof.
  induction names as [|name rest IH]; intros w.
  - exists w. split; [reflexivity|done].
  - cbn [keyFileLoop map List.find].
    set (sec := filepath_Join sshPath name).
    unfold bind at 1. rewrite fileExists_eq.
    unfold keyFree at 1. rewrite carries_marker_same_fs.
    destruct (w_fs w !! sec) as [n|] eqn:Es.
    + rewrite bool_decide_true by done. rewrite bool_decide_false by done. cbn [negb orb].
      unfold bind at 1. rewrite fileExists_eq.
      destruct (w_fs w !! (sec +:+ ".pub")) as [[d m|m]|] eqn:Ep.
      * rewrite bool_decide_true by done. cbn [negb].
        unfold bind at 1, try, afs_ReadFile, Fs.ReadFile. rewrite Ep.
        destruct (ParseAuthorizedKey lib d) as [c|e] eqn:Epk.
        -- destruct (String.eqb c "openpubkey") eqn:Ec.
           ++ exists w. split; [reflexivity|done].
           ++ apply IH.
        -- destruct (log_Print_quiet ("Failed to parse: " +:+ (sec +:+ ".pub")) w)
             as (w1 & E1 & Q1).
           rewrite (bind_Done _ _ _ _ _ E1).
           destruct (IH w1) as (w2 & Q2 & E2). exists w2.
           split; [by etrans|]. rewrite E2. by destruct Q1 as (-> & _).
      * rewrite bool_decide_true by done. cbn [negb].
        unfold bind at 1, try, afs_ReadFile, Fs.ReadFile. rewrite Ep.
        destruct (log_Print_quiet ("Failed to read: " +:+ (sec +:+ ".pub")) w)
          as (w1 & E1 & Q1).
        rewrite (bind_Done _ _ _ _ _ E1).
        destruct (IH w1) as (w2 & Q2 & E2). exists w2.
        split; [by etrans|]. rewrite E2. by destruct Q1 as (-> & _).
      * rewrite bool_decide_false by (intros H; by apply H). cbn [negb].
        apply IH.
    + rewrite bool_decide_false by (intros H; by apply H).
      rewrite bool_decide_true by done. cbn [negb orb].
      exists w. split; [reflexivity|done].
Qed.

(** [writeKeys] succeeds unless a directory is in the way. *)
Lemma writeKeys_succeeds sec pub pem cert w :
  ~ is_dir (w_fs w) sec -> ~ is_dir (w_fs w) pub -> pub <> sec ->
  exists w', writeKeys sec pub pem cert w = (Done tt, w').
Proof.
  unfold is_dir, writeKeys, bind, afs_WriteFile, fmt_Print, modify, Fs.WriteFile.
  intros Hs Hp Hne.
  destruct (w_fs w !! sec) as [[d m|m]|] eqn:Es; [|by destruct Hs|]; cbn;
    rewrite lookup_insert_ne by done;
    (destruct (w_fs w !! pub) as [[d' m'|m']|] eqn:Ep; [|by destruct Hp|]); cbn; eauto.
Qed.

Lemma wrapErr_Done_iff {A} msg (c : M A) w a :
  fst (wrapErr msg c w) = Done a <-> fst (c w) = Done a.
Proof. unfold wrapErr. destruct (c w) as [[?|?|?] ?]; cbn; split; congruence. Qed.

(** The four default paths are pairwise different. *)
Lemma default_paths_distinct sshPath name name' :
  name ∈ defaultKeyFilenames -> name' ∈ defaultKeyFilenames -> name <> name' ->
  let sec := filepath_Join sshPath name in
  let sec' := filepath_Join sshPath name' in
  sec <> sec' /\ sec <> sec' +:+ ".pub" /\ sec +:+ ".pub" <> sec' /\
  sec +:+ ".pub" <> sec' +:+ ".pub".
Proof.
  intros H H' Hne. cbn zeta. rewrite !filepath_Join_append.
  unfold defaultKeyFilenames in *.
  apply elem_of_cons in H as [->|H]; [|apply list_elem_of_singleton in H as ->];
  (apply elem_of_cons in H' as [->|H']; [|apply list_elem_of_singleton in H' as ->]);
  try done;
  repeat split; intros E; apply filepath_Join_inj in E; discriminate.
Qed.

(** C3, as amended.  Without [--output-key], once the home directory is
    known and [~/.ssh] exists or can be made, the keys are handed to
    [writeKeys] for the first of [~/.ssh/id_ecdsa], [~/.ssh/id_ed25519]
    whose secret-key file is absent or whose public-key file carries the
    comment [openpubkey], and they are written there unless a directory
    is in the way; when neither is free the write fails with
    "no default ssh key file free for openpubkey"; and a candidate whose
    secret-key file exists and whose public-key file does not carry the
    marker keeps both of its files as they were. *)
Theorem default_key_file_selection
    (lib : Lib) (home seckeySshPem certBytes : string) (w : World)
    (fs1 : gmap string Node)
    (Hhome : UserHomeDir lib = Ok home)
    (Hmk : Fs.MkdirAll (w_fs w) (filepath_Join home ".ssh") (perm 7 7 7) = Ok fs1) :
  let sshPath := filepath_Join home ".ssh" in
  let r := writeKeyPair lib "" seckeySshPem certBytes w in
  (exists w1,
      w_fs w1 = fs1 /\
      w_ops w1 = w_ops w ++ [OpMkdirAll sshPath (perm 7 7 7)] /\
      w_calls w1 = w_calls w /\
      r = match firstFree lib fs1 sshPath with
          | Some sec =>
              wrapErr "failed to write SSH keys to filesystem"
                (writeKeys sec (sec +:+ ".pub") seckeySshPem certBytes) w1
          | None =>
              (Fail (ErrWrap "failed to write SSH keys to filesystem"
                       (ErrNew "no default ssh key file free for openpubkey")), w1)
          end) /\
  (forall sec,
      firstFree lib fs1 sshPath = Some sec ->
      (~ is_dir fs1 sec -> ~ is_dir fs1 (sec +:+ ".pub") -> fst r = Done tt) /\
      (fst r = Done tt ->
       w_ops (snd r) = w_ops w ++
                         [OpMkdirAll sshPath (perm 7 7 7);
                          OpWriteFile sec seckeySshPem (perm 6 0 0);
                          OpWriteFile (sec +:+ ".pub") (certBytes +:+ " openpubkey")
                            (perm 6 4 4)] /\
       (exists m, w_fs (snd r) !! (sec +:+ ".pub")
                  = Some (NFile (certBytes +:+ " openpubkey") m)) /\
       (exists m, w_fs (snd r) !! sec = Some (NFile seckeySshPem m)))) /\
  (forall name,
      name ∈ defaultKeyFilenames ->
      let sec := filepath_Join sshPath name in
      fs1 !! sec <> None ->
      carries_marker lib fs1 (sec +:+ ".pub") = false ->
      w_fs (snd r) !! sec = fs1 !! sec /\
      w_fs (snd r) !! (sec +:+ ".pub") = fs1 !! (sec +:+ ".pub")).
Proof.
  intros sshPath r.
  set (w0 := set_fs (fun _ => fs1) (add_op (OpMkdirAll sshPath (perm 7 7 7)) w)).
  destruct (keyFileLoop_spec lib sshPath seckeySshPem certBytes defaultKeyFilenames w0)
    as (w1 & (Qfs & Qops & Qcalls) & Eloop).
  assert (Er : r = wrapErr "failed to write SSH keys to filesystem"
                     (keyFileLoop lib sshPath defaultKeyFilenames seckeySshPem certBytes) w0).
  { subst r. unfold writeKeyPair. cbn [String.eqb negb].
    unfold wrapErr, writeKeysToSSHDir. rewrite Hhome. cbn [lift].
    unfold bind at 1, ret. unfold bind at 1, afs_MkdirAll.
    rewrite Hmk. reflexivity. }
  assert (Ewrap : r = match firstFree lib fs1 sshPath with
          | Some sec =>
              wrapErr "failed to write SSH keys to filesystem"
                (writeKeys sec (sec +:+ ".pub") seckeySshPem certBytes) w1
          | None =>
              (Fail (ErrWrap "failed to write SSH keys to filesystem"
                       (ErrNew "no default ssh key file free for openpubkey")), w1)
          end).
  { rewrite Er. unfold wrapErr at 1. rewrite Eloop. unfold firstFree.
    change (w_fs w0) with fs1.
    destruct (List.find _ _); [reflexivity|done]. }
  split; [|split].
  - exists w1. repeat split; [by rewrite Qfs | by rewrite Qops | by rewrite Qcalls | exact Ewrap].
  - intros sec Hfree. rewrite Ewrap, Hfree. split.
    + intros Hs Hp. apply wrapErr_Done_iff.
      destruct (writeKeys_succeeds sec (sec +:+ ".pub") seckeySshPem certBytes w1)
        as (w' & E); [by rewrite Qfs | by rewrite Qfs | by apply append_suffix_ne |].
      by rewrite E.
    + intros Hdone. apply wrapErr_Done_iff in Hdone. rewrite wrapErr_world.
      apply pair_eta in Hdone.
      apply writeKeys_Done in Hdone as (Hops & (m1 & Hp1 & _) & Hsec).
      destruct Hsec as (m2 & Hs1 & _); [by apply append_suffix_ne|].
      split; [|split; eauto].
      rewrite Hops, Qops. cbn. by rewrite <- app_assoc.
  - intros name Hin sec Hsec Hmark.
    assert (Hnf : keyFree lib fs1 sec = false).
    { unfold keyFree. rewrite Hmark. by rewrite bool_decide_false. }
    rewrite Ewrap. unfold firstFree.
    destruct (List.find _ _) as [sec'|] eqn:Ef.
    + apply find_some in Ef as [Hin' Hfree].
      apply in_map_iff in Hin' as (name' & <- & Hin').
      apply list_elem_of_In in Hin'.
      assert (name <> name') as Hne.
      { intros E. subst name'. change (keyFree lib fs1 sec = true) in Hfree. congruence. }
      destruct (default_paths_distinct sshPath name name' Hin Hin' Hne)
        as (D1 & D2 & D3 & D4).
      rewrite wrapErr_world.
      destruct (writeKeys _ _ _ _ w1) as [r' w'] eqn:Ew.
      apply writeKeys_frame in Ew as [_ Hframe]. cbn [snd].
      rewrite !Hframe by done. by rewrite Qfs.
    + cbn [snd]. by rewrite Qfs.
Qed.

(** C3, the sentence as it stands fails: in a home that holds
    [id_ecdsa.pub] with the comment [alice@laptop] and no [id_ecdsa], the
    login takes [id_ecdsa] for free and replaces that public-key file. *)
Lemma stray_public_key_is_overwritten :
  ~ never_overwrites_foreign Sample.lib (Sample.world Sample.strayPub) "PEM" "CERT".
Proof.
  intros H.
  specialize (H "/home/alice" "id_ecdsa" "alice@laptop" eq_refl).
  cbn zeta in H.
  assert (Hin : "id_ecdsa" ∈ defaultKeyFilenames) by apply list_elem_of_here.
  specialize (H Hin eq_refl).
  assert (Hc : "alice@laptop" <> "openpubkey") by discriminate.
  specialize (H Hc). vm_compute in H. discriminate.
Qed.

Lemma default_key_file_selection_witness :
  let r := writeKeyPair Sample.lib "" "PEM" "CERT" (Sample.world Sample.secondOurs) in
  firstFree Sample.lib Sample.secondOurs "/home/alice/.ssh"
    = Some "/home/alice/.ssh/id_ed25519" /\
  w_fs (snd r) !! "/home/alice/.ssh/id_ecdsa" = Some (NFile "SECRET-1" (perm 6 0 0)) /\
  w_fs (snd r) !! "/home/alice/.ssh/id_ecdsa.pub"
    = Some (NFile "ecdsa-sha2-nistp256 AAAAE2Vj alice@laptop" (perm 6 4 4)).
Proof.
  pose proof (default_key_file_selection Sample.lib "/home/alice" "PEM" "CERT"
                (Sample.world Sample.secondOurs) Sample.secondOurs eq_refl eq_refl)
    as (_ & _ & Hkeep).
  split; [reflexivity|].
  assert (Hin : "id_ecdsa" ∈ defaultKeyFilenames) by apply list_elem_of_here.
  specialize (Hkeep "id_ecdsa" Hin).
  cbn zeta in Hkeep.
  destruct Hkeep as [H1 H2]; [vm_compute; discriminate | reflexivity |].
  split; (etrans; [first [exact H1 | exact H2] | vm_compute; reflexivity]).
Defined.

Lemma filepath_Join_longer d a s : d <> "" -> filepath_Join d a +:+ s <> d.
Proof.
  intros Hd H. apply (f_equal String.length) in H.
  unfold filepath_Join in H. destruct d as [|c d]; [done|].
  rewrite !append_length in H. cbn in H. lia.
Qed.

Lemma sshPath_nonempty home : filepath_Join home ".ssh" <> "".
Proof. destruct home; [done|]. discriminate. Qed.

Lemma MkdirAll_other fs name mode fs1 p :
  Fs.MkdirAll fs name mode = Ok fs1 -> p <> name -> fs1 !! p = fs !! p.
Proof.
  unfold Fs.MkdirAll. destruct (fs !! name) as [[d m|m]|]; intros H Hne;
    inversion H; subst; [done|]. by rewrite lookup_insert_ne.
Qed.

(** What a successful "write ssh secret key and public key to filesystem"
    step has done, for either of its two branches. *)
Lemma writeKeyPair_Done lib seckeyPath pem cert w w' :
  writeKeyPair lib seckeyPath pem cert w = (Done tt, w') ->
  exists sec pre,
    (seckeyPath <> "" -> sec = seckeyPath /\ pre = []) /\
    w_ops w' = w_ops w ++ pre ++
                 [OpWriteFile sec pem (perm 6 0 0);
                  OpWriteFile (sec +:+ ".pub") (cert +:+ " openpubkey") (perm 6 4 4)] /\
    w_calls w' = w_calls w /\
    (exists m, w_fs w' !! (sec +:+ ".pub") = Some (NFile (cert +:+ " openpubkey") m) /\
               (w_fs w !! (sec +:+ ".pub") = None -> m = perm 6 4 4)) /\
    (exists m, w_fs w' !! sec = Some (NFile pem m) /\
               (w_fs w !! sec = None -> m = perm 6 0 0)).
Proof.
  unfold writeKeyPair. intros H. apply wrapErr_inv_Done in H.
  destruct (String.eqb seckeyPath "") eqn:Ekp; cbn [negb] in H.
  - apply String.eqb_eq in Ekp. subst seckeyPath.
    unfold writeKeysToSSHDir in H.
    apply bind_inv_Done in H as (home & w1 & Hh & H).
    apply lift_inv_Done in Hh as [Hh ->].
    apply bind_inv_Done in H as ([] & w2 & Hm & H).
    unfold afs_MkdirAll in Hm.
    destruct (Fs.MkdirAll _ _ _) as [fs1|e] eqn:Emk; inversion Hm; subst; clear Hm.
    set (sshPath := filepath_Join home ".ssh") in *.
    set (w0 := set_fs (fun _ => fs1) (add_op (OpMkdirAll sshPath (perm 7 7 7)) w)) in *.
    destruct (keyFileLoop_spec lib sshPath pem cert defaultKeyFilenames w0)
      as (w1 & (Qfs & Qops & Qcalls) & Eloop).
    rewrite Eloop in H.
    destruct (List.find _ _) as [sec|] eqn:Ef; [|discriminate].
    apply find_some in Ef as [Hin _].
    apply in_map_iff in Hin as (name & <- & _).
    pose proof (writeKeys_frame _ _ _ _ _ _ _ H) as [Hcalls _].
    apply writeKeys_Done in H as (Hops & (m1 & Hp1 & Hp2) & Hsec).
    destruct Hsec as (m2 & Hs1 & Hs2); [by apply append_suffix_ne|].
    assert (Hd : sshPath <> "") by apply sshPath_nonempty.
    exists (filepath_Join sshPath name), [OpMkdirAll sshPath (perm 7 7 7)].
    split; [done|]. split.
    { rewrite Hops, Qops. cbn. by rewrite <- app_assoc. }
    split; [by rewrite Hcalls, Qcalls|]. split.
    + exists m1. split; [done|]. intros Hn. apply Hp2; [|by apply append_suffix_ne].
      rewrite Qfs. cbn.
      rewrite (MkdirAll_other _ _ _ _ _ Emk); [done|]. by apply filepath_Join_longer.
    + exists m2. split; [done|]. intros Hn. apply Hs2.
      rewrite Qfs. cbn.
      rewrite (MkdirAll_other _ _ _ _ _ Emk); [done|].
      pose proof (filepath_Join_longer sshPath name "" Hd) as Hl.
      intros E. apply Hl. rewrite <- E at 2. clear.
      generalize (filepath_Join sshPath name). intros s.
      induction s as [|c s IH]; [done|].
      change (String c (s +:+ "") = String c s). by rewrite IH.
  - apply String.eqb_neq in Ekp.
    pose proof (writeKeys_frame _ _ _ _ _ _ _ H) as [Hcalls _].
    apply writeKeys_Done in H as (Hops & (m1 & Hp1 & Hp2) & Hsec).
    destruct Hsec as (m2 & Hs1 & Hs2); [by apply append_suffix_ne|].
    exists seckeyPath, []. split; [done|]. split; [done|]. split; [done|]. split.
    + exists m1. split; [done|]. intros Hn. apply Hp2; [done|by apply append_suffix_ne].
    + by exists m2.
Qed.

(* ===================================================================== *)
(** * login                                                               *)
(* ===================================================================== *)

Lemma createSSHCert_preserves lib pkt signer principals :
  preserves same_files (createSSHCert lib pkt signer principals).
Proof. unfold createSSHCert. preserves_tac. Qed.

Lemma IdentityString_preserves lib pkt : preserves quiet (IdentityString lib pkt).
Proof. unfold IdentityString. preserves_tac. Qed.

Lemma PrettyIdToken_preserves lib pkt : preserves quiet (PrettyIdToken lib pkt).
Proof. unfold PrettyIdToken. preserves_tac. Qed.

#[global] Hint Resolve createSSHCert_preserves IdentityString_preserves
  PrettyIdToken_preserves : preserves.




(* ===================================================================== *)
(** * The client configuration                                            *)
(* ===================================================================== *)

#[global] Instance same_calls_preorder : PreOrder same_calls.
Proof. split; [by intros w | intros w1 w2 w3; unfold same_calls; congruence]. Qed.

Lemma quiet_same_calls w w' : quiet w w' -> same_calls w w'.
Proof. by intros (?&?&?). Qed.

Lemma afs_WriteFile_same_calls name data mode : preserves same_calls (afs_WriteFile name data mode).
Proof.
  intros w r w' H. unfold afs_WriteFile in H.
  destruct (Fs.WriteFile _ _ _ _); by inversion H.
Qed.

Lemma afs_MkdirAll_same_calls name mode : preserves same_calls (afs_MkdirAll name mode).
Proof.
  intros w r w' H. unfold afs_MkdirAll in H.
  destruct (Fs.MkdirAll _ _ _); by inversion H.
Qed.

Lemma afs_OpenFile_same_calls name mode : preserves same_calls (afs_OpenFile name mode).
Proof.
  intros w r w' H. unfold afs_OpenFile in H.
  destruct (Fs.OpenFile _ _ _); by inversion H.
Qed.

#[global] Hint Resolve afs_WriteFile_same_calls afs_MkdirAll_same_calls
  afs_OpenFile_same_calls : preserves.

(** Closes [preserves same_calls c] for a [c] built from the primitives. *)
Ltac same_calls_tac :=
  repeat first
    [ apply preserves_bind; [typeclasses eauto | | intros ?]
    | apply preserves_wrapErr
    | apply preserves_try
    | apply preserves_if
    | solve [eauto with preserves typeclass_instances]
    | solve [eapply preserves_weaken; [exact quiet_same_calls |];
             eauto with preserves typeclass_instances]
    | match goal with |- preserves _ (match ?x with _ => _ end) => destruct x end ].

Lemma setupLogging_same_calls lib l : preserves same_calls (setupLogging lib l).
Proof. unfold setupLogging. same_calls_tac. Qed.

Lemma configTarget_nonempty lib cp p : configTarget lib cp = Some p -> p <> "".
Proof.
  unfold configTarget. destruct (String.eqb cp "") eqn:E.
  - destruct (UserHomeDir lib) as [dir|]; [|done]. intros H; inversion H; subst.
    unfold filepath_Join at 1. by destruct (filepath_Join dir ".opk").
  - apply String.eqb_neq in E. by intros H; inversion H; subst.
Qed.

Lemma default_path_resolves lib cp p w :
  configTarget lib cp = Some p ->
  (if String.eqb cp "" then GetDefaultClientConfigPath lib cp else ret cp) w = (Done p, w).
Proof.
  unfold configTarget, GetDefaultClientConfigPath.
  destruct (String.eqb cp ""); [|by intros H; inversion H].
  destruct (UserHomeDir lib) as [dir|]; [|done]. by intros H; inversion H.
Qed.

(** [CreateDefaultClientConfig] on a path where nothing exists yet. *)
Lemma CreateDefaultClientConfig_fresh lib p w :
  p <> "" -> w_fs w !! p = None ->
  CreateDefaultClientConfig lib p w =
    let w1 := add_op (OpMkdirAll (filepath_Dir p) (perm 7 5 5)) w in
    match Fs.MkdirAll (w_fs w) (filepath_Dir p) (perm 7 5 5) with
    | Err e => (Fail (ErrWrap "failed to create config directory" e), w1)
    | Ok fs1 =>
        let w2 := add_op (OpWriteFile p (DefaultClientConfig lib) (perm 6 4 4))
                    (set_fs (fun _ => fs1) w1) in
        match Fs.WriteFile fs1 p (DefaultClientConfig lib) (perm 6 4 4) with
        | Err e => (Fail (ErrWrap "failed to write default config file" e), w2)
        | Ok fs2 =>
            log_Print ("created client config file at " +:+ p) (set_fs (fun _ => fs2) w2)
        end
    end.
Proof.
  intros Hp Hn. unfold CreateDefaultClientConfig.
  apply String.eqb_neq in Hp. rewrite Hp.
  unfold bind at 1, ret. unfold bind at 1, try, afs_Stat, Fs.Stat. rewrite Hn.
  unfold bind at 1, wrapErr at 1, afs_MkdirAll. cbn zeta.
  destruct (Fs.MkdirAll _ _ _) as [fs1|e]; [|done].
  unfold bind at 1, wrapErr at 1, afs_WriteFile. cbn [w_fs set_fs add_op].
  destruct (Fs.WriteFile _ _ _ _) as [fs2|e]; done.
Qed.

(** With [--create-config] and nothing at the configuration path, [Run]
    is [CreateDefaultClientConfig] and a [return]. *)
Lemma Run_create_config lib l script w w0 p :
  createConfigArg l = true ->
  setupLogging lib l w = (Done tt, w0) ->
  configTarget lib (configPathArg l) = Some p ->
  w_fs w0 !! p = None ->
  Run lib l script w =
    match CreateDefaultClientConfig lib p w0 with
    | (Done _, w') => (Done Returned, w')
    | (Fail e, w') => (Fail e, w')
    | (Panic m, w') => (Panic m, w')
    end.
Proof.
  intros Hcreate Hlog Hp Hn. unfold Run.
  rewrite (bind_Done _ _ _ _ _ Hlog).
  unfold bind at 1, loadConfig.
  pose proof (default_path_resolves lib _ _ w0 Hp) as Hres.
  unfold GetDefaultClientConfigPath in Hres.
  rewrite (bind_Done _ _ _ _ _ Hres).
  unfold bind at 1, try, afs_Stat, Fs.Stat. cbn [configPathArg with_configPath].
  rewrite Hn. cbn [createConfigArg with_configPath]. rewrite Hcreate.
  unfold bind at 1.
  by destruct (CreateDefaultClientConfig lib p w0) as [[[]|e|m] w'].
Qed.

(** C10.  [CreateDefaultClientConfig] fails, and changes nothing, when
    something already exists at the target path.  [Run] with
    [--create-config] and no file at the target path makes the
    configuration directory, writes the embedded default configuration
    with mode 644 and returns: it calls no provider, writes no key, and
    whenever it returns without an error the file is there with the
    default content; it returns without an error whenever the directory can
    be made. *)
Theorem create_config_never_overwrites_and_skips_login (lib : Lib) :
  (forall configPath p w n,
      configTarget lib configPath = Some p ->
      w_fs w !! p = Some n ->
      CreateDefaultClientConfig lib configPath w =
        (Fail (ErrNew ("attempting to create config file but config file already exists at "
                       +:+ p)), w)) /\
  (forall l script w w0 p,
      createConfigArg l = true ->
      setupLogging lib l w = (Done tt, w0) ->
      configTarget lib (configPathArg l) = Some p ->
      w_fs w0 !! p = None ->
      exists r w',
        Run lib l script w = (r, w') /\
        w_calls w' = w_calls w /\
        (exists written,
            w_ops w' = w_ops w0 ++ OpMkdirAll (filepath_Dir p) (perm 7 5 5) :: written /\
            (written = [] \/
             written = [OpWriteFile p (DefaultClientConfig lib) (perm 6 4 4)])) /\
        (r = Done Returned \/ exists e, r = Fail e) /\
        (r = Done Returned ->
         w_fs w' !! p = Some (NFile (DefaultClientConfig lib) (perm 6 4 4))) /\
        (forall fs1,
            Fs.MkdirAll (w_fs w0) (filepath_Dir p) (perm 7 5 5) = Ok fs1 ->
            filepath_Dir p <> p ->
            r = Done Returned)).
Proof.
  split.
  - intros configPath p w n Hp Hn. unfold CreateDefaultClientConfig.
    rewrite (bind_Done _ _ _ _ _ (default_path_resolves lib _ _ w Hp)).
    unfold bind, try, afs_Stat, Fs.Stat. by rewrite Hn.
  - intros l script w w0 p Hcreate Hlog Hp Hn.
    rewrite (Run_create_config lib l script w w0 p Hcreate Hlog Hp Hn).
    pose proof (setupLogging_same_calls lib l _ _ _ Hlog) as Hcalls.
    unfold same_calls in Hcalls.
    rewrite (CreateDefaultClientConfig_fresh lib p w0 (configTarget_nonempty _ _ _ Hp) Hn).
    cbn zeta. unfold Fs.MkdirAll.
    destruct (w_fs w0 !! filepath_Dir p) as [[d m|m]|] eqn:Ed.
    + (* a regular file is in the way of the directory *)
      eexists _, _. split; [reflexivity|]. cbn.
      split; [done|]. split; [exists []; by split; [|left]|].
      split; [right; eauto|]. split; [done|]. intros fs1 H. discriminate.
    + (* the directory exists *)
      assert (Hne : filepath_Dir p <> p) by (intros E; rewrite E in Ed; congruence).
      unfold Fs.WriteFile. rewrite Hn.
      destruct (log_Print_quiet ("created client config file at " +:+ p)
                  (set_fs (fun _ => <[p:=NFile (DefaultClientConfig lib) (perm 6 4 4)]> (w_fs w0))
                     (add_op (OpWriteFile p (DefaultClientConfig lib) (perm 6 4 4))
                        (set_fs (fun _ => w_fs w0)
                           (add_op (OpMkdirAll (filepath_Dir p) (perm 7 5 5)) w0)))))
        as (w' & E & (Qfs & Qops & Qcalls)).
      rewrite E. exists (Done Returned), w'. split; [reflexivity|].
      split; [by rewrite Qcalls|]. split.
      { eexists. split; [|by right]. rewrite Qops. cbn. by rewrite <- app_assoc. }
      split; [by left|]. split; [|done].
      intros _. rewrite Qfs. cbn. by rewrite lookup_insert_eq.
    + (* the directory is made *)
      unfold Fs.WriteFile.
      destruct (decide (filepath_Dir p = p)) as [Heq|Hne].
      * rewrite Heq. rewrite lookup_insert_eq.
        eexists _, _. split; [reflexivity|]. cbn.
        split; [done|]. split.
        { eexists. split; [|by right]. by rewrite <- app_assoc. }
        split; [right; eauto|]. split; [done|]. by intros fs1 _ Hne.
      * rewrite lookup_insert_ne by done. rewrite Hn.
        destruct (log_Print_quiet ("created client config file at " +:+ p)
                    (set_fs (fun _ => <[p:=NFile (DefaultClientConfig lib) (perm 6 4 4)]>
                                        (<[filepath_Dir p:=NDir (perm 7 5 5)]> (w_fs w0)))
                       (add_op (OpWriteFile p (DefaultClientConfig lib) (perm 6 4 4))
                          (set_fs (fun _ => <[filepath_Dir p:=NDir (perm 7 5 5)]> (w_fs w0))
                             (add_op (OpMkdirAll (filepath_Dir p) (perm 7 5 5)) w0)))))
          as (w' & E & (Qfs & Qops & Qcalls)).
        rewrite E. exists (Done Returned), w'. split; [reflexivity|].
        split; [by rewrite Qcalls|]. split.
        { eexists. split; [|by right]. rewrite Qops. cbn. by rewrite <- app_assoc. }
        split; [by left|]. split; [|done].
        intros _. rewrite Qfs. cbn. by rewrite lookup_insert_eq.
Qed.

Lemma create_config_never_overwrites_and_skips_login_witness :
  CreateDefaultClientConfig Sample.lib "" (Sample.world Sample.withConfig) =
    (Fail (ErrNew ("attempting to create config file but config file already exists at "
                   +:+ "/home/alice/.opk/config.yml")),
     Sample.world Sample.withConfig) /\
  fst (Run Sample.lib Sample.createCmd [] (Sample.world ∅)) = Done Returned.
Proof.
  destruct (create_config_never_overwrites_and_skips_login Sample.lib) as [H1 H2].
  split.
  - exact (H1 "" "/home/alice/.opk/config.yml" (Sample.world Sample.withConfig)
              (NFile "default_provider: azure" (perm 6 4 4)) eq_refl eq_refl).
  - destruct (H2 Sample.createCmd [] (Sample.world ∅)
                (set_sink SinkStdout (Sample.world ∅)) "/home/alice/.opk/config.yml")
      as (r & w' & E & _ & _ & _ & _ & Hok); [reflexivity..|].
    rewrite E. cbn [fst].
    apply (Hok (<["/home/alice/.opk" := NDir (perm 7 5 5)]> ∅)); [reflexivity|].
    vm_compute. discriminate.
Defined.

(* ===================================================================== *)
(** * Run: provider resolution and the refresh capability                 *)
(* ===================================================================== *)

Lemma theConfig_preserves l : preserves quiet (theConfig l).
Proof. unfold theConfig. destruct (config l); eauto with preserves typeclass_instances. Qed.

Lemma browserProviders_preserves lib cs ob acc :
  preserves quiet (browserProviders lib cs ob acc).
Proof.
  revert acc. induction cs as [|c cs IH]; intros acc; cbn [browserProviders].
  - eauto with preserves typeclass_instances.
  - apply preserves_bind; [typeclasses eauto | preserves_tac |].
    intros op. destruct (browser op); [apply IH|].
    eauto with preserves typeclass_instances.
Qed.

#[global] Hint Resolve theConfig_preserves browserProviders_preserves : preserves.

Lemma determineProvider_preserves lib l : preserves quiet (determineProvider lib l).
Proof.
  unfold determineProvider.
  repeat first
    [ apply preserves_bind; [typeclasses eauto | | intros ?]
    | apply preserves_wrapErr
    | apply preserves_if
    | solve [eauto with preserves typeclass_instances]
    | match goal with |- preserves _ (match ?x with _ => _ end) => destruct x end ].
Qed.

Lemma GetClientConfigFromFile_preserves lib p : preserves quiet (GetClientConfigFromFile lib p).
Proof.
  unfold GetClientConfigFromFile, GetDefaultClientConfigPath, NewClientConfig. preserves_tac.
Qed.

(** When [loadConfig] hands a command on, it has only read and logged. *)
Lemma loadConfig_Some lib l w l1 w' :
  loadConfig lib l w = (Done (Some l1), w') ->
  quiet w w' /\ exists path c, l1 = with_config (with_configPath l path) c.
Proof.
  unfold loadConfig. intros H.
  apply bind_inv_Done in H as (path & wa & Hpath & H).
  assert (Qa : quiet w wa).
  { revert Hpath. match goal with |- ?c w = _ -> _ => assert (Hp : preserves quiet c) by preserves_tac end.
    apply Hp. }
  cbn zeta in H.
  apply bind_inv_Done in H as (st & wb & Hst & H).
  assert (Qb : quiet wa wb).
  { revert Hst. match goal with |- ?c wa = _ -> _ => assert (Hp : preserves quiet c) by preserves_tac end.
    apply Hp. }
  destruct st as [n|e].
  - apply bind_inv_Done in H as ([] & wc & Hc & H).
    assert (Qc : quiet wb wc).
    { revert Hc. match goal with |- ?c wb = _ -> _ => assert (Hp : preserves quiet c) by preserves_tac end.
      apply Hp. }
    apply bind_inv_Done in H as (cc & wd & Hd & H).
    pose proof (GetClientConfigFromFile_preserves _ _ _ _ _ Hd) as Qd.
    inversion H; subst. split; [|by eexists _, _].
    etrans; [exact Qa|]. etrans; [exact Qb|]. by etrans.
  - destruct (createConfigArg (with_configPath l path)).
    + apply bind_inv_Done in H as ([] & wc & _ & H). discriminate.
    + apply bind_inv_Done in H as ([] & wc & Hc & H).
      pose proof (log_Print_preserves _ _ _ _ Hc) as Qc.
      apply bind_inv_Done in H as (cc & wd & Hd & H).
      apply wrapErr_inv_Done in Hd. unfold NewClientConfig in Hd.
      apply lift_inv_Done in Hd as [_ ->].
      inversion H; subst. split; [|by eexists _, _].
      etrans; [exact Qa|]. by etrans.
Qed.

(** Resolving the provider asks the chooser at most once and touches no
    file. *)
Lemma resolveProvider_Done lib l w provider w' :
  resolveProvider lib l w = (Done provider, w') ->
  same_files w w' /\
  exists asked, w_calls w' = w_calls w ++ asked /\ (asked = [] \/ asked = [CallChooseOp]).
Proof.
  unfold resolveProvider. destruct (overrideProvider l) as [p|].
  - intros H; inversion H; subst. split; [reflexivity|].
    exists []. by rewrite app_nil_r; split; [|left].
  - intros H. apply bind_inv_Done in H as ([op ch] & w1 & Hd & H).
    apply determineProvider_preserves in Hd as (Qfs & Qops & Qcalls).
    destruct ch as [chooser|].
    + assert (H' : (call CallChooseOp ;;;
                    wrapErr "error choosing provider"
                      (lift (ChooseOp lib (providerList chooser) (wc_openBrowser chooser)))) w1
                   = (Done provider, w')) by (by destruct op).
      clear H. apply bind_inv_Done in H' as ([] & w2 & Hc & H).
      inversion Hc; subst w2; clear Hc.
      apply wrapErr_inv_Done, lift_inv_Done in H as [_ ->]. cbn.
      split; [by split|]. exists [CallChooseOp]. rewrite Qcalls. by split; [|right].
    + destruct op as [op|]; [|discriminate]. inversion H; subst.
      split; [by split|]. exists []. rewrite app_nil_r. by split; [|left].
Qed.

(** C9.  When the login command is run with [--auto-refresh] and the
    provider it resolved lacks the refresh capability, [Run] returns the
    error "supplied OpenID Provider (<issuer>) does not support
    auto-refresh and auto-refresh argument set to true" straight after the
    resolution: the only call that may have left the process is the
    chooser's, so no authentication was attempted, and no file was written
    since the configuration was loaded. *)
Theorem auto_refresh_needs_refreshable_provider
    (lib : Lib) (l l1 : LoginCmd) (script : list Tick) (w w1 w2 w3 : World)
    (provider : Provider)
    (Hauto : autoRefreshArg l = true)
    (Hlog : setupLogging lib l w = (Done tt, w1))
    (Hcfg : loadConfig lib l w1 = (Done (Some l1), w2))
    (Hres : resolveProvider lib l1 w2 = (Done provider, w3))
    (Hcap : refreshable provider = false) :
  Run lib l script w =
    (Fail (ErrNew ("supplied OpenID Provider (" +:+ Issuer provider +:+
                   ") does not support auto-refresh and auto-refresh argument set to true")),
     w3) /\
  (exists asked,
      w_calls w3 = w_calls w ++ asked /\ (asked = [] \/ asked = [CallChooseOp])) /\
  (forall p, CallAuth p ∈ w_calls w3 -> CallAuth p ∈ w_calls w) /\
  w_fs w3 = w_fs w1 /\ w_ops w3 = w_ops w1.
Proof.
  pose proof (setupLogging_same_calls _ _ _ _ _ Hlog) as C1. unfold same_calls in C1.
  pose proof (loadConfig_Some _ _ _ _ _ Hcfg) as [(Qfs & Qops & Qcalls) (path & c & ->)].
  pose proof (resolveProvider_Done _ _ _ _ _ Hres) as [[Sfs Sops] (asked & Hcalls & Hasked)].
  assert (Hall : w_calls w3 = w_calls w ++ asked) by (rewrite Hcalls; congruence).
  split; [|split; [|split; [|split]]].
  - unfold Run. rewrite (bind_Done _ _ _ _ _ Hlog). rewrite (bind_Done _ _ _ _ _ Hcfg).
    rewrite (bind_Done _ _ _ _ _ Hres). unfold executeLogin.
    cbn [autoRefreshArg with_config with_configPath]. by rewrite Hauto, Hcap.
  - by exists asked.
  - intros p. rewrite Hall. intros [H|H]%elem_of_app; [done|].
    destruct Hasked as [->| ->]; [by apply elem_of_nil in H|].
    apply list_elem_of_singleton in H. discriminate.
  - congruence.
  - congruence.
Qed.

Lemma auto_refresh_needs_refreshable_provider_witness :
  fst (Run Sample.libEnv Sample.refreshCmd [] (Sample.world Sample.withConfig))
  = Fail (ErrNew ("supplied OpenID Provider (" +:+
                  "https://token.actions.githubusercontent.com" +:+
                  ") does not support auto-refresh and auto-refresh argument set to true")).
Proof.
  destruct (auto_refresh_needs_refreshable_provider
              Sample.libEnv Sample.refreshCmd
              (with_config (with_configPath Sample.refreshCmd "/home/alice/.opk/config.yml")
                 (mkClientConfig "azure" [Sample.google; Sample.azure]))
              [] (Sample.world Sample.withConfig)
              (set_sink SinkStdout (Sample.world Sample.withConfig))
              (set_sink SinkStdout (Sample.world Sample.withConfig))
              (set_sink SinkStdout (Sample.world Sample.withConfig))
              (mkProvider "https://token.actions.githubusercontent.com" false true))
    as [H _]; [reflexivity | reflexivity | vm_compute; reflexivity
              | vm_compute; reflexivity | reflexivity |].
  rewrite H. reflexivity.
Defined.

(* ===================================================================== *)
(** * determineProvider                                                   *)
(* ===================================================================== *)

(** The alias [determineProvider] settles on. *)
Lemma alias_by_precedence lib l cfg w :
  config l = Some cfg ->
  (if negb (String.eqb (providerAliasArg l) "") then ret (providerAliasArg l)
   else if negb (String.eqb
                   match Environ lib !! OPKSSH_DEFAULT_ENVVAR with Some v => v | None => "" end
                   "")
        then ret match Environ lib !! OPKSSH_DEFAULT_ENVVAR with Some v => v | None => "" end
   else
     cfg <- theConfig l ;;
     if negb (String.eqb (DefaultProvider cfg) "") then ret (DefaultProvider cfg)
     else ret WEBCHOOSER_ALIAS) w
  = (Done (firstNamed (aliasSources lib l cfg)), w).
Proof.
  intros Hcfg. unfold aliasSources. cbn [firstNamed].
  destruct (String.eqb (providerAliasArg l) ""); [|done]. cbn [negb].
  destruct (String.eqb _ ""); [|done]. cbn [negb].
  unfold bind, theConfig. rewrite Hcfg. cbn.
  by destruct (String.eqb (DefaultProvider cfg) "").
Qed.

(** The provider list [determineProvider] settles on. *)
Lemma configs_by_precedence l cfg envConfigs w :
  config l = Some cfg ->
  (envConfigs = None -> Providers cfg <> []) ->
  match envConfigs with
  | Some cs => ret cs
  | None =>
      cfg <- theConfig l ;;
      match Providers cfg with
      | _ :: _ => ret (Providers cfg)
      | [] => fail (ErrNew "no providers specified")
      end
  end w = (Done (providerSources envConfigs cfg), w).
Proof.
  intros Hcfg Hne. destruct envConfigs as [cs|]; [done|].
  unfold bind, theConfig. rewrite Hcfg. cbn.
  destruct (Providers cfg) eqn:E; [by destruct Hne|done].
Qed.

(** C5.  [determineProvider] resolves the provider by precedence.  With
    [--provider] the result is made from that argument alone.  Without
    it, the alias is the first non-empty one of [--provider-alias],
    [OPKSSH_DEFAULT] and the configuration's [default_provider], and
    [WEBCHOOSER] when all three are empty; the provider list is
    [OPKSSH_PROVIDERS] if set and the configuration's otherwise; an alias
    other than [WEBCHOOSER] selects the provider of that name from the
    list, and [WEBCHOOSER] hands the whole list to the chooser. *)
Theorem provider_precedence (lib : Lib) (l : LoginCmd) (w : World) :
  let openBrowser := negb (disableBrowserOpenArg l) in
  (providerArg l <> "" ->
   determineProvider lib l w =
     match NewProviderConfigFromString lib (providerArg l) false with
     | Err e => (Fail (ErrWrap "error parsing provider argument" e), w)
     | Ok providerConfig =>
         match ToProvider lib providerConfig openBrowser with
         | Err e => (Fail (ErrWrap "error creating provider from config" e), w)
         | Ok provider => (Done (Some provider, None), w)
         end
     end) /\
  (forall cfg envConfigs,
      providerArg l = "" ->
      config l = Some cfg ->
      GetProvidersConfigFromEnv lib (Environ lib) = Ok envConfigs ->
      (envConfigs = None -> Providers cfg <> []) ->
      let alias := firstNamed (aliasSources lib l cfg) in
      let configs := providerSources envConfigs cfg in
      (ToUpper lib alias <> WEBCHOOSER_ALIAS ->
       forall providerMap providerConfig provider,
         CreateProvidersMap lib configs = Ok providerMap ->
         providerMap !! alias = Some providerConfig ->
         ToProvider lib providerConfig openBrowser = Ok provider ->
         determineProvider lib l w = (Done (Some provider, None), w)) /\
      (ToUpper lib alias = WEBCHOOSER_ALIAS ->
       determineProvider lib l w =
         (providers <- browserProviders lib configs openBrowser [] ;;
          ret (None, Some (NewWebChooser providers openBrowser))) w)).
Proof.
  intros openBrowser. split.
  - intros Harg. unfold determineProvider. apply String.eqb_neq in Harg. rewrite Harg.
    cbn [negb]. unfold bind, wrapErr, lift.
    destruct (NewProviderConfigFromString lib (providerArg l) false) as [pc|e]; [|done].
    cbn. fold openBrowser. by destruct (ToProvider lib pc openBrowser).
  - intros cfg envConfigs Harg Hcfg Henv Hne alias configs.
    assert (Hd : determineProvider lib l w =
                 (if negb (String.eqb (ToUpper lib alias) WEBCHOOSER_ALIAS) then
                    providerMap <- wrapErr "error creating provider map"
                                     (lift (CreateProvidersMap lib configs)) ;;
                    match providerMap !! alias with
                    | None =>
                        fail (ErrNew ("error getting provider config for alias " +:+ alias))
                    | Some providerConfig =>
                        provider <- wrapErr "error creating provider from config"
                                      (lift (ToProvider lib providerConfig openBrowser)) ;;
                        ret (Some provider, None)
                    end
                  else
                    providerList <- browserProviders lib configs openBrowser [] ;;
                    ret (None, Some (NewWebChooser providerList openBrowser))) w).
    { unfold determineProvider. rewrite Harg. cbn [String.eqb negb].
      rewrite Henv. unfold bind at 1, wrapErr at 1. cbn [lift ret].
      rewrite (bind_Done _ _ _ _ _ (alias_by_precedence lib l cfg w Hcfg)).
      rewrite (bind_Done _ _ _ _ _ (configs_by_precedence l cfg envConfigs w Hcfg Hne)).
      reflexivity. }
    split.
    + intros Hup providerMap providerConfig provider Hmap Hlook Hprov.
      rewrite Hd. apply String.eqb_neq in Hup. rewrite Hup. cbn [negb].
      rewrite (bind_Done _ _ _ _ _ (wrapErr_lift_Ok _ _ _ w Hmap)). rewrite Hlook.
      by rewrite (bind_Done _ _ _ _ _ (wrapErr_lift_Ok _ _ _ w Hprov)).
    + intros Hup. rewrite Hd. apply String.eqb_eq in Hup. by rewrite Hup.
Qed.

Lemma provider_precedence_witness :
  determineProvider Sample.libDefault Sample.aliasCmd (Sample.world ∅) =
    (Done (Some (mkProvider "https://accounts.google.com" true true), None),
     Sample.world ∅).
Proof.
  destruct (provider_precedence Sample.libDefault Sample.aliasCmd (Sample.world ∅))
    as [_ H].
  destruct (H (mkClientConfig "azure" [Sample.google; Sample.azure]) None
              eq_refl eq_refl eq_refl) as [Hnamed _]; [discriminate|].
  apply (Hnamed ltac:(discriminate)
           (list_to_map [("google", Sample.google); ("azure", Sample.azure)])
           Sample.google);
    [reflexivity | vm_compute; reflexivity | reflexivity].
Defined.

(* ===================================================================== *)
(** * The refresh loop                                                    *)
(* ===================================================================== *)

#[global] Instance busy_preorder : PreOrder busy.
Proof.
  split.
  - intros w. exists []. by rewrite app_nil_r.
  - intros w1 w2 w3 (l1 & E1 & F1) (l2 & E2 & F2). exists (l1 ++ l2). split.
    + by rewrite E2, E1, <- app_assoc.
    + by apply Forall_app.
Qed.



Lemma fileExists_preserves p : preserves quiet (fileExists p).
Proof. intros w r w' H. rewrite fileExists_eq in H. by inversion H. Qed.

#[global] Hint Resolve fileExists_preserves : preserves.

Lemma writeKeys_same_calls sec pub pem cert : preserves same_calls (writeKeys sec pub pem cert).
Proof. intros w r w' H. by apply writeKeys_frame in H as [H _]. Qed.

Lemma keyFileLoop_same_calls lib sshPath names pem cert :
  preserves same_calls (keyFileLoop lib sshPath names pem cert).
Proof.
  intros w r w' H.
  destruct (keyFileLoop_spec lib sshPath pem cert names w) as (w1 & (_ & _ & Q) & E).
  rewrite E in H. destruct (List.find _ _).
  - apply writeKeys_same_calls in H. unfold same_calls in *. congruence.
  - by inversion H; subst.
Qed.

#[global] Hint Resolve writeKeys_same_calls keyFileLoop_same_calls : preserves.

Lemma writeKeyPair_same_calls lib seckeyPath pem cert :
  preserves same_calls (writeKeyPair lib seckeyPath pem cert).
Proof. unfold writeKeyPair, writeKeysToSSHDir. same_calls_tac. Qed.





(** An iteration logs, waits, and then depends on how the [select] woke. *)
Lemma refreshIteration_start lib seckeyPath t (st : LoginResult * Z) w :
  exists w0,
    quiet w w0 /\
    refreshIteration lib seckeyPath t st w =
      match t_wake t with
      | WakeDone ctxErr => (Fail ctxErr, add_call (CallWait (untilExpired (snd st) (t_now t))) w0)
      | WakeTimer =>
          (log_Print "Refreshing id_token..." ;;;
           call CallRefresh ;;;
           refreshedPkt <- lift (t_refresh t) ;;
           let loginResult :=
             {| lr_pkt := refreshedPkt; lr_signer := lr_signer (fst st);
                lr_client := lr_client (fst st);
                lr_principals := lr_principals (fst st) |} in
           keys <- wrapErr "failed to generate SSH cert"
                     (createSSHCert lib (lr_pkt loginResult) (lr_signer loginResult)
                                    (lr_principals loginResult)) ;;
           writeKeyPair lib seckeyPath (snd keys) (fst keys) ;;;
           comPkt <- lift (Compact lib refreshedPkt) ;;
           parts <- wrapErr "malformed ID token" (lift (SplitCompactString lib comPkt)) ;;
           payload <- wrapErr "refreshed ID token payload is not base64 encoded"
                        (lift (b64url_Decode lib (snd (fst parts)))) ;;
           expiration <- wrapErr "malformed refreshed ID token payload"
                           (unmarshalExp lib payload (snd st)) ;;
           ret (loginResult, expiration))
            (add_call (CallWait (untilExpired (snd st) (t_now t))) w0)
      end.
Proof.
  unfold refreshIteration. cbn zeta.
  destruct (log_Print_quiet
              ("Waiting for " +:+ Duration_String lib (untilExpired (snd st) (t_now t)) +:+
               " before attempting to refresh id_token...") w) as (w0 & E & Q).
  exists w0. split; [exact Q|].
  rewrite (bind_Done _ _ _ _ _ E). unfold bind at 1, call, modify.
  by destruct (t_wake t).
Qed.





(** C6, as amended.  A failure inside the refresh loop ends the loop:
    whatever error an iteration returns is what the loop, and with it
    [LoginWithRefresh], returns, and the rest of the scripted input is
    never looked at.  In particular a failed
    [client.Refresh] is returned as it is after one wait and one refresh
    call, with no file touched: nothing is retried and there is no
    backoff, whatever the error. *)
Theorem refresh_failure_ends_loop
    (lib : Lib) (seckeyPath : string) (t : Tick) (rest : list Tick)
    (lr : LoginResult) (expiration : Z) (w : World) :
  (forall e w',
      refreshIteration lib seckeyPath t (lr, expiration) w = (Fail e, w') ->
      refreshLoop lib seckeyPath (t :: rest) (lr, expiration) w = (Fail e, w') /\
      forall provider printIdToken w0,
        login lib provider printIdToken seckeyPath w0 = (Done lr, w) ->
        unmarshalExp lib (Payload (lr_pkt lr)) 0 w = (Done expiration, w) ->
        LoginWithRefresh lib (t :: rest) provider printIdToken seckeyPath w0 = (Fail e, w')) /\
  (forall e,
      t_wake t = WakeTimer ->
      t_refresh t = Err e ->
      exists w',
        refreshLoop lib seckeyPath (t :: rest) (lr, expiration) w = (Fail e, w') /\
        w_calls w' = w_calls w ++
                       [CallWait (untilExpired expiration (t_now t)); CallRefresh] /\
        w_fs w' = w_fs w /\ w_ops w' = w_ops w).
Proof.
  split.
  - intros e w' H.
    assert (Hloop : refreshLoop lib seckeyPath (t :: rest) (lr, expiration) w = (Fail e, w'))
      by (cbn [refreshLoop]; by rewrite (bind_Fail _ _ _ _ _ H)).
    split; [exact Hloop|].
    intros provider printIdToken w0 Hlogin Hexp. unfold LoginWithRefresh.
    rewrite (bind_Done _ _ _ _ _ Hlogin). by rewrite (bind_Done _ _ _ _ _ Hexp).
  - intros e Hw Hr.
    destruct (refreshIteration_start lib seckeyPath t (lr, expiration) w)
      as (w0 & (Qfs & Qops & Qcalls) & E).
    rewrite Hw, Hr in E. cbn [fst snd] in E.
    destruct (log_Print_quiet "Refreshing id_token..."
                (add_call (CallWait (untilExpired expiration (t_now t))) w0))
      as (w1 & E1 & (Q1fs & Q1ops & Q1calls)).
    rewrite (bind_Done _ _ _ _ _ E1) in E. unfold bind at 1, call, modify in E.
    unfold bind at 1 in E. cbn [lift fail] in E.
    exists (add_call CallRefresh w1). split.
    + cbn [refreshLoop]. by rewrite (bind_Fail _ _ _ _ _ E).
    + cbn. rewrite Q1calls, Q1fs, Q1ops. cbn. rewrite Qcalls, Qfs, Qops.
      by rewrite <- app_assoc.
Qed.

Lemma refresh_failure_ends_loop_witness :
  fst (refreshLoop Sample.lib "/tmp/key" [Sample.failedTick; Sample.goodTick]
         (Sample.loginResult, 1000) (Sample.world ∅))
  = Fail (ErrNew "dial tcp: connection refused").
Proof.
  destruct (refresh_failure_ends_loop Sample.lib "/tmp/key" Sample.failedTick
              [Sample.goodTick] Sample.loginResult 1000 (Sample.world ∅)) as [_ H].
  destruct (H (ErrNew "dial tcp: connection refused") eq_refl eq_refl) as (w' & E & _).
  by rewrite E.
Defined.

(** C6, the sentence as it stands fails: the provider cannot be reached
    when the first refresh is due, an error that is neither
    PROVIDER_UNKNOWN nor a rejected token.  [LoginWithRefresh] returns that
    error; the trace has one refresh and no wait of five seconds followed
    by a second refresh, although the timer would have fired again. *)
Lemma transient_refresh_failure_is_fatal :
  let r := LoginWithRefresh Sample.lib [Sample.failedTick; Sample.goodTick]
             Sample.googleOp false "/tmp/key" (Sample.world ∅) in
  fst r = Fail (ErrNew "dial tcp: connection refused") /\
  ~ retried_with_backoff (w_calls (snd r)).
Proof.
  cbn zeta. split; [vm_compute; reflexivity|].
  intros (before & after & H). vm_compute in H.
  repeat (destruct before as [|? before]; simplify_eq/=).
Qed.

(** [LoginWithRefresh] "only returns if it encounters an error or if the
    supplied context is cancelled": on any script the loop either has
    returned an error or is still running. *)
Lemma refreshLoop_never_returns lib seckeyPath script :
  forall st w, fst (refreshLoop lib seckeyPath script st w) <> Done Returned.
Proof.
  induction script as [|t rest IH]; intros st w; cbn [refreshLoop]; [done|].
  unfold bind. destruct (refreshIteration lib seckeyPath t st w) as [[st'|e|m] w']; [|done|done].
  apply IH.
Qed.

(* ===================================================================== *)
(** * The verify entry point                                              *)
(* ===================================================================== *)

(** [runVerify] once the logger is set up. *)
Lemma runVerify_eq Verify provider args w :
  runVerify Verify provider args w =
    let w1 := add_op (OpOpenFile "/var/log/openpubkey.log" (perm 7 0 0)) w in
    let w2 := match Fs.OpenFile (w_fs w) "/var/log/openpubkey.log" (perm 7 0 0) with
              | Ok fs' => set_sink SinkFile (set_fs (fun _ => fs') w1)
              | Err err => add_stdout ("ERROR opening log file: " +:+ Error err +:+ nl) w1
              end in
    (log_Print (join_args args) ;;;
     if negb (Nat.eqb (length args) 5) then
       log_Print ("Invalid number of arguments for verify, expected: " +:+
                  "`<User (TOKEN u)> <Key type (TOKEN t)> <Cert (TOKEN k)>`") ;;;
       ret 1
     else
       match Verify provider (arg args 2) (arg args 3) (arg args 4) with
       | Err err => log_Print ("failed to verify: " +:+ Error err) ;;; ret 1
       | Ok authKey => fmt_Print (authKey +:+ nl) ;;; ret 0
       end) w2.
Proof.
  unfold runVerify. unfold bind at 1. unfold bind at 1, try, afs_OpenFile.
  cbn zeta. by destruct (Fs.OpenFile _ _ _).
Qed.

(** A log line leaves stdout alone unless the logger points there. *)
Lemma log_Print_stdout s w :
  w_sink w = SinkStderr \/ w_sink w = SinkFile ->
  exists w', log_Print s w = (Done tt, w') /\ w_stdout w' = w_stdout w /\ w_sink w' = w_sink w.
Proof.
  intros [H|H]; unfold log_Print; rewrite H; eexists; (split; [reflexivity|by cbn]).
Qed.

(** With a usable log file the verifier prints the authority line and
    nothing else, or nothing at all. *)
Lemma verify_stdout_clean_when_log_opens Verify provider args w fs' :
  length args = 5%nat ->
  Fs.OpenFile (w_fs w) "/var/log/openpubkey.log" (perm 7 0 0) = Ok fs' ->
  let r := runVerify Verify provider args w in
  match Verify provider (arg args 2) (arg args 3) (arg args 4) with
  | Ok authKey => fst r = Done 0 /\ w_stdout (snd r) = w_stdout w ++ [authKey +:+ nl]
  | Err _ => fst r = Done 1 /\ w_stdout (snd r) = w_stdout w
  end.
Proof.
  intros Hlen Hopen. cbn zeta. rewrite runVerify_eq. cbn zeta. rewrite Hopen, Hlen.
  cbn [Nat.eqb negb].
  match goal with
  | |- context [bind (log_Print ?s) _ ?w0] =>
      destruct (log_Print_stdout s w0) as (w1 & E1 & Hout & Hsink); [by right|];
      rewrite (bind_Done _ _ _ _ _ E1)
  end.
  destruct (Verify provider _ _ _) as [authKey|err].
  - cbn. by rewrite Hout.
  - destruct (log_Print_stdout ("failed to verify: " +:+ Error err) w1)
      as (w2 & E2 & Hout2 & _); [right; by rewrite Hsink|].
    rewrite (bind_Done _ _ _ _ _ E2). cbn. by rewrite Hout2, Hout.
Qed.

(** C1, where the code departs from it.  On a host where
    [/var/log/openpubkey.log] cannot be opened, the verify command prints
    "ERROR opening log file: ..." on stdout before it does anything else:
    an allowed login answers sshd with two lines instead of the one
    authority line, and a denied login exits with status 1 but has
    written to stdout. *)
Theorem verify_prints_log_failure_on_stdout
    (NewGoogleProvider : result Provider)
    (ParseLoginFlags : list string -> option (bool * string))
    (commands_Login commands_LoginWithRefresh : Provider -> M unit)
    (Verify : Provider -> string -> string -> string -> result string)
    (Add : string -> string -> result string)
    (provider : Provider) (prog user certB64 pubkeyType : string) (w : World) (e : error)
    (Hprovider : NewGoogleProvider = Ok provider)
    (Hsink : w_sink w = SinkStderr)
    (Hopen : Fs.OpenFile (w_fs w) "/var/log/openpubkey.log" (perm 7 0 0) = Err e) :
  let r := run NewGoogleProvider ParseLoginFlags commands_Login commands_LoginWithRefresh
             Verify Add [prog; "verify"; user; certB64; pubkeyType] w in
  match Verify provider user certB64 pubkeyType with
  | Ok authKey =>
      fst r = Done 0 /\
      w_stdout (snd r) = w_stdout w ++ ["ERROR opening log file: " +:+ Error e +:+ nl;
                                        authKey +:+ nl]
  | Err _ =>
      fst r = Done 1 /\
      w_stdout (snd r) = w_stdout w ++ ["ERROR opening log file: " +:+ Error e +:+ nl]
  end.
Proof.
  cbn zeta. unfold run. cbn [length Nat.ltb Nat.leb arg nth]. rewrite Hprovider.
  cbn [String.eqb Ascii.eqb Bool.eqb]. rewrite runVerify_eq. cbn zeta. rewrite Hopen.
  cbn [length Nat.eqb negb arg nth].
  match goal with
  | |- context [bind (log_Print ?s) _ ?w0] =>
      destruct (log_Print_stdout s w0) as (w1 & E1 & Hout & Hsink1); [by left|];
      rewrite (bind_Done _ _ _ _ _ E1)
  end.
  cbn in Hout, Hsink1.
  destruct (Verify provider user certB64 pubkeyType) as [authKey|err].
  - cbn. rewrite Hout. by rewrite <- app_assoc.
  - destruct (log_Print_stdout ("failed to verify: " +:+ Error err) w1)
      as (w2 & E2 & Hout2 & _); [left; by rewrite Hsink1|].
    rewrite (bind_Done _ _ _ _ _ E2). cbn. by rewrite Hout2, Hout.
Qed.

Lemma verify_prints_log_failure_on_stdout_witness :
  w_stdout (snd (run (Ok Sample.googleOp) (fun _ => None) (fun _ => ret tt) (fun _ => ret tt)
                   Sample.strictVerify (fun _ _ => Ok "/etc/opk/policy")
                   ["opk-ssh"; "verify"; "alice"; "AAAAE2Vj";
                    "ecdsa-sha2-nistp256-cert-v01@openssh.com"]
                   (Sample.world Sample.noLog)))
  = ["ERROR opening log file: open /var/log/openpubkey.log: is a directory" +:+ nl;
     "cert-authority ecdsa-sha2-nistp256 AAAAE2Vj" +:+ nl].
Proof.
  pose proof (verify_prints_log_failure_on_stdout
                (Ok Sample.googleOp) (fun _ => None) (fun _ => ret tt) (fun _ => ret tt)
                Sample.strictVerify (fun _ _ => Ok "/etc/opk/policy")
                Sample.googleOp "opk-ssh" "alice" "AAAAE2Vj"
                "ecdsa-sha2-nistp256-cert-v01@openssh.com"
                (Sample.world Sample.noLog)
                (ErrNew "open /var/log/openpubkey.log: is a directory")
                eq_refl eq_refl eq_refl) as H.
  cbn zeta in H. by destruct H as [_ H].
Defined.

Lemma arg_short args : (length args < 2)%nat -> arg args 1 = "".
Proof. destruct args as [|a [|b args]]; cbn; intros H; [done|done|lia]. Qed.

(** C4, as amended.  The verify entry point reads its positional
    arguments in the order sshd passes [%u %k %t]: the desired user, then
    the base64 certificate, then the type string; these three, in this
    order, are what the verifier is asked about, and its answer decides
    the exit status.  With any other number of arguments the command
    exits with status 1 and the verifier is not asked. *)
Theorem verify_arguments_user_cert_type
    (NewGoogleProvider : result Provider)
    (ParseLoginFlags : list string -> option (bool * string))
    (commands_Login commands_LoginWithRefresh : Provider -> M unit)
    (Verify : Provider -> string -> string -> string -> result string)
    (Add : string -> string -> result string)
    (provider : Provider) (args : list string) (w : World)
    (Hprovider : NewGoogleProvider = Ok provider)
    (Hcmd : arg args 1 = "verify") :
  let r := run NewGoogleProvider ParseLoginFlags commands_Login commands_LoginWithRefresh
             Verify Add args w in
  (forall prog user certB64 pubkeyType,
      args = [prog; "verify"; user; certB64; pubkeyType] ->
      match Verify provider user certB64 pubkeyType with
      | Ok authKey =>
          fst r = Done 0 /\ List.last (w_stdout (snd r)) "" = authKey +:+ nl
      | Err _ => fst r = Done 1
      end) /\
  (length args <> 5%nat ->
   fst r = Done 1 /\
   forall Verify',
     run NewGoogleProvider ParseLoginFlags commands_Login commands_LoginWithRefresh
       Verify' Add args w = r).
Proof.
  cbn zeta.
  assert (Hrun : forall V,
             run NewGoogleProvider ParseLoginFlags commands_Login commands_LoginWithRefresh
               V Add args w = runVerify V provider args w).
  { intros V. unfold run.
    destruct (length args <? 2)%nat eqn:El.
    - apply Nat.ltb_lt, arg_short in El. rewrite El in Hcmd. discriminate.
    - rewrite Hprovider, Hcmd. reflexivity. }
  rewrite Hrun. split.
  - intros prog user certB64 pubkeyType ->.
    rewrite runVerify_eq. cbn zeta. cbn [length Nat.eqb negb arg nth].
    match goal with
    | |- context [bind (log_Print ?s) _ ?w0] =>
        destruct (log_Print_quiet s w0) as (w1 & E1 & _);
        rewrite (bind_Done _ _ _ _ _ E1)
    end.
    destruct (Verify provider user certB64 pubkeyType) as [authKey|err].
    + cbn. split; [done|]. apply last_last.
    + destruct (log_Print_quiet ("failed to verify: " +:+ Error err) w1) as (w2 & E2 & _).
      by rewrite (bind_Done _ _ _ _ _ E2).
  - intros Hlen.
    assert (Hv : forall V,
               runVerify V provider args w =
               runVerify (fun _ _ _ _ => Err ErrNotExist) provider args w).
    { intros V. rewrite !runVerify_eq. cbn zeta.
      apply Nat.eqb_neq in Hlen. by rewrite Hlen. }
    split.
    + rewrite runVerify_eq. cbn zeta. apply Nat.eqb_neq in Hlen. rewrite Hlen.
      cbn [negb].
      match goal with
      | |- context [bind (log_Print ?s) _ ?w0] =>
          destruct (log_Print_quiet s w0) as (w1 & E1 & _);
          rewrite (bind_Done _ _ _ _ _ E1)
      end.
      match goal with
      | |- context [bind (log_Print ?s) _ ?w0] =>
          destruct (log_Print_quiet s w0) as (w2 & E2 & _);
          by rewrite (bind_Done _ _ _ _ _ E2)
      end.
    + intros V'. rewrite Hrun. rewrite (Hv V'). by rewrite (Hv Verify).
Qed.

Lemma verify_arguments_user_cert_type_witness :
  fst (run (Ok Sample.googleOp) (fun _ => None) (fun _ => ret tt) (fun _ => ret tt)
         Sample.strictVerify (fun _ _ => Ok "/etc/opk/policy")
         ["opk-ssh"; "verify"; "alice"; "AAAAE2Vj";
          "ecdsa-sha2-nistp256-cert-v01@openssh.com"]
         (Sample.world ∅)) = Done 0 /\
  fst (run (Ok Sample.googleOp) (fun _ => None) (fun _ => ret tt) (fun _ => ret tt)
         Sample.strictVerify (fun _ _ => Ok "/etc/opk/policy")
         ["opk-ssh"; "verify"; "alice"; "AAAAE2Vj"]
         (Sample.world ∅)) = Done 1.
Proof.
  split.
  - destruct (verify_arguments_user_cert_type
                (Ok Sample.googleOp) (fun _ => None) (fun _ => ret tt) (fun _ => ret tt)
                Sample.strictVerify (fun _ _ => Ok "/etc/opk/policy") Sample.googleOp
                ["opk-ssh"; "verify"; "alice"; "AAAAE2Vj";
                 "ecdsa-sha2-nistp256-cert-v01@openssh.com"]
                (Sample.world ∅) eq_refl eq_refl) as [H _].
    specialize (H _ _ _ _ eq_refl). cbn in H. by destruct H.
  - destruct (verify_arguments_user_cert_type
                (Ok Sample.googleOp) (fun _ => None) (fun _ => ret tt) (fun _ => ret tt)
                Sample.strictVerify (fun _ _ => Ok "/etc/opk/policy") Sample.googleOp
                ["opk-ssh"; "verify"; "alice"; "AAAAE2Vj"]
                (Sample.world ∅) eq_refl eq_refl) as [_ H].
    destruct H as [H _]; [cbn; lia | exact H].
Defined.

(** C4, the sentence as it stands fails: sshd's command line in the
    claimed order (user, type, certificate) is denied by a verifier that
    would accept that certificate, because the entry point takes the
    second positional argument for the certificate and the third for the
    type. *)
Lemma type_taken_for_certificate : ~ verify_order_as_claimed Sample.strictVerify.
Proof.
  intros H.
  destruct (H Sample.googleOp "opk-ssh" "alice"
              "ecdsa-sha2-nistp256-cert-v01@openssh.com" "AAAAE2Vj" (Sample.world ∅))
    as [_ Hallow].
  assert (Hexit : fst (runVerify Sample.strictVerify Sample.googleOp
                         ["opk-ssh"; "verify"; "alice";
                          "ecdsa-sha2-nistp256-cert-v01@openssh.com"; "AAAAE2Vj"]
                         (Sample.world ∅)) = Done 0).
  { apply Hallow. eexists. reflexivity. }
  vm_compute in Hexit. discriminate.
Qed.

(* ===================================================================== *)
(** * Trusted files: ownership and mode                                   *)
(* ===================================================================== *)

Lemma CheckPerm_None fs own path :
  ServerConfig.CheckPerm fs own path = None <->
  exists n, fs !! path = Some n /\
            ServerConfig.node_mode n = perm 6 4 0 /\
            own path = ("root", "opksshuser").
Proof.
  unfold ServerConfig.CheckPerm. destruct (fs !! path) as [n|].
  - destruct (N.eqb (ServerConfig.node_mode n) ServerConfig.trustedMode) eqn:Em; cbn [negb].
    + apply N.eqb_eq in Em.
      destruct (String.eqb (fst (own path)) ServerConfig.trustedOwner) eqn:Eo; cbn [negb].
      * apply String.eqb_eq in Eo.
        destruct (String.eqb (snd (own path)) ServerConfig.trustedGroup) eqn:Eg; cbn [negb].
        -- apply String.eqb_eq in Eg. split; [|done]. intros _. exists n.
           split; [done|]. split; [done|].
           unfold ServerConfig.trustedOwner, ServerConfig.trustedGroup in *.
           destruct (own path); cbn in *. congruence.
        -- apply String.eqb_neq in Eg. split; [done|].
           intros (n' & _ & _ & Hown). rewrite Hown in Eg. by destruct Eg.
      * apply String.eqb_neq in Eo. split; [done|].
        intros (n' & _ & _ & Hown). rewrite Hown in Eo. by destruct Eo.
    + apply N.eqb_neq in Em. split; [done|].
      intros (n' & Hn & Hm & _). inversion Hn; subst. by destruct Em.
  - split; [done|]. by intros (n & Hn & _).
Qed.

Lemma CheckPerm_kind fs own path n e :
  fs !! path = Some n ->
  ServerConfig.CheckPerm fs own path = Some e ->
  ServerConfig.kind e = ServerConfig.CONFIG_PERMS.
Proof.
  unfold ServerConfig.CheckPerm. intros ->.
  repeat match goal with |- context [if ?b then _ else _] => destruct b end;
    intros H; by inversion H.
Qed.

(** C2.  A trusted server-side file (server configuration, system policy,
    provider file) that exists but is not owned by [root:opksshuser] with
    mode 640 fails to load with a permission error, whatever it contains
    and however it would parse, and the environment is left as it was;
    and when [SetEnvVarInConfig] reports no error, the file is owned by
    [root:opksshuser], has mode 640, parses, and exactly its [env_vars]
    have been exported. *)
Theorem trusted_files_need_owner_and_mode
    (fs : gmap string Node) (own : ServerConfig.Ownership) (path : string) (n : Node)
    (env : gmap string string)
    (Hexists : fs !! path = Some n) :
  (own path <> ("root", "opksshuser") \/ ServerConfig.node_mode n <> perm 6 4 0 ->
   (forall parse, exists e,
       ServerConfig.LoadServerConfig parse fs own path = inl e /\
       ServerConfig.kind e = ServerConfig.CONFIG_PERMS) /\
   (forall Row (parse : string -> option (list Row)), exists e,
       ServerConfig.LoadSystemPolicy parse fs own path = inl e /\
       ServerConfig.kind e = ServerConfig.CONFIG_PERMS) /\
   (forall parse, exists e,
       ServerConfig.LoadProviderFile parse fs own path = inl e /\
       ServerConfig.kind e = ServerConfig.CONFIG_PERMS) /\
   (forall parse, exists e,
       ServerConfig.SetEnvVarInConfig parse fs own path env = (Some e, env) /\
       ServerConfig.kind e = ServerConfig.CONFIG_PERMS)) /\
  (forall parse env',
      ServerConfig.SetEnvVarInConfig parse fs own path env = (None, env') ->
      own path = ("root", "opksshuser") /\
      ServerConfig.node_mode n = perm 6 4 0 /\
      exists content mode cfg,
        n = NFile content mode /\ parse content = Some cfg /\
        env' = ServerConfig.export (ServerConfig.env_vars cfg) env).
Proof.
  split.
  - intros Hbad.
    assert (Hperm : exists e, ServerConfig.CheckPerm fs own path = Some e /\
                              ServerConfig.kind e = ServerConfig.CONFIG_PERMS).
    { destruct (ServerConfig.CheckPerm fs own path) as [e|] eqn:E.
      - exists e. split; [done|]. by eapply CheckPerm_kind.
      - apply CheckPerm_None in E as (n' & Hn & Hm & Ho).
        rewrite Hexists in Hn. inversion Hn; subst. by destruct Hbad. }
    destruct Hperm as (e & He & Hk).
    assert (Hload : forall A (parse : string -> option A),
               ServerConfig.loadTrusted parse fs own path = inl e).
    { intros A parse. unfold ServerConfig.loadTrusted. by rewrite He. }
    repeat split; intros; exists e; (split; [|done]);
      unfold ServerConfig.SetEnvVarInConfig, ServerConfig.LoadServerConfig,
        ServerConfig.LoadSystemPolicy, ServerConfig.LoadProviderFile;
      by rewrite Hload.
  - intros parse env' H.
    unfold ServerConfig.SetEnvVarInConfig, ServerConfig.LoadServerConfig,
      ServerConfig.loadTrusted in H.
    destruct (ServerConfig.CheckPerm fs own path) as [e|] eqn:E; [discriminate|].
    apply CheckPerm_None in E as (n' & Hn & Hm & Ho).
    rewrite Hexists in Hn. inversion Hn; subst n'.
    split; [done|]. split; [done|].
    unfold Fs.ReadFile in H. rewrite Hexists in H.
    destruct n as [content mode|mode]; [|discriminate].
    destruct (parse content) as [cfg|] eqn:Ep; [|discriminate].
    inversion H; subst. by exists content, mode, cfg.
Qed.

Lemma trusted_files_need_owner_and_mode_witness :
  (exists e,
      ServerConfig.SetEnvVarInConfig Sample.parseServerConfig (Sample.serverFs (perm 6 7 7))
        Sample.rootOwned "/etc/opk/server_config.yml" ∅ = (Some e, ∅) /\
      ServerConfig.kind e = ServerConfig.CONFIG_PERMS) /\
  snd (ServerConfig.SetEnvVarInConfig Sample.parseServerConfig (Sample.serverFs (perm 6 4 0))
         Sample.rootOwned "/etc/opk/server_config.yml" ∅)
  = {[ "OPKSSH_TEST_EXAMPLE_VAR1" := "ABC" ]}.
Proof.
  split.
  - destruct (trusted_files_need_owner_and_mode (Sample.serverFs (perm 6 7 7))
                Sample.rootOwned "/etc/opk/server_config.yml"
                (NFile Sample.configContent (perm 6 7 7)) ∅ eq_refl) as [H _].
    destruct H as (_ & _ & _ & H); [right; discriminate|].
    exact (H Sample.parseServerConfig).
  - destruct (trusted_files_need_owner_and_mode (Sample.serverFs (perm 6 4 0))
                Sample.rootOwned "/etc/opk/server_config.yml"
                (NFile Sample.configContent (perm 6 4 0)) ∅ eq_refl) as [_ H].
    destruct (H Sample.parseServerConfig {[ "OPKSSH_TEST_EXAMPLE_VAR1" := "ABC" ]})
      as (_ & _ & content & mode & cfg & _ & _ & Hexp); [vm_compute; reflexivity|].
    vm_compute. reflexivity.
Defined.

(* ===================================================================== *)
(** * More on the key files                                               *)
(* ===================================================================== *)

(** X1.  [writeKeys] is two writes and no transaction.  When the secret
    key cannot be written the function stops there: no file has changed,
    the "Writing opk ssh public key" line is not printed and the
    certificate is not attempted.  When the secret key is written and the
    certificate cannot be, the function fails with the new secret key
    already on disk and the old public-key path as it was. *)
Theorem writeKeys_partial_failure
    (seckeyPath pubkeyPath seckeySshPem certBytes : string) (w : World) :
  (is_dir (w_fs w) seckeyPath ->
   exists e w',
     writeKeys seckeyPath pubkeyPath seckeySshPem certBytes w = (Fail e, w') /\
     w_fs w' = w_fs w /\ w_stdout w' = w_stdout w /\
     w_ops w' = w_ops w ++ [OpWriteFile seckeyPath seckeySshPem (perm 6 0 0)]) /\
  (~ is_dir (w_fs w) seckeyPath -> is_dir (w_fs w) pubkeyPath ->
   pubkeyPath <> seckeyPath ->
   exists e w' m,
     writeKeys seckeyPath pubkeyPath seckeySshPem certBytes w = (Fail e, w') /\
     w_fs w' !! seckeyPath = Some (NFile seckeySshPem m) /\
     w_fs w' !! pubkeyPath = w_fs w !! pubkeyPath /\
     w_ops w' = w_ops w ++
                  [OpWriteFile seckeyPath seckeySshPem (perm 6 0 0);
                   OpWriteFile pubkeyPath (certBytes +:+ " openpubkey") (perm 6 4 4)]).
Proof.
  unfold is_dir, writeKeys, bind, afs_WriteFile, fmt_Print, modify, Fs.WriteFile.
  split.
  - intros Hs. destruct (w_fs w !! seckeyPath) as [[d m|m]|]; try done.
    by eexists _, _.
  - intros Hs Hp Hne.
    destruct (w_fs w !! seckeyPath) as [[d m|m]|] eqn:Es; [|by destruct Hs|]; cbn;
      rewrite lookup_insert_ne by done;
      (destruct (w_fs w !! pubkeyPath) as [[d' m'|m']|] eqn:Ep; try done); cbn;
      eexists _, _, _; (split; [reflexivity|]); cbn;
      rewrite lookup_insert_eq, lookup_insert_ne by done;
      (split; [reflexivity|]); (split; [by rewrite Ep|]); by rewrite <- app_assoc.
Qed.

Lemma writeKeys_partial_failure_witness :
  exists e w',
    writeKeys "/home/alice/.ssh" "/home/alice/.ssh.pub" "PEM" "CERT"
      (Sample.world Sample.sshDir) = (Fail e, w') /\
    w_fs w' = Sample.sshDir.
Proof.
  destruct (writeKeys_partial_failure "/home/alice/.ssh" "/home/alice/.ssh.pub" "PEM" "CERT"
              (Sample.world Sample.sshDir)) as [H _].
  destruct H as (e & w' & E & Hfs & _); [exact I|].
  by exists e, w'.
Defined.

Lemma MkdirAll_Ok fs name mode fs1 :
  Fs.MkdirAll fs name mode = Ok fs1 ->
  (forall p, p <> name -> fs1 !! p = fs !! p) /\ exists m, fs1 !! name = Some (NDir m).
Proof.
  unfold Fs.MkdirAll. destruct (fs !! name) as [[d m|m]|] eqn:E; intros H;
    inversion H; subst.
  - split; [done|eauto].
  - split; [intros p Hp; by rewrite lookup_insert_ne|].
    exists mode. by rewrite lookup_insert_eq.
Qed.




Lemma append_empty_r (s : string) : s +:+ "" = s.
Proof.
  induction s as [|c s IH]; [done|].
  change (String c (s +:+ "") = String c s). by rewrite IH.
Qed.

Lemma keyFree_ext lib fs fs' sec :
  fs' !! sec = fs !! sec -> fs' !! (sec +:+ ".pub") = fs !! (sec +:+ ".pub") ->
  keyFree lib fs' sec = keyFree lib fs sec.
Proof.
  intros H1 H2. unfold keyFree. rewrite !carries_marker_same_fs. by rewrite H1, H2.
Qed.

(** X3.  A key pair written to the default location stays where it is.
    If the ssh library reads the comment [openpubkey] back from a
    certificate line that ends in [" openpubkey"], then after one
    successful write to the default location the next one (a refresh, or
    a later login) succeeds and goes to the same two files. *)
Theorem rewritten_keys_stay_in_place
    (lib : Lib) (home pem cert pem2 cert2 : string) (w w' : World)
    (Hhome : UserHomeDir lib = Ok home)
    (Hparse : ParseAuthorizedKey lib (cert +:+ " openpubkey") = Ok "openpubkey")
    (Hfirst : writeKeyPair lib "" pem cert w = (Done tt, w')) :
  exists sec w'',
    OpWriteFile sec pem (perm 6 0 0) ∈ w_ops w' /\
    writeKeyPair lib "" pem2 cert2 w' = (Done tt, w'') /\
    w_ops w'' = w_ops w' ++
                  [OpMkdirAll (filepath_Join home ".ssh") (perm 7 7 7);
                   OpWriteFile sec pem2 (perm 6 0 0);
                   OpWriteFile (sec +:+ ".pub") (cert2 +:+ " openpubkey") (perm 6 4 4)].
Proof.
  set (sshPath := filepath_Join home ".ssh").
  assert (Hd : sshPath <> "") by apply sshPath_nonempty.
  (* the first write *)
  unfold writeKeyPair in Hfirst. apply wrapErr_inv_Done in Hfirst.
  cbn [String.eqb negb] in Hfirst. unfold writeKeysToSSHDir in Hfirst.
  rewrite Hhome in Hfirst. unfold bind at 1 in Hfirst. cbn [lift ret] in Hfirst.
  unfold bind at 1, afs_MkdirAll in Hfirst. fold sshPath in Hfirst.
  destruct (Fs.MkdirAll (w_fs w) sshPath (perm 7 7 7)) as [fs1|e] eqn:Emk; [|discriminate].
  apply MkdirAll_Ok in Emk as [_ (md & Hdir)].
  set (w0 := set_fs (fun _ => fs1) (add_op (OpMkdirAll sshPath (perm 7 7 7)) w)) in *.
  destruct (keyFileLoop_spec lib sshPath pem cert defaultKeyFilenames w0)
    as (w1 & (Qfs & Qops & _) & Eloop).
  rewrite Eloop in Hfirst. change (w_fs w0) with fs1 in *.
  destruct (List.find _ _) as [sec|] eqn:Ef; [|discriminate].
  pose proof (writeKeys_frame _ _ _ _ _ _ _ Hfirst) as [_ Hframe].
  pose proof (writeKeys_Done _ _ _ _ _ _ Hfirst) as (Hops & (m1 & Hp1 & _) & Hsec).
  destruct Hsec as (m2 & Hs1 & _); [by apply append_suffix_ne|].
  (* the chosen candidate is still the first free one *)
  assert (Hnow : keyFree lib (w_fs w') sec = true).
  { unfold keyFree. rewrite carries_marker_same_fs, Hp1, Hparse. cbn.
    by rewrite orb_true_r. }
  assert (Hfind : List.find (keyFree lib (w_fs w'))
                    (map (filepath_Join sshPath) defaultKeyFilenames) = Some sec).
  { unfold defaultKeyFilenames in *. cbn [map List.find] in *.
    destruct (keyFree lib fs1 (filepath_Join sshPath "id_ecdsa")) eqn:E1.
    - inversion Ef; subst sec. by rewrite Hnow.
    - destruct (keyFree lib fs1 (filepath_Join sshPath "id_ed25519")) eqn:E2;
        [|discriminate]. inversion Ef; subst sec.
      assert (Hin1 : "id_ecdsa" ∈ defaultKeyFilenames) by apply list_elem_of_here.
      assert (Hin2 : "id_ed25519" ∈ defaultKeyFilenames)
        by (apply list_elem_of_further, list_elem_of_here).
      destruct (default_paths_distinct sshPath "id_ecdsa" "id_ed25519" Hin1 Hin2)
        as (D1 & D2 & D3 & D4); [discriminate|].
      rewrite (keyFree_ext lib fs1 (w_fs w') (filepath_Join sshPath "id_ecdsa")).
      + by rewrite E1, Hnow.
      + rewrite Hframe by done. by rewrite Qfs.
      + rewrite Hframe by done. by rewrite Qfs. }
  (* [~/.ssh] is still a directory *)
  assert (Hsec_in : exists name, sec = filepath_Join sshPath name).
  { apply find_some in Ef as [Hin _]. apply in_map_iff in Hin as (name & <- & _). eauto. }
  destruct Hsec_in as (name & Hname).
  assert (Hdir' : w_fs w' !! sshPath = Some (NDir md)).
  { rewrite Hframe; [by rewrite Qfs| |].
    - intros E. apply (filepath_Join_longer sshPath name "" Hd).
      rewrite <- Hname, E. apply append_empty_r.
    - intros E. apply (filepath_Join_longer sshPath name ".pub" Hd). by rewrite <- Hname. }
  (* the second write *)
  set (w0' := set_fs (fun _ => w_fs w') (add_op (OpMkdirAll sshPath (perm 7 7 7)) w')).
  destruct (keyFileLoop_spec lib sshPath pem2 cert2 defaultKeyFilenames w0')
    as (w1' & (Qfs' & Qops' & _) & Eloop').
  change (w_fs w0') with (w_fs w') in *. rewrite Hfind in Eloop'.
  destruct (writeKeys_succeeds sec (sec +:+ ".pub") pem2 cert2 w1') as (w'' & Ew).
  { unfold is_dir. rewrite Qfs', Hs1. by intros []. }
  { unfold is_dir. rewrite Qfs', Hp1. by intros []. }
  { by apply append_suffix_ne. }
  exists sec, w''. split; [|split].
  - rewrite Hops. apply elem_of_app. right. apply list_elem_of_here.
  - unfold writeKeyPair. cbn [String.eqb negb]. unfold wrapErr, writeKeysToSSHDir.
    rewrite Hhome. unfold bind at 1. cbn [lift ret]. unfold bind at 1, afs_MkdirAll.
    fold sshPath. unfold Fs.MkdirAll. rewrite Hdir'. fold w0'. rewrite Eloop'.
    by rewrite Ew.
  - apply writeKeys_Done in Ew as (Hops'' & _). rewrite Hops'', Qops'. cbn.
    by rewrite <- app_assoc.
Qed.

Lemma rewritten_keys_stay_in_place_witness :
  exists sec w'',
    writeKeyPair Sample.lib "" "PEM-2" "CERT-2"
      (snd (writeKeyPair Sample.lib "" "PEM" "ecdsa-sha2-nistp256-cert-v01@openssh.com AAAAE2Vj"
              (Sample.world Sample.foreignKeys')))
    = (Done tt, w'') /\
    OpWriteFile sec "PEM-2" (perm 6 0 0) ∈ w_ops w''.
Proof.
  destruct (writeKeyPair Sample.lib "" "PEM" "ecdsa-sha2-nistp256-cert-v01@openssh.com AAAAE2Vj"
              (Sample.world Sample.foreignKeys'))
    as [r w'] eqn:E.
  assert (Hr : r = Done tt) by (apply (f_equal fst) in E; vm_compute in E; congruence).
  subst r.
  destruct (rewritten_keys_stay_in_place Sample.lib "/home/alice" "PEM"
              "ecdsa-sha2-nistp256-cert-v01@openssh.com AAAAE2Vj" "PEM-2" "CERT-2"
              _ _ eq_refl eq_refl E) as (sec & w'' & _ & E2 & Hops).
  exists sec, w''. split; [exact E2|]. rewrite Hops.
  apply elem_of_app. right. apply list_elem_of_further, list_elem_of_here.
Defined.

(* ===================================================================== *)
(** * More on login                                                       *)
(* ===================================================================== *)

(** X4.  A login that fails before the keys are made writes nothing.  A
    failed key generation is returned as "failed to generate keypair: ..."
    and a failed [client.New] as it is, both with the world untouched; a
    failed authentication is returned as it is after the one call to the
    provider; a failed certificate creation is returned as "failed to
    generate SSH cert: ...".  In all four cases no file has been touched
    and nothing was printed. *)
Theorem login_fails_before_any_write
    (lib : Lib) (provider : Provider) (printIdToken : bool) (seckeyPath : string)
    (w : World) :
  (forall e,
      GenKeyPair lib = Err e ->
      login lib provider printIdToken seckeyPath w
      = (Fail (ErrWrap "failed to generate keypair" e), w)) /\
  (forall signer e,
      GenKeyPair lib = Ok signer ->
      client_New lib provider signer = Err e ->
      login lib provider printIdToken seckeyPath w = (Fail e, w)) /\
  (forall signer opkClient e,
      GenKeyPair lib = Ok signer ->
      client_New lib provider signer = Ok opkClient ->
      Auth lib opkClient = Err e ->
      login lib provider printIdToken seckeyPath w
      = (Fail e, add_call (CallAuth provider) w)) /\
  (forall signer opkClient pkt e w',
      GenKeyPair lib = Ok signer ->
      client_New lib provider signer = Ok opkClient ->
      Auth lib opkClient = Ok pkt ->
      createSSHCert lib pkt signer [] (add_call (CallAuth provider) w) = (Fail e, w') ->
      login lib provider printIdToken seckeyPath w
      = (Fail (ErrWrap "failed to generate SSH cert" e), w') /\
      w_fs w' = w_fs w /\ w_ops w' = w_ops w /\ w_stdout w' = w_stdout w).
Proof.
  unfold login. repeat split.
  - intros e ->. reflexivity.
  - intros signer e -> Hc. unfold bind at 1. cbn [wrapErr lift ret].
    unfold bind at 1. by rewrite Hc.
  - intros signer opkClient e -> Hc Ha. unfold bind at 1. cbn [wrapErr lift ret].
    unfold bind at 1. rewrite Hc. cbn [lift ret].
    unfold bind at 1, call, modify. unfold bind at 1. by rewrite Ha.
  - revert H H0 H1 H2. intros -> Hc Ha Hcert. unfold bind at 1. cbn [wrapErr lift ret].
    unfold bind at 1. rewrite Hc. cbn [lift ret].
    unfold bind at 1, call, modify. unfold bind at 1. rewrite Ha. cbn [lift ret].
    unfold bind at 1, wrapErr at 1. by rewrite Hcert.
  - by destruct (createSSHCert_preserves _ _ _ _ _ _ _ H2) as [? _].
  - by destruct (createSSHCert_preserves _ _ _ _ _ _ _ H2) as [_ ?].
  - revert H2. unfold createSSHCert.
    match goal with
    | |- ?c ?w0 = _ -> _ =>
        assert (Hp : preserves (fun a b => w_stdout b = w_stdout a) c)
    end.
    { assert (PreOrder (fun a b : World => w_stdout b = w_stdout a)).
      { split; [by intros ?|intros ? ? ? ? ?; congruence]. }
      repeat first
        [ apply preserves_bind; [assumption | | intros ?]
        | apply preserves_if
        | solve [apply preserves_lift; assumption]
        | solve [apply preserves_ret; assumption]
        | solve [apply preserves_panic; assumption]
        | solve [intros ? ? ? Hx; by inversion Hx] ]. }
    intros H2. exact (Hp _ _ _ H2).
Qed.

Lemma login_fails_before_any_write_witness :
  login Sample2.libDenied Sample.googleOp false "" (Sample.world Sample.foreignKeys)
  = (Fail (ErrNew "access_denied"),
     add_call (CallAuth Sample.googleOp) (Sample.world Sample.foreignKeys)).
Proof.
  destruct (login_fails_before_any_write Sample2.libDenied Sample.googleOp false ""
              (Sample.world Sample.foreignKeys)) as (_ & _ & H & _).
  exact (H "EPHEMERAL-KEY" (mkOpkClient Sample.googleOp "EPHEMERAL-KEY")
           (ErrNew "access_denied") eq_refl eq_refl eq_refl).
Defined.

(** X5.  The identity is reported after the keys are written, so a
    login can fail with its keys on disk.  When authentication and the
    certificate succeed and the key pair is written, an ID token that
    [oidc.NewJwt] rejects makes [login] return "failed to format ID
    Token: ..." (with [--print-id-token]) or "failed to parse ID Token:
    ..." (without), and the world is the one the write left: the new key
    files are in place. *)
Theorem login_can_fail_after_writing_keys
    (lib : Lib) (provider : Provider) (printIdToken : bool) (seckeyPath : string)
    (w w2 w3 : World) (signer : string) (opkClient : OpkClient) (pkt : PKToken)
    (cert pem : string) (e : error)
    (Hgen : GenKeyPair lib = Ok signer)
    (Hnew : client_New lib provider signer = Ok opkClient)
    (Hauth : Auth lib opkClient = Ok pkt)
    (Hcert : createSSHCert lib pkt signer [] (add_call (CallAuth provider) w)
             = (Done (cert, pem), w2))
    (Hwrite : writeKeyPair lib seckeyPath pem cert w2 = (Done tt, w3))
    (Hjwt : NewJwt lib (OpToken pkt) = Err e) :
  login lib provider printIdToken seckeyPath w
  = (Fail (ErrWrap (if printIdToken then "failed to format ID Token"
                    else "failed to parse ID Token") e), w3) /\
  exists sec m,
    w_fs w3 !! (sec +:+ ".pub") = Some (NFile (cert +:+ " openpubkey") m) /\
    (seckeyPath <> "" -> sec = seckeyPath).
Proof.
  split.
  - unfold login. rewrite Hgen. unfold bind at 1. cbn [wrapErr lift ret].
    unfold bind at 1. rewrite Hnew. cbn [lift ret].
    unfold bind at 1, call, modify. unfold bind at 1. rewrite Hauth. cbn [lift ret].
    unfold bind at 1, wrapErr at 1. rewrite Hcert. cbn [fst snd].
    unfold bind at 1. rewrite Hwrite.
    destruct printIdToken.
    + unfold bind at 1. unfold bind at 1, wrapErr at 1, PrettyIdToken.
      unfold bind at 1. by rewrite Hjwt.
    + unfold bind at 1. cbn [ret]. unfold bind at 1, wrapErr at 1, IdentityString.
      unfold bind at 1. by rewrite Hjwt.
  - apply writeKeyPair_Done in Hwrite
      as (sec & pre & Hpath & _ & _ & (m & Hp & _) & _).
    exists sec, m. split; [done|]. intros Hne. by destruct (Hpath Hne).
Qed.

Lemma login_can_fail_after_writing_keys_witness :
  exists w3 m,
    login Sample2.libBadToken Sample.googleOp false "/tmp/key" (Sample.world ∅)
    = (Fail (ErrWrap "failed to parse ID Token" (ErrNew "malformed jwt")), w3) /\
    w_fs w3 !! "/tmp/key.pub"
    = Some (NFile ("ecdsa-sha2-nistp256-cert-v01@openssh.com CERT-exp-1" +:+ " openpubkey") m).
Proof.
  set (c := createSSHCert Sample2.libBadToken (Sample.token "exp-1") "EPHEMERAL-KEY" []
              (add_call (CallAuth Sample.googleOp) (Sample.world ∅))).
  assert (Ec : c = (Done ("ecdsa-sha2-nistp256-cert-v01@openssh.com CERT-exp-1",
                          "PRIVATE EPHEMERAL-KEY"), snd c))
    by (apply pair_eta; vm_compute; reflexivity).
  set (k := writeKeyPair Sample2.libBadToken "/tmp/key" "PRIVATE EPHEMERAL-KEY"
              "ecdsa-sha2-nistp256-cert-v01@openssh.com CERT-exp-1" (snd c)).
  assert (Ew : k = (Done tt, snd k)) by (apply pair_eta; vm_compute; reflexivity).
  destruct (login_can_fail_after_writing_keys Sample2.libBadToken Sample.googleOp false
              "/tmp/key" (Sample.world ∅) (snd c) (snd k) "EPHEMERAL-KEY"
              (mkOpkClient Sample.googleOp "EPHEMERAL-KEY") (Sample.token "exp-1")
              _ _ (ErrNew "malformed jwt") eq_refl eq_refl eq_refl Ec Ew eq_refl)
    as [Hl (sec & m & Hp & Hsec)].
  exists (snd k), m. split; [exact Hl|].
  rewrite (Hsec ltac:(discriminate)) in Hp. exact Hp.
Defined.



(** The steps of a successful [createSSHCert]. *)
Lemma createSSHCert_inv lib pkt signer principals w certBytes seckeySshBytes w' :
  createSSHCert lib pkt signer principals w = (Done (certBytes, seckeySshBytes), w') ->
  exists cert sshSigner signerMas sshCert seckeySsh,
    sshcert_New lib pkt principals = Ok cert /\
    NewSignerFromSigner lib signer = Ok sshSigner /\
    NewSignerWithAlgorithms lib sshSigner = Ok signerMas /\
    SignCert lib cert signerMas = Ok sshCert /\
    MarshalPrivateKey lib signer "openpubkey cert" = Ok seckeySsh /\
    seckeySshBytes = EncodeToMemory lib seckeySsh /\
    MarshalAuthorizedKey lib sshCert <> "" /\
    certBytes = drop_last (MarshalAuthorizedKey lib sshCert) /\
    w' = add_call (CallSignCert pkt) w.
Proof.
  unfold createSSHCert. intros H.
  apply bind_inv_Done in H as (cert & w1 & H1 & H). apply lift_inv_Done in H1 as [Hc ->].
  apply bind_inv_Done in H as (sshSigner & w1 & H1 & H). apply lift_inv_Done in H1 as [Hs ->].
  apply bind_inv_Done in H as (signerMas & w1 & H1 & H). apply lift_inv_Done in H1 as [Hm ->].
  apply bind_inv_Done in H as ([] & w1 & H1 & H). inversion H1; subst w1; clear H1.
  apply bind_inv_Done in H as (sshCert & w1 & H1 & H). apply lift_inv_Done in H1 as [Hsc ->].
  cbn zeta in H.
  apply bind_inv_Done in H as (cb & w1 & H1 & H).
  destruct (String.eqb (MarshalAuthorizedKey lib sshCert) "") eqn:Ee; [discriminate|].
  inversion H1; subst cb w1; clear H1. apply String.eqb_neq in Ee.
  apply bind_inv_Done in H as (seckeySsh & w1 & H1 & H). apply lift_inv_Done in H1 as [Hk ->].
  inversion H; subst.
  by exists cert, sshSigner, signerMas, sshCert, seckeySsh.
Qed.



(* ===================================================================== *)
(** * More on the refresh loop                                            *)
(* ===================================================================== *)

(** The calls of an iteration that reaches the end of the loop body. *)
Lemma refreshIteration_Done_calls lib seckeyPath t lr expiration w st' w' :
  refreshIteration lib seckeyPath t (lr, expiration) w = (Done st', w') ->
  exists refreshedPkt,
    t_wake t = WakeTimer /\ t_refresh t = Ok refreshedPkt /\
    w_calls w' = w_calls w ++
                   [CallWait (untilExpired expiration (t_now t)); CallRefresh;
                    CallSignCert refreshedPkt].
Proof.
  intros H.
  destruct (refreshIteration_start lib seckeyPath t (lr, expiration) w)
    as (w0 & (_ & _ & Qcalls) & E).
  rewrite E in H. clear E. cbn [fst snd] in H.
  destruct (t_wake t) as [|ctxErr]; [|discriminate].
  apply bind_inv_Done in H as ([] & w1 & H1 & H).
  apply log_Print_preserves in H1 as (_ & _ & Q1calls).
  apply bind_inv_Done in H as ([] & w2 & H2 & H).
  inversion H2; subst w2; clear H2.
  apply bind_inv_Done in H as (refreshedPkt & w2 & H2 & H).
  apply lift_inv_Done in H2 as [Hr ->].
  cbn zeta in H. cbn [lr_pkt lr_signer lr_principals] in H.
  apply bind_inv_Done in H as ([cert pem] & w3 & H3 & H).
  apply wrapErr_inv_Done, createSSHCert_inv in H3
    as (_ & _ & _ & _ & _ & _ & _ & _ & _ & _ & _ & _ & _ & ->).
  apply bind_inv_Done in H as ([] & w4 & H4 & H). cbn [fst snd] in H4.
  apply writeKeyPair_same_calls in H4. unfold same_calls in H4.
  match type of H with
  | ?c w4 = _ => assert (Hp : preserves quiet c)
  end.
  { unfold unmarshalExp. preserves_tac. }
  apply Hp in H as (_ & _ & Q5).
  exists refreshedPkt. split; [done|]. split; [done|].
  rewrite Q5, H4. cbn. rewrite Q1calls. cbn. rewrite Qcalls.
  by rewrite <- !app_assoc.
Qed.

(** X7.  The refresh loop goes through its input one iteration at a
    time and never ends well.  It never returns without an error, and
    neither does [LoginWithRefresh].  When it is still running after [n]
    iterations, every one of them woke on the timer and had its refresh
    answered, and the loop has made [3 n] calls: [n] waits, [n] refreshes
    and [n] signatures. *)
Theorem refresh_loop_runs_through_script
    (lib : Lib) (seckeyPath : string) (script : list Tick) :
  (forall st w, fst (refreshLoop lib seckeyPath script st w) <> Done Returned) /\
  (forall provider printIdToken w,
      fst (LoginWithRefresh lib script provider printIdToken seckeyPath w)
      <> Done Returned) /\
  (forall st w w',
      refreshLoop lib seckeyPath script st w = (Done StillRunning, w') ->
      Forall (fun t => t_wake t = WakeTimer /\ exists p, t_refresh t = Ok p) script /\
      exists made,
        w_calls w' = w_calls w ++ made /\
        length made = (3 * length script)%nat /\
        length (List.filter is_wait made) = length script /\
        length (List.filter is_refresh made) = length script).
Proof.
  assert (Hnever : forall st w, fst (refreshLoop lib seckeyPath script st w) <> Done Returned).
  { induction script as [|t rest IH]; intros st w; cbn [refreshLoop]; [done|].
    unfold bind.
    destruct (refreshIteration lib seckeyPath t st w) as [[st'|e|m] w']; [|done|done].
    apply IH. }
  split; [exact Hnever|]. split.
  - intros provider printIdToken w. unfold LoginWithRefresh, bind.
    destruct (login _ _ _ _ _) as [[lr|e|m] w1]; [|done|done].
    destruct (unmarshalExp _ _ _ _) as [[x|e|m] w2]; [|done|done].
    apply Hnever.
  - clear Hnever. induction script as [|t rest IH]; intros st w w' H.
    + inversion H; subst. split; [constructor|]. exists []. by rewrite app_nil_r.
    + cbn [refreshLoop] in H. apply bind_inv_Done in H as (st' & w1 & Hit & H).
      destruct st as [lr expiration].
      apply refreshIteration_Done_calls in Hit as (pkt' & Hwake & Hrefresh & Hcalls).
      apply IH in H as (Hall & made & Hmade & Hlen & Hw & Hr).
      split; [constructor; eauto|].
      exists ([CallWait (untilExpired expiration (t_now t)); CallRefresh; CallSignCert pkt']
              ++ made).
      split; [by rewrite Hmade, Hcalls, <- app_assoc|].
      cbn [app List.filter is_wait is_refresh length].
      rewrite Hlen, Hw, Hr. cbn [length]. repeat split; lia.
Qed.

Lemma refresh_loop_runs_through_script_witness :
  exists made,
    w_calls (snd (refreshLoop Sample.lib "/tmp/key" [Sample.goodTick; Sample.goodTick]
                    (Sample.loginResult, 1000) (Sample.world ∅))) = made /\
    length made = 6%nat.
Proof.
  set (r := refreshLoop Sample.lib "/tmp/key" [Sample.goodTick; Sample.goodTick]
              (Sample.loginResult, 1000) (Sample.world ∅)).
  assert (Er : r = (Done StillRunning, snd r)) by (apply pair_eta; vm_compute; reflexivity).
  destruct (refresh_loop_runs_through_script Sample.lib "/tmp/key"
              [Sample.goodTick; Sample.goodTick]) as (_ & _ & H).
  destruct (H _ _ _ Er) as (_ & made & Hmade & Hlen & _).
  exists made. split; [exact Hmade|exact Hlen].
Defined.

(* ===================================================================== *)
(** * More on determineProvider                                           *)
(* ===================================================================== *)

(** [determineProvider] without [--provider], up to the choice between a
    named provider and the chooser. *)
Lemma determineProvider_by_alias lib l w cfg envConfigs :
  providerArg l = "" ->
  config l = Some cfg ->
  GetProvidersConfigFromEnv lib (Environ lib) = Ok envConfigs ->
  (envConfigs = None -> Providers cfg <> []) ->
  let openBrowser := negb (disableBrowserOpenArg l) in
  let alias := firstNamed (aliasSources lib l cfg) in
  let configs := providerSources envConfigs cfg in
  determineProvider lib l w =
    (if negb (String.eqb (ToUpper lib alias) WEBCHOOSER_ALIAS) then
       providerMap <- wrapErr "error creating provider map"
                        (lift (CreateProvidersMap lib configs)) ;;
       match providerMap !! alias with
       | None => fail (ErrNew ("error getting provider config for alias " +:+ alias))
       | Some providerConfig =>
           provider <- wrapErr "error creating provider from config"
                         (lift (ToProvider lib providerConfig openBrowser)) ;;
           ret (Some provider, None)
       end
     else
       providerList <- browserProviders lib configs openBrowser [] ;;
       ret (None, Some (NewWebChooser providerList openBrowser))) w.
Proof.
  intros Harg Hcfg Henv Hne. cbn zeta.
  unfold determineProvider. rewrite Harg. cbn [String.eqb negb].
  rewrite Henv. unfold bind at 1, wrapErr at 1. cbn [lift ret].
  rewrite (bind_Done _ _ _ _ _ (alias_by_precedence lib l cfg w Hcfg)).
  rewrite (bind_Done _ _ _ _ _ (configs_by_precedence l cfg envConfigs w Hcfg Hne)).
  reflexivity.
Qed.

(** X8.  Without [--provider], the provider list has to come from
    somewhere.  When [OPKSSH_PROVIDERS] cannot be parsed the error is
    returned as "error getting provider config from env: ...", even if an
    alias was given on the command line; when the variable is unset and
    the client configuration lists no provider the error is "no providers
    specified", whatever alias was asked for.  Neither case has any
    effect on the world. *)
Theorem provider_list_is_required (lib : Lib) (l : LoginCmd) (w : World)
    (Harg : providerArg l = "") :
  (forall e,
      GetProvidersConfigFromEnv lib (Environ lib) = Err e ->
      determineProvider lib l w
      = (Fail (ErrWrap "error getting provider config from env" e), w)) /\
  (forall cfg,
      GetProvidersConfigFromEnv lib (Environ lib) = Ok None ->
      config l = Some cfg ->
      Providers cfg = [] ->
      determineProvider lib l w = (Fail (ErrNew "no providers specified"), w)).
Proof.
  split.
  - intros e Henv. unfold determineProvider. rewrite Harg. cbn [String.eqb negb].
    by rewrite Henv.
  - intros cfg Henv Hcfg Hnone. unfold determineProvider. rewrite Harg.
    cbn [String.eqb negb]. rewrite Henv. unfold bind at 1, wrapErr at 1. cbn [lift ret].
    rewrite (bind_Done _ _ _ _ _ (alias_by_precedence lib l cfg w Hcfg)).
    unfold bind at 1. unfold bind at 1, theConfig. rewrite Hcfg. cbn [ret].
    by rewrite Hnone.
Qed.

Lemma provider_list_is_required_witness :
  determineProvider Sample.lib
    (Sample2.configured "google" (mkClientConfig "google" [])) (Sample.world ∅)
  = (Fail (ErrNew "no providers specified"), Sample.world ∅).
Proof.
  destruct (provider_list_is_required Sample.lib
              (Sample2.configured "google" (mkClientConfig "google" []))
              (Sample.world ∅) eq_refl) as [_ H].
  exact (H (mkClientConfig "google" []) eq_refl eq_refl eq_refl).
Defined.

(** X9.  An alias that names no provider is an error, not a reason to
    look further.  When the alias chosen by precedence is not
    [WEBCHOOSER] and the provider map has no entry under exactly that
    alias, [determineProvider] fails with "error getting provider config
    for alias <alias>": it does not fall back to a source of lower
    precedence or to the chooser. *)
Theorem unknown_alias_is_an_error
    (lib : Lib) (l : LoginCmd) (w : World) (cfg : ClientConfig)
    (envConfigs : option (list ProviderConfig))
    (providerMap : gmap string ProviderConfig)
    (Harg : providerArg l = "")
    (Hcfg : config l = Some cfg)
    (Henv : GetProvidersConfigFromEnv lib (Environ lib) = Ok envConfigs)
    (Hsome : envConfigs = None -> Providers cfg <> [])
    (Hup : ToUpper lib (firstNamed (aliasSources lib l cfg)) <> WEBCHOOSER_ALIAS)
    (Hmap : CreateProvidersMap lib (providerSources envConfigs cfg) = Ok providerMap)
    (Hmiss : providerMap !! firstNamed (aliasSources lib l cfg) = None) :
  determineProvider lib l w
  = (Fail (ErrNew ("error getting provider config for alias "
                   +:+ firstNamed (aliasSources lib l cfg))), w).
Proof.
  rewrite (determineProvider_by_alias lib l w cfg envConfigs Harg Hcfg Henv Hsome).
  apply String.eqb_neq in Hup. rewrite Hup. cbn [negb].
  rewrite (bind_Done _ _ _ _ _ (wrapErr_lift_Ok _ _ _ w Hmap)). by rewrite Hmiss.
Qed.

Lemma unknown_alias_is_an_error_witness :
  determineProvider Sample.libDefault
    (Sample2.configured "Google" (mkClientConfig "azure" [Sample.google; Sample.azure]))
    (Sample.world ∅)
  = (Fail (ErrNew "error getting provider config for alias Google"), Sample.world ∅).
Proof.
  apply (unknown_alias_is_an_error Sample.libDefault
           (Sample2.configured "Google" (mkClientConfig "azure" [Sample.google; Sample.azure]))
           (Sample.world ∅) (mkClientConfig "azure" [Sample.google; Sample.azure]) None
           (list_to_map [("google", Sample.google); ("azure", Sample.azure)]));
    try reflexivity; try discriminate.
Defined.

(** The chooser's list when every configured provider can be built and
    has a browser flow. *)
Lemma browserProviders_all lib openBrowser configs :
  forall providers acc w,
    Forall2 (fun pc p => ToProvider lib pc openBrowser = Ok p /\ browser p = true)
      configs providers ->
    browserProviders lib configs openBrowser acc w = (Done (acc ++ providers), w).
Proof.
  induction configs as [|pc configs IH]; intros providers acc w H.
  - inversion H; subst. cbn. by rewrite app_nil_r.
  - inversion H as [|? p ? ps [Hp Hb] Hrest]; subst. cbn [browserProviders].
    rewrite (bind_Done _ _ _ _ _ (wrapErr_lift_Ok _ _ _ w Hp)). rewrite Hb.
    rewrite (IH ps (acc ++ [p]) w Hrest). by rewrite <- app_assoc.
Qed.

(** The chooser's list stops at the first provider that cannot be built
    or has no browser flow. *)
Lemma browserProviders_stops lib openBrowser good :
  forall providers acc w pc rest,
    Forall2 (fun pc p => ToProvider lib pc openBrowser = Ok p /\ browser p = true)
      good providers ->
    browserProviders lib (good ++ pc :: rest) openBrowser acc w =
      match ToProvider lib pc openBrowser with
      | Err e => (Fail (ErrWrap "error creating provider from config" e), w)
      | Ok p =>
          if browser p then
            browserProviders lib rest openBrowser (acc ++ providers ++ [p]) w
          else (Panic "interface conversion: not a providers.BrowserOpenIdProvider", w)
      end.
Proof.
  induction good as [|g good IH]; intros providers acc w pc rest H.
  - inversion H; subst. cbn [app browserProviders]. unfold bind, wrapErr.
    destruct (ToProvider lib pc openBrowser) as [p|e]; [|done]. cbn.
    by destruct (browser p).
  - inversion H as [|? p ? ps [Hp Hb] Hrest]; subst.
    change ((g :: good) ++ pc :: rest) with (g :: (good ++ pc :: rest)).
    cbn [browserProviders].
    rewrite (bind_Done _ _ _ _ _ (wrapErr_lift_Ok _ _ _ w Hp)). rewrite Hb.
    rewrite (IH ps (acc ++ [p]) w pc rest Hrest).
    destruct (ToProvider lib pc openBrowser) as [q|e]; [|done].
    destruct (browser q); [|done]. by rewrite <- !app_assoc.
Qed.

(** X10.  The chooser is offered every configured provider, in
    configuration order.  When the alias chosen by precedence is
    [WEBCHOOSER] in any spelling that [strings.ToUpper] maps to it, and
    every entry of the provider list builds into a provider with a
    browser flow, [determineProvider] returns no provider and a web
    chooser over exactly those providers, in the order of the list, with
    the browser flag the command line asked for.  If instead an entry
    cannot be built, the error of the first such entry is returned as
    "error creating provider from config: ...". *)
Theorem chooser_offers_every_provider
    (lib : Lib) (l : LoginCmd) (w : World) (cfg : ClientConfig)
    (envConfigs : option (list ProviderConfig))
    (Harg : providerArg l = "")
    (Hcfg : config l = Some cfg)
    (Henv : GetProvidersConfigFromEnv lib (Environ lib) = Ok envConfigs)
    (Hsome : envConfigs = None -> Providers cfg <> [])
    (Hup : ToUpper lib (firstNamed (aliasSources lib l cfg)) = WEBCHOOSER_ALIAS) :
  let openBrowser := negb (disableBrowserOpenArg l) in
  (forall providers,
      Forall2 (fun pc p => ToProvider lib pc openBrowser = Ok p /\ browser p = true)
        (providerSources envConfigs cfg) providers ->
      determineProvider lib l w
      = (Done (None, Some (NewWebChooser providers openBrowser)), w)) /\
  (forall good providers pc rest e,
      providerSources envConfigs cfg = good ++ pc :: rest ->
      Forall2 (fun pc p => ToProvider lib pc openBrowser = Ok p /\ browser p = true)
        good providers ->
      ToProvider lib pc openBrowser = Err e ->
      determineProvider lib l w
      = (Fail (ErrWrap "error creating provider from config" e), w)).
Proof.
  cbn zeta.
  pose proof (determineProvider_by_alias lib l w cfg envConfigs Harg Hcfg Henv Hsome) as Hd.
  cbn zeta in Hd. apply String.eqb_eq in Hup. rewrite Hup in Hd. cbn [negb] in Hd.
  split.
  - intros providers Hall. rewrite Hd.
    by rewrite (bind_Done _ _ _ _ _ (browserProviders_all _ _ _ _ [] w Hall)).
  - intros good providers pc rest e Hsplit Hgood Hbad. rewrite Hd, Hsplit.
    unfold bind. rewrite (browserProviders_stops _ _ _ _ [] w pc rest Hgood).
    by rewrite Hbad.
Qed.

Lemma chooser_offers_every_provider_witness :
  determineProvider Sample.lib
    (Sample2.configured "webChooser" (mkClientConfig "" [Sample.google; Sample.azure]))
    (Sample.world ∅)
  = (Done (None,
           Some (NewWebChooser
                   [mkProvider "https://accounts.google.com" true true;
                    mkProvider "https://login.microsoftonline.com/v2.0" true true] true)),
     Sample.world ∅).
Proof.
  destruct (chooser_offers_every_provider Sample.lib
              (Sample2.configured "webChooser"
                 (mkClientConfig "" [Sample.google; Sample.azure]))
              (Sample.world ∅) (mkClientConfig "" [Sample.google; Sample.azure]) None
              eq_refl eq_refl eq_refl ltac:(discriminate) eq_refl) as [H _].
  apply H. repeat constructor.
Defined.

(** X11.  The chooser branch asserts the browser capability without
    checking it.  When the alias is [WEBCHOOSER] and the first entry of
    the provider list that is not a browser provider builds without
    error, [determineProvider] panics on the type assertion
    [op.(providers.BrowserOpenIdProvider)] instead of returning an error,
    and no chooser is made. *)
Theorem chooser_panics_without_browser_flow
    (lib : Lib) (l : LoginCmd) (w : World) (cfg : ClientConfig)
    (envConfigs : option (list ProviderConfig))
    (good rest : list ProviderConfig) (providers : list Provider)
    (pc : ProviderConfig) (p : Provider)
    (Harg : providerArg l = "")
    (Hcfg : config l = Some cfg)
    (Henv : GetProvidersConfigFromEnv lib (Environ lib) = Ok envConfigs)
    (Hsome : envConfigs = None -> Providers cfg <> [])
    (Hup : ToUpper lib (firstNamed (aliasSources lib l cfg)) = WEBCHOOSER_ALIAS)
    (Hsplit : providerSources envConfigs cfg = good ++ pc :: rest)
    (Hgood : Forall2 (fun pc p => ToProvider lib pc (negb (disableBrowserOpenArg l)) = Ok p
                                  /\ browser p = true) good providers)
    (Hbuilt : ToProvider lib pc (negb (disableBrowserOpenArg l)) = Ok p)
    (Hnone : browser p = false) :
  exists msg, determineProvider lib l w = (Panic msg, w).
Proof.
  pose proof (determineProvider_by_alias lib l w cfg envConfigs Harg Hcfg Henv Hsome) as Hd.
  cbn zeta in Hd. apply String.eqb_eq in Hup. rewrite Hup in Hd. cbn [negb] in Hd.
  rewrite Hd, Hsplit. unfold bind.
  rewrite (browserProviders_stops _ _ _ _ [] w pc rest Hgood). rewrite Hbuilt, Hnone.
  eauto.
Qed.

Lemma chooser_panics_without_browser_flow_witness :
  exists msg,
    determineProvider Sample2.libHeadless
      (Sample2.configured "" (mkClientConfig "" [Sample.google; Sample.azure]))
      (Sample.world ∅)
    = (Panic msg, Sample.world ∅).
Proof.
  apply (chooser_panics_without_browser_flow Sample2.libHeadless
           (Sample2.configured "" (mkClientConfig "" [Sample.google; Sample.azure]))
           (Sample.world ∅) (mkClientConfig "" [Sample.google; Sample.azure]) None
           [Sample.google] [] [mkProvider "https://accounts.google.com" true true]
           Sample.azure (mkProvider "https://login.microsoftonline.com/v2.0" true false));
    try reflexivity; try discriminate.
  repeat constructor.
Defined.

(* ===================================================================== *)
(** * More on the client configuration                                    *)
(* ===================================================================== *)

Lemma loadConfig_path lib l w p :
  configTarget lib (configPathArg l) = Some p ->
  (if String.eqb (configPathArg l) "" then
     dir <- wrapErr "failed to get user config dir" (lift (UserHomeDir lib)) ;;
     ret (filepath_Join (filepath_Join dir ".opk") "config.yml")
   else ret (configPathArg l)) w = (Done p, w).
Proof.
  intros Hp. pose proof (default_path_resolves lib _ _ w Hp) as H.
  unfold GetDefaultClientConfigPath in H. exact H.
Qed.

(** X12.  Something at the configuration path is always loaded, with or
    without [--create-config].  [Run]'s configuration step then reads
    and parses that file and goes on with the login: its result is the
    command with the parsed configuration, or "failed to read config
    file: ..." (a directory at that path), or "failed to parse config
    file: ...".  The flag [--create-config] only adds one log line; it
    neither stops the login nor touches the file. *)
Theorem existing_config_is_loaded
    (lib : Lib) (l : LoginCmd) (w : World) (p : string) (n : Node)
    (Hp : configTarget lib (configPathArg l) = Some p)
    (Hn : w_fs w !! p = Some n) :
  exists w1,
    quiet w w1 /\
    (if createConfigArg l then
       log_Print ("--create-config=true but config file already exists at " +:+ p) w
       = (Done tt, w1)
     else w1 = w) /\
    loadConfig lib l w =
      match Fs.ReadFile (w_fs w) p with
      | Err e => (Fail (ErrWrap "failed to read config file" e), w1)
      | Ok content =>
          match yaml_Unmarshal lib content with
          | Err e => (Fail (ErrWrap "failed to parse config file" e), w1)
          | Ok c => (Done (Some (with_config (with_configPath l p) c)), w1)
          end
      end.
Proof.
  assert (Hne : p <> "") by (by eapply configTarget_nonempty).
  assert (Hget : forall w1, w_fs w1 = w_fs w ->
            GetClientConfigFromFile lib p w1 =
              match Fs.ReadFile (w_fs w) p with
              | Err e => (Fail (ErrWrap "failed to read config file" e), w1)
              | Ok content =>
                  match yaml_Unmarshal lib content with
                  | Err e => (Fail (ErrWrap "failed to parse config file" e), w1)
                  | Ok c => (Done c, w1)
                  end
              end).
  { intros w1 Hfs. unfold GetClientConfigFromFile.
    apply String.eqb_neq in Hne. rewrite Hne. unfold bind at 1. cbn [ret].
    unfold bind at 1, wrapErr at 1, afs_ReadFile. rewrite Hfs.
    destruct (Fs.ReadFile (w_fs w) p) as [content|e]; [|done].
    unfold wrapErr, NewClientConfig. by destruct (yaml_Unmarshal lib content). }
  assert (Hload : forall w1,
            (if createConfigArg l then
               log_Print ("--create-config=true but config file already exists at " +:+ p) w
               = (Done tt, w1)
             else w1 = w) ->
            loadConfig lib l w =
              (client_config <- GetClientConfigFromFile lib p ;;
               ret (Some (with_config (with_configPath l p) client_config))) w1).
  { intros w1 Hw1. unfold loadConfig.
    rewrite (bind_Done _ _ _ _ _ (loadConfig_path lib l w p Hp)).
    unfold bind at 1, try, afs_Stat, Fs.Stat. cbn [configPathArg with_configPath].
    rewrite Hn. cbn [createConfigArg with_configPath].
    destruct (createConfigArg l).
    - by rewrite (bind_Done _ _ _ _ _ Hw1).
    - subst w1. reflexivity. }
  destruct (createConfigArg l) eqn:Ec.
  - destruct (log_Print_quiet ("--create-config=true but config file already exists at "
                               +:+ p) w) as (w1 & E1 & Q).
    exists w1. split; [exact Q|]. split; [exact E1|].
    rewrite (Hload w1 E1). unfold bind. rewrite (Hget w1 (proj1 Q)).
    destruct (Fs.ReadFile (w_fs w) p) as [content|e]; [|done].
    by destruct (yaml_Unmarshal lib content).
  - exists w. split; [reflexivity|]. split; [reflexivity|].
    rewrite (Hload w eq_refl). unfold bind. rewrite (Hget w eq_refl).
    destruct (Fs.ReadFile (w_fs w) p) as [content|e]; [|done].
    by destruct (yaml_Unmarshal lib content).
Qed.

Lemma existing_config_is_loaded_witness :
  exists w1 l1,
    loadConfig Sample.lib Sample.createCmd (Sample.world Sample.withConfig)
    = (Done (Some l1), w1) /\
    config l1 = Some (mkClientConfig "azure" [Sample.google; Sample.azure]) /\
    w_fs w1 = Sample.withConfig.
Proof.
  assert (Hn : w_fs (Sample.world Sample.withConfig) !! "/home/alice/.opk/config.yml"
               = Some (NFile "default_provider: azure" (perm 6 4 4)))
    by (vm_compute; reflexivity).
  destruct (existing_config_is_loaded Sample.lib Sample.createCmd
              (Sample.world Sample.withConfig) "/home/alice/.opk/config.yml"
              _ eq_refl Hn)
    as (w1 & (Qfs & _) & _ & E).
  eexists w1, _. split; [exact E|]. split; [reflexivity|exact Qfs].
Defined.

(** X13.  Without [--create-config] a missing configuration is replaced
    by the embedded default, in memory only.  The configuration step logs
    how to create a configuration file, parses the embedded default and
    goes on with the login; a default that does not parse is "failed to
    parse default config file: ...".  No file is created or changed. *)
Theorem missing_config_falls_back_to_default
    (lib : Lib) (l : LoginCmd) (w : World) (p : string)
    (Hp : configTarget lib (configPathArg l) = Some p)
    (Hn : w_fs w !! p = None)
    (Hflag : createConfigArg l = false) :
  exists w1,
    quiet w w1 /\
    loadConfig lib l w =
      match yaml_Unmarshal lib (DefaultClientConfig lib) with
      | Err e => (Fail (ErrWrap "failed to parse default config file" e), w1)
      | Ok c => (Done (Some (with_config (with_configPath l p) c)), w1)
      end.
Proof.
  destruct (log_Print_quiet
              ("failed to find client config file to generate a default config, "
               +:+ "run `opkssh login --create-config` to create a default config file") w)
    as (w1 & E1 & Q).
  exists w1. split; [exact Q|]. unfold loadConfig.
  rewrite (bind_Done _ _ _ _ _ (loadConfig_path lib l w p Hp)).
  unfold bind at 1, try, afs_Stat, Fs.Stat. cbn [configPathArg with_configPath].
  rewrite Hn. cbn [createConfigArg with_configPath]. rewrite Hflag.
  rewrite (bind_Done _ _ _ _ _ E1). unfold bind, wrapErr, NewClientConfig.
  by destruct (yaml_Unmarshal lib (DefaultClientConfig lib)).
Qed.

Lemma missing_config_falls_back_to_default_witness :
  exists w1 l1,
    loadConfig Sample.lib Sample.cmd (Sample.world ∅) = (Done (Some l1), w1) /\
    config l1 = Some Sample.defaultConfig /\ w_fs w1 = ∅.
Proof.
  assert (Hn : w_fs (Sample.world ∅) !! "/home/alice/.opk/config.yml" = None)
    by (vm_compute; reflexivity).
  destruct (missing_config_falls_back_to_default Sample.lib Sample.cmd (Sample.world ∅)
              "/home/alice/.opk/config.yml" eq_refl Hn eq_refl)
    as (w1 & (Qfs & _) & E).
  eexists w1, _. split; [exact E|]. split; [reflexivity|exact Qfs].
Defined.

(** X14.  Without a configuration path, an unknown home directory stops
    everything that needs the configuration.  [CreateDefaultClientConfig],
    [GetClientConfigFromFile] and the configuration step of [Run] all
    return "failed to get user config dir: ..." with the error of
    [os.UserHomeDir], and leave the world as it is. *)
Theorem unknown_home_stops_config
    (lib : Lib) (l : LoginCmd) (w : World) (e : error)
    (Hhome : UserHomeDir lib = Err e) :
  CreateDefaultClientConfig lib "" w
    = (Fail (ErrWrap "failed to get user config dir" e), w) /\
  GetClientConfigFromFile lib "" w
    = (Fail (ErrWrap "failed to get user config dir" e), w) /\
  (configPathArg l = "" ->
   loadConfig lib l w = (Fail (ErrWrap "failed to get user config dir" e), w)).
Proof.
  repeat split.
  - unfold CreateDefaultClientConfig, GetDefaultClientConfigPath. cbn [String.eqb].
    unfold bind at 1. unfold bind at 1, wrapErr. by rewrite Hhome.
  - unfold GetClientConfigFromFile, GetDefaultClientConfigPath. cbn [String.eqb].
    unfold bind at 1. unfold bind at 1, wrapErr. by rewrite Hhome.
  - intros Hc. unfold loadConfig. rewrite Hc. cbn [String.eqb].
    unfold bind at 1. unfold bind at 1, wrapErr. by rewrite Hhome.
Qed.

Lemma unknown_home_stops_config_witness :
  fst (Run (Sample.lib_with (Err (ErrNew "$HOME is not defined")) ∅) Sample.cmd []
         (Sample.world ∅))
  = Fail (ErrWrap "failed to get user config dir" (ErrNew "$HOME is not defined")).
Proof.
  destruct (unknown_home_stops_config
              (Sample.lib_with (Err (ErrNew "$HOME is not defined")) ∅) Sample.cmd
              (set_sink SinkStdout (Sample.world ∅)) (ErrNew "$HOME is not defined") eq_refl)
    as (_ & _ & H).
  unfold Run. unfold bind at 1. cbn [setupLogging]. 
  change (setupLogging (Sample.lib_with (Err (ErrNew "$HOME is not defined")) ∅) Sample.cmd
            (Sample.world ∅)) with (Done tt, set_sink SinkStdout (Sample.world ∅)).
  unfold bind. by rewrite (H eq_refl).
Defined.

Lemma CreateDefaultClientConfig_at lib cp p w :
  configTarget lib cp = Some p ->
  CreateDefaultClientConfig lib cp w = CreateDefaultClientConfig lib p w.
Proof.
  intros Hp. pose proof (configTarget_nonempty _ _ _ Hp) as Hne.
  apply String.eqb_neq in Hne. unfold CreateDefaultClientConfig.
  rewrite (bind_Done _ _ _ _ _ (default_path_resolves lib cp p w Hp)).
  rewrite Hne. reflexivity.
Qed.

Lemma GetClientConfigFromFile_at lib cp p w :
  configTarget lib cp = Some p ->
  GetClientConfigFromFile lib cp w =
    match Fs.ReadFile (w_fs w) p with
    | Err e => (Fail (ErrWrap "failed to read config file" e), w)
    | Ok content =>
        match yaml_Unmarshal lib content with
        | Err e => (Fail (ErrWrap "failed to parse config file" e), w)
        | Ok c => (Done c, w)
        end
    end.
Proof.
  intros Hp. unfold GetClientConfigFromFile.
  rewrite (bind_Done _ _ _ _ _ (default_path_resolves lib cp p w Hp)).
  unfold bind at 1, wrapErr at 1, afs_ReadFile.
  destruct (Fs.ReadFile (w_fs w) p) as [content|e]; [|done].
  unfold wrapErr, NewClientConfig. by destruct (yaml_Unmarshal lib content).
Qed.

(** X15.  Creating and loading the configuration fit together.  When
    [CreateDefaultClientConfig] succeeds, there was nothing to load
    before ([GetClientConfigFromFile] failed with an error that is
    [os.ErrNotExist]); afterwards the file holds exactly the embedded
    default with mode 0644, [GetClientConfigFromFile] returns the parse
    of that default (or "failed to parse config file: ..."), and a second
    [CreateDefaultClientConfig] is refused with "attempting to create
    config file but config file already exists at <path>" and changes
    nothing. *)
Theorem created_config_round_trip
    (lib : Lib) (cp p : string) (w w' : World)
    (Hp : configTarget lib cp = Some p)
    (Hcreate : CreateDefaultClientConfig lib cp w = (Done tt, w')) :
  (exists e, GetClientConfigFromFile lib cp w
             = (Fail (ErrWrap "failed to read config file" e), w) /\
             errors_Is e ErrNotExist = true) /\
  w_fs w' !! p = Some (NFile (DefaultClientConfig lib) (perm 6 4 4)) /\
  GetClientConfigFromFile lib cp w' =
    match yaml_Unmarshal lib (DefaultClientConfig lib) with
    | Err e => (Fail (ErrWrap "failed to parse config file" e), w')
    | Ok c => (Done c, w')
    end /\
  CreateDefaultClientConfig lib cp w' =
    (Fail (ErrNew ("attempting to create config file but config file already exists at "
                   +:+ p)), w').
Proof.
  pose proof (configTarget_nonempty _ _ _ Hp) as Hne.
  rewrite (CreateDefaultClientConfig_at lib cp p w Hp) in Hcreate.
  assert (Hn : w_fs w !! p = None).
  { destruct (w_fs w !! p) as [n|] eqn:En; [|done]. exfalso.
    revert Hcreate. unfold CreateDefaultClientConfig.
    apply String.eqb_neq in Hne. rewrite Hne.
    unfold bind at 1, ret. unfold bind at 1, try, afs_Stat, Fs.Stat. rewrite En.
    discriminate. }
  assert (Hfile : w_fs w' !! p = Some (NFile (DefaultClientConfig lib) (perm 6 4 4))).
  { revert Hcreate. rewrite (CreateDefaultClientConfig_fresh lib p w Hne Hn). cbn zeta.
    destruct (Fs.MkdirAll (w_fs w) (filepath_Dir p) (perm 7 5 5)) as [fs1|e] eqn:Emk;
      [|discriminate].
    destruct (Fs.WriteFile fs1 p (DefaultClientConfig lib) (perm 6 4 4)) as [fs2|e] eqn:Ewr;
      [|discriminate].
    destruct (log_Print_quiet ("created client config file at " +:+ p)
                (set_fs (fun _ => fs2)
                   (add_op (OpWriteFile p (DefaultClientConfig lib) (perm 6 4 4))
                      (set_fs (fun _ => fs1)
                         (add_op (OpMkdirAll (filepath_Dir p) (perm 7 5 5)) w)))))
      as (w2 & E & (Qfs & _)).
    rewrite E. intros H; inversion H; subst w2. rewrite Qfs. cbn [w_fs set_fs add_op].
    assert (H1 : fs1 !! p = None).
    { revert Emk. unfold Fs.MkdirAll.
      destruct (w_fs w !! filepath_Dir p) as [[d m|m]|] eqn:Ed; intros Hmk;
        inversion Hmk; subst; [done|].
      destruct (decide (filepath_Dir p = p)) as [Heq|Hneq].
      - exfalso. revert Ewr. unfold Fs.WriteFile.
        rewrite Heq, lookup_insert_eq. discriminate.
      - by rewrite lookup_insert_ne. }
    revert Ewr. unfold Fs.WriteFile. rewrite H1.
    intros Hw; inversion Hw. by rewrite lookup_insert_eq. }
  split; [|split; [exact Hfile|split]].
  - rewrite (GetClientConfigFromFile_at lib cp p w Hp). unfold Fs.ReadFile. rewrite Hn.
    eexists. split; [reflexivity|]. apply errors_Is_open_missing.
  - rewrite (GetClientConfigFromFile_at lib cp p w' Hp). unfold Fs.ReadFile.
    by rewrite Hfile.
  - rewrite (CreateDefaultClientConfig_at lib cp p w' Hp). unfold CreateDefaultClientConfig.
    apply String.eqb_neq in Hne. rewrite Hne.
    unfold bind at 1, ret. unfold bind at 1, try, afs_Stat, Fs.Stat. by rewrite Hfile.
Qed.

Lemma created_config_round_trip_witness :
  exists w',
    CreateDefaultClientConfig Sample.lib "" (Sample.world ∅) = (Done tt, w') /\
    GetClientConfigFromFile Sample.lib "" w' = (Done Sample.defaultConfig, w') /\
    fst (CreateDefaultClientConfig Sample.lib "" w') =
      Fail (ErrNew ("attempting to create config file but config file already exists at "
                    +:+ "/home/alice/.opk/config.yml")).
Proof.
  set (w' := snd (CreateDefaultClientConfig Sample.lib "" (Sample.world ∅))).
  assert (Hc : CreateDefaultClientConfig Sample.lib "" (Sample.world ∅) = (Done tt, w'))
    by (vm_compute; reflexivity).
  destruct (created_config_round_trip Sample.lib "" "/home/alice/.opk/config.yml"
              (Sample.world ∅) w' eq_refl Hc) as (_ & _ & Hget & Hagain).
  exists w'. split; [exact Hc|]. split; [exact Hget|]. by rewrite Hagain.
Defined.

(* ===================================================================== *)
(** * More on the dispatcher [run]                                        *)
(* ===================================================================== *)

Lemma runLogin_eq ParseLoginFlags cL cLR provider args w ar dir :
  ParseLoginFlags (skipn 2 args) = Some (ar, dir) ->
  runLogin ParseLoginFlags cL cLR provider args w =
    let w1 :=
      if String.eqb dir "" then w
      else
        let wo := add_op (OpOpenFile (filepath_Join dir "openpubkey.log") (perm 7 0 0)) w in
        match Fs.OpenFile (w_fs w) (filepath_Join dir "openpubkey.log") (perm 7 0 0) with
        | Ok fs' => set_sink SinkStdoutAndFile (set_fs (fun _ => fs') wo)
        | Err _ => wo
        end in
    match (if ar then cLR provider else cL provider) w1 with
    | (Done _, w2) => (Done 0, w2)
    | (Fail err, w2) => (log_Print ("ERROR logging in: " +:+ Error err) ;;; ret 1) w2
    | (Panic m, w2) => (Panic m, w2)
    end.
Proof.
  intros Hf. unfold runLogin. rewrite Hf. cbn zeta.
  unfold bind at 1.
  destruct (String.eqb dir "") eqn:Ed; cbn [negb].
  - cbn [ret]. unfold bind at 1, try.
    by destruct ((if ar then cLR provider else cL provider) w) as [[[]|e|m] w2].
  - unfold bind at 1, try at 1, afs_OpenFile.
    destruct (Fs.OpenFile (w_fs w) _ _) as [fs'|e]; cbn [log_SetOutput modify ret];
      unfold bind at 1, try;
      match goal with |- context [(if ar then _ else _) ?w1] =>
        by destruct ((if ar then cLR provider else cL provider) w1) as [[[]|e'|m] w2] end.
Qed.




(** X17.  [add] takes the e-mail address from argument 2 and the
    principal from argument 3, and wants exactly four arguments.  With
    another number nothing is added: the complaint (which names [verify])
    goes to stdout and the status is 1, whatever the policy writer would
    say.  With four arguments stdout stays as it is, the outcome of the
    policy writer is logged, and the status is 0 exactly when it
    succeeded. *)
Theorem add_takes_email_then_principal
    (NewGoogleProvider : result Provider)
    (ParseLoginFlags : list string -> option (bool * string))
    (commands_Login commands_LoginWithRefresh : Provider -> M unit)
    (Verify : Provider -> string -> string -> string -> result string)
    (Add : string -> string -> result string)
    (provider : Provider) (args : list string) (w : World)
    (Hprovider : NewGoogleProvider = Ok provider)
    (Hcommand : arg args 1 = "add")
    (Hsink : w_sink w = SinkStderr) :
  let r := run NewGoogleProvider ParseLoginFlags commands_Login commands_LoginWithRefresh
             Verify Add args w in
  if Nat.eqb (length args) 4 then
    w_stdout (snd r) = w_stdout w /\
    match Add (arg args 2) (arg args 3) with
    | Ok policyFilePath =>
        fst r = Done 0 /\
        w_stderr (snd r) = w_stderr w ++ ["Successfully added new policy to " +:+ policyFilePath]
    | Err err =>
        fst r = Done 1 /\
        w_stderr (snd r) = w_stderr w ++ ["failed to add to policy: " +:+ Error err]
    end
  else
    r = (Done 1,
         add_stdout ("Invalid number of arguments for verify, expected: " +:+
                     "`<Email (TOKEN e)> <Principal (TOKEN p)>`" +:+ nl) w).
Proof.
  cbn zeta. unfold run.
  destruct (length args <? 2)%nat eqn:Elen.
  { apply Nat.ltb_lt in Elen. by rewrite (arg_short args Elen) in Hcommand. }
  rewrite Hprovider, Hcommand. cbn [String.eqb Ascii.eqb Bool.eqb]. unfold runAdd.
  destruct (Nat.eqb (length args) 4); cbn [negb]; [|reflexivity].
  destruct (Add (arg args 2) (arg args 3)) as [path|err];
    unfold bind, log_Print, ret; cbn beta iota; rewrite Hsink; by cbn.
Qed.

Lemma add_takes_email_then_principal_witness :
  fst (run (Ok Sample.googleOp) Sample3.parseLoginFlags Sample3.deniedLogin
         Sample3.deniedLogin Sample.strictVerify Sample3.addPolicy
         ["opk-ssh"; "add"; ""; "root"] (Sample.world ∅)) = Done 1 /\
  fst (run (Ok Sample.googleOp) Sample3.parseLoginFlags Sample3.deniedLogin
         Sample3.deniedLogin Sample.strictVerify Sample3.addPolicy
         ["opk-ssh"; "add"; "root"; ""] (Sample.world ∅)) = Done 0.
Proof.
  pose proof (add_takes_email_then_principal (Ok Sample.googleOp) Sample3.parseLoginFlags
                Sample3.deniedLogin Sample3.deniedLogin Sample.strictVerify
                Sample3.addPolicy Sample.googleOp ["opk-ssh"; "add"; ""; "root"]
                (Sample.world ∅) eq_refl eq_refl eq_refl) as H1.
  pose proof (add_takes_email_then_principal (Ok Sample.googleOp) Sample3.parseLoginFlags
                Sample3.deniedLogin Sample3.deniedLogin Sample.strictVerify
                Sample3.addPolicy Sample.googleOp ["opk-ssh"; "add"; "root"; ""]
                (Sample.world ∅) eq_refl eq_refl eq_refl) as H2.
  cbn zeta in H1, H2. split; [exact (proj1 (proj2 H1))|exact (proj1 (proj2 H2))].
Defined.

(** X18.  A log directory whose log file cannot be opened is ignored
    without a word.  The [login] command then runs with the logger, the
    files, stdout and stderr as they were (only the request to open
    [<log-dir>/openpubkey.log] with mode 0700 was made), and the exit
    status is that of the login: 0 when it returns no error, 1, after the
    line "ERROR logging in: ..." is logged, when it returns one. *)
Theorem login_ignores_unusable_log_dir
    (NewGoogleProvider : result Provider)
    (ParseLoginFlags : list string -> option (bool * string))
    (commands_Login commands_LoginWithRefresh : Provider -> M unit)
    (Verify : Provider -> string -> string -> string -> result string)
    (Add : string -> string -> result string)
    (provider : Provider) (args : list string) (w : World)
    (autoRefresh : bool) (logDir : string) (e : error)
    (Hprovider : NewGoogleProvider = Ok provider)
    (Hcommand : arg args 1 = "login")
    (Hflags : ParseLoginFlags (skipn 2 args) = Some (autoRefresh, logDir))
    (Hdir : logDir <> "")
    (Hopen : Fs.OpenFile (w_fs w) (filepath_Join logDir "openpubkey.log") (perm 7 0 0)
             = Err e) :
  let w1 := add_op (OpOpenFile (filepath_Join logDir "openpubkey.log") (perm 7 0 0)) w in
  let r := run NewGoogleProvider ParseLoginFlags commands_Login commands_LoginWithRefresh
             Verify Add args w in
  w_fs w1 = w_fs w /\ w_sink w1 = w_sink w /\
  w_stdout w1 = w_stdout w /\ w_stderr w1 = w_stderr w /\ w_logfile w1 = w_logfile w /\
  match (if autoRefresh then commands_LoginWithRefresh provider
         else commands_Login provider) w1 with
  | (Done _, w2) => r = (Done 0, w2)
  | (Fail err, w2) =>
      exists w3, log_Print ("ERROR logging in: " +:+ Error err) w2 = (Done tt, w3) /\
                 r = (Done 1, w3)
  | (Panic m, w2) => r = (Panic m, w2)
  end.
Proof.
  cbn zeta. repeat (split; [reflexivity|]). unfold run.
  destruct (length args <? 2)%nat eqn:Elen.
  { apply Nat.ltb_lt in Elen. by rewrite (arg_short args Elen) in Hcommand. }
  rewrite Hprovider, Hcommand. cbn [String.eqb Ascii.eqb Bool.eqb].
  rewrite (runLogin_eq _ _ _ _ _ _ _ _ Hflags). cbn zeta.
  apply String.eqb_neq in Hdir. rewrite Hdir, Hopen.
  destruct ((if autoRefresh then commands_LoginWithRefresh provider
             else commands_Login provider) _) as [[[]|err|m] w2]; [done| |done].
  destruct (log_Print_quiet ("ERROR logging in: " +:+ Error err) w2) as (w3 & E & _).
  exists w3. split; [exact E|]. by rewrite (bind_Done _ _ _ _ _ E).
Qed.

Lemma login_ignores_unusable_log_dir_witness :
  exists w',
    run (Ok Sample.googleOp) Sample3.parseLoginFlags Sample3.deniedLogin
      Sample3.deniedLogin Sample.strictVerify Sample3.addPolicy
      ["opk-ssh"; "login"; "--log-dir"; "/home/alice/logs"] (Sample.world Sample3.logTaken)
    = (Done 1, w') /\
    w_stdout w' = [] /\ w_logfile w' = [] /\
    w_stderr w' = ["ERROR logging in: access_denied"].
Proof.
  assert (Hopen : Fs.OpenFile (w_fs (Sample.world Sample3.logTaken))
                    (filepath_Join "/home/alice/logs" "openpubkey.log") (perm 7 0 0)
                  = Err (ErrNew "open /home/alice/logs/openpubkey.log: is a directory"))
    by (vm_compute; reflexivity).
  assert (Hdir : "/home/alice/logs" <> "") by discriminate.
  pose proof (login_ignores_unusable_log_dir (Ok Sample.googleOp) Sample3.parseLoginFlags
                Sample3.deniedLogin Sample3.deniedLogin Sample.strictVerify
                Sample3.addPolicy Sample.googleOp
                ["opk-ssh"; "login"; "--log-dir"; "/home/alice/logs"]
                (Sample.world Sample3.logTaken) false "/home/alice/logs" _
                eq_refl eq_refl eq_refl Hdir Hopen) as H.
  cbn zeta in H. destruct H as (_ & _ & _ & _ & _ & H).
  cbn [Sample3.deniedLogin fail] in H. destruct H as (w3 & E & Hr).
  exists w3. split; [exact Hr|].
  unfold log_Print in E. inversion E. by vm_compute.
Defined.



(* ===================================================================== *)
(** * More on [login] and [Run]                                           *)
(* ===================================================================== *)

(** X20.  A successful [login] reports the identity on stdout after the
    keys are written, and prints nothing else after the write.  The
    last line is "Keys generated for identity" with the claims of the
    ID token: e-mail, subject, issuer and audience, or only the last
    three when the token has no e-mail.  With [--print-id-token] the
    indented claims are printed just before it, and never otherwise. *)
Theorem login_reports_identity
    (lib : Lib) (provider : Provider) (printIdToken : bool) (seckeyPath : string)
    (w w' : World) (lr : LoginResult)
    (Hlogin : login lib provider printIdToken seckeyPath w = (Done lr, w')) :
  exists claims cert pem w2 w3,
    NewJwt lib (OpToken (lr_pkt lr)) = Ok claims /\
    writeKeyPair lib seckeyPath pem cert w2 = (Done tt, w3) /\
    let idStr :=
      if String.eqb (Email claims) "" then
        "Sub, issuer, audience: " +:+ nl +:+ Subject claims +:+ " " +:+
        ClaimIssuer claims +:+ " " +:+ Audience claims
      else
        "Email, sub, issuer, audience: " +:+ nl +:+ Email claims +:+ " " +:+
        Subject claims +:+ " " +:+ ClaimIssuer claims +:+ " " +:+ Audience claims in
    let identity := "Keys generated for identity" +:+ nl +:+ idStr +:+ nl in
    if printIdToken then
      exists idTokenStr,
        json_MarshalIndent lib claims = Ok idTokenStr /\
        w_stdout w' = w_stdout w3 ++ ["id_token:" +:+ nl +:+ idTokenStr +:+ nl; identity]
    else
      w_stdout w' = w_stdout w3 ++ [identity].
Proof.
  revert Hlogin. unfold login. intros H.
  apply bind_inv_Done in H as (signer & w1 & H1 & H).
  apply wrapErr_inv_Done, lift_inv_Done in H1 as [Hg ->].
  apply bind_inv_Done in H as (opkClient & w1 & H1 & H).
  apply lift_inv_Done in H1 as [Hc ->].
  apply bind_inv_Done in H as ([] & w1 & H1 & H).
  inversion H1; subst w1; clear H1.
  apply bind_inv_Done in H as (pkt & w1 & H1 & H).
  apply lift_inv_Done in H1 as [Ha ->].
  apply bind_inv_Done in H as ([cert pem] & w2 & H2 & H).
  apply bind_inv_Done in H as ([] & w3 & H3 & H).
  cbn [fst snd] in H3.
  apply bind_inv_Done in H as ([] & w4 & H4 & H).
  apply bind_inv_Done in H as (idStr & w5 & H5 & H).
  apply wrapErr_inv_Done in H5. unfold IdentityString in H5.
  apply bind_inv_Done in H5 as (claims & w6 & H6 & H5).
  apply lift_inv_Done in H6 as [Hjwt ->].
  apply bind_inv_Done in H as ([] & w7 & H7 & H).
  inversion H; subst lr w7; clear H. cbn [lr_pkt].
  exists claims, cert, pem, w2, w3. split; [exact Hjwt|]. split; [exact H3|]. cbn zeta.
  assert (Hid : w5 = w4 /\
                idStr = if String.eqb (Email claims) "" then
                          "Sub, issuer, audience: " +:+ nl +:+ Subject claims +:+ " " +:+
                          ClaimIssuer claims +:+ " " +:+ Audience claims
                        else
                          "Email, sub, issuer, audience: " +:+ nl +:+ Email claims +:+ " "
                          +:+ Subject claims +:+ " " +:+ ClaimIssuer claims +:+ " " +:+
                          Audience claims).
  { destruct (String.eqb (Email claims) ""); by inversion H5. }
  destruct Hid as [-> ->].
  unfold fmt_Print, modify in H7. inversion H7; subst w'; clear H7.
  destruct printIdToken.
  - apply bind_inv_Done in H4 as (idTokenStr & w8 & H8 & H4).
    apply wrapErr_inv_Done in H8. unfold PrettyIdToken in H8.
    apply bind_inv_Done in H8 as (claims' & w9 & H9 & H8).
    apply lift_inv_Done in H9 as [Hjwt' ->].
    apply lift_inv_Done in H8 as [Hjson ->].
    assert (claims' = claims) by congruence. subst claims'.
    unfold fmt_Print, modify in H4. inversion H4; subst w4; clear H4.
    exists idTokenStr. split; [exact Hjson|]. cbn. by rewrite <- app_assoc.
  - inversion H4; subst w4. reflexivity.
Qed.

Lemma login_reports_identity_witness :
  exists lr w',
    login Sample.lib Sample.googleOp false "/tmp/key" (Sample.world ∅) = (Done lr, w') /\
    exists before line, w_stdout w' = before ++ [line].
Proof.
  set (r := login Sample.lib Sample.googleOp false "/tmp/key" (Sample.world ∅)).
  assert (Hr : r = (Done Sample.loginResult, snd r)) by (vm_compute; reflexivity).
  destruct (login_reports_identity Sample.lib Sample.googleOp false "/tmp/key"
              (Sample.world ∅) (snd r) Sample.loginResult Hr)
    as (claims & cert & pem & w2 & w3 & _ & Hw & Hout).
  exists Sample.loginResult, (snd r). split; [exact Hr|].
  cbn zeta in Hout. eexists (w_stdout w3), _. exact Hout.
Defined.

(** X21.  A log directory in which the log file cannot be opened stops
    [Run] with a panic.  The failure is logged, and then the deferred
    [logFile.Close()] on the nil file panics: the configuration is not
    read, no provider is asked, and nothing is written; the only
    request made is the one to open [<log-dir>/opkssh.log] with mode
    0660. *)
Theorem unusable_log_dir_panics
    (lib : Lib) (l : LoginCmd) (script : list Tick) (w : World) (e : error)
    (Hdir : logDirArg l <> "")
    (Hopen : Fs.OpenFile (w_fs w) (filepath_Join (logDirArg l) "opkssh.log") (perm 6 6 0)
             = Err e) :
  exists w',
    Run lib l script w = (Panic "invalid memory address or nil pointer dereference", w') /\
    log_Print ("Failed to open log for writing: " +:+ Error e +:+ " " +:+ nl)
      (add_op (OpOpenFile (filepath_Join (logDirArg l) "opkssh.log") (perm 6 6 0)) w)
    = (Done tt, w') /\
    w_fs w' = w_fs w /\ w_calls w' = w_calls w /\
    w_ops w' = w_ops w ++ [OpOpenFile (filepath_Join (logDirArg l) "opkssh.log") (perm 6 6 0)].
Proof.
  destruct (log_Print_quiet
              ("Failed to open log for writing: " +:+ Error e +:+ " " +:+ nl)
              (add_op (OpOpenFile (filepath_Join (logDirArg l) "opkssh.log") (perm 6 6 0)) w))
    as (w' & E & (Qfs & Qops & Qcalls)).
  exists w'. split; [|split; [exact E|by rewrite Qfs, Qops, Qcalls]].
  unfold Run, setupLogging. apply String.eqb_neq in Hdir. rewrite Hdir. cbn [negb].
  cbn zeta. unfold bind at 1. unfold bind at 1. unfold bind at 1.
  unfold try, afs_OpenFile. rewrite Hopen.
  unfold bind at 1. rewrite E. reflexivity.
Qed.

Lemma unusable_log_dir_panics_witness :
  fst (Run Sample.lib (Sample3.loggingCmd "/home/alice/logs") []
         (Sample.world Sample3.opksshLogTaken))
  = Panic "invalid memory address or nil pointer dereference".
Proof.
  assert (Hopen : Fs.OpenFile (w_fs (Sample.world Sample3.opksshLogTaken))
                    (filepath_Join (logDirArg (Sample3.loggingCmd "/home/alice/logs"))
                       "opkssh.log") (perm 6 6 0)
                  = Err (ErrNew "open /home/alice/logs/opkssh.log: is a directory"))
    by (vm_compute; reflexivity).
  assert (Hdir : logDirArg (Sample3.loggingCmd "/home/alice/logs") <> "") by discriminate.
  destruct (unusable_log_dir_panics Sample.lib (Sample3.loggingCmd "/home/alice/logs") []
              (Sample.world Sample3.opksshLogTaken) _ Hdir Hopen) as (w' & H & _).
  by rewrite H.
Defined.

(** X22.  [Run] names the step that failed.  Once the log is set up, the
    configuration is loaded and a provider is found, an error [e] of
    the login itself comes back as "error logging in: e", with or
    without auto-refresh and whatever the refresh loop would have done
    afterwards.  An error [e] of the chooser comes back as "error
    choosing provider: e" after the one call to [ChooseOp], before any
    authentication. *)
Theorem Run_names_the_failed_step
    (lib : Lib) (l l1 : LoginCmd) (script : list Tick) (w w0 w1 : World)
    (Hlog : setupLogging lib l w = (Done tt, w0))
    (Hconfig : loadConfig lib l w0 = (Done (Some l1), w1)) :
  (forall provider w2 e w3,
      resolveProvider lib l1 w1 = (Done provider, w2) ->
      (autoRefreshArg l1 = true -> refreshable provider = true) ->
      login lib provider (printIdTokenArg l1) (keyPathArg l1) w2 = (Fail e, w3) ->
      Run lib l script w = (Fail (ErrWrap "error logging in" e), w3)) /\
  (forall op chooser w2 e,
      overrideProvider l1 = None ->
      determineProvider lib l1 w1 = (Done (op, Some chooser), w2) ->
      ChooseOp lib (providerList chooser) (wc_openBrowser chooser) = Err e ->
      Run lib l script w
      = (Fail (ErrWrap "error choosing provider" e), add_call CallChooseOp w2)).
Proof.
  split.
  - intros provider w2 e w3 Hres Href Hfail. unfold Run.
    rewrite (bind_Done _ _ _ _ _ Hlog), (bind_Done _ _ _ _ _ Hconfig).
    rewrite (bind_Done _ _ _ _ _ Hres). unfold executeLogin.
    destruct (autoRefreshArg l1).
    + rewrite (Href eq_refl). unfold wrapErr, LoginWithRefresh. unfold bind at 1.
      by rewrite Hfail.
    + unfold bind at 1, wrapErr, Login. unfold bind at 1. by rewrite Hfail.
  - intros op chooser w2 e Hover Hdet Hchoose. unfold Run.
    rewrite (bind_Done _ _ _ _ _ Hlog), (bind_Done _ _ _ _ _ Hconfig).
    unfold bind at 1, resolveProvider. rewrite Hover.
    rewrite (bind_Done _ _ _ _ _ Hdet).
    assert (Hc : (call CallChooseOp ;;;
                  wrapErr "error choosing provider"
                    (lift (ChooseOp lib (providerList chooser) (wc_openBrowser chooser)))) w2
                 = (Fail (ErrWrap "error choosing provider" e), add_call CallChooseOp w2)).
    { unfold bind, call, modify, wrapErr. by rewrite Hchoose. }
    destruct op; by rewrite Hc.
Qed.

Lemma Run_names_the_failed_step_witness :
  fst (Run Sample2.libDenied Sample.cmd [] (Sample.world ∅))
  = Fail (ErrWrap "error logging in" (ErrNew "access_denied")).
Proof.
  set (l1 := with_config (with_configPath Sample.cmd "/home/alice/.opk/config.yml")
               Sample.defaultConfig).
  set (w0 := snd (setupLogging Sample2.libDenied Sample.cmd (Sample.world ∅))).
  set (w1 := snd (loadConfig Sample2.libDenied Sample.cmd w0)).
  set (w2 := snd (resolveProvider Sample2.libDenied l1 w1)).
  set (w3 := snd (login Sample2.libDenied Sample.googleOp false "" w2)).
  assert (Hlog : setupLogging Sample2.libDenied Sample.cmd (Sample.world ∅) = (Done tt, w0))
    by (vm_compute; reflexivity).
  assert (Hconfig : loadConfig Sample2.libDenied Sample.cmd w0 = (Done (Some l1), w1))
    by (vm_compute; reflexivity).
  assert (Hres : resolveProvider Sample2.libDenied l1 w1 = (Done Sample.googleOp, w2))
    by (vm_compute; reflexivity).
  assert (Hfail : login Sample2.libDenied Sample.googleOp (printIdTokenArg l1)
                    (keyPathArg l1) w2 = (Fail (ErrNew "access_denied"), w3))
    by (vm_compute; reflexivity).
  destruct (Run_names_the_failed_step Sample2.libDenied Sample.cmd l1 []
              (Sample.world ∅) w0 w1 Hlog Hconfig) as [H _].
  rewrite (H Sample.googleOp w2 (ErrNew "access_denied") w3 Hres); [reflexivity| |exact Hfail].
  discriminate.
Defined.
